(** * probnum.probability: distributions, random variables and their arithmetic

    A shallow embedding of [src/probnum/probability.py].

    - Distribution instances live in a store ([heap]); a method that mutates
      [self] (every operator of [Dirac]) rewrites the store entry, so that
      aliasing is visible.
    - The lambdas that the generic operators pass to [Distribution(...)] are
      defunctionalised: one constructor per lambda of the source, holding what
      the lambda captures ([self] by reference, [delta] by value).
    - numpy, scipy and the builtin numbers are outside the repository: they
      are an interface ([ArrayLayer]) that the development is parametric in.
      [PyNum] is a reference instance on Python ints, Python floats
      (binary64), numpy's float64 scalars and float64 arrays, used to run the
      closed examples.
    - A Python exception is a [Raise]; the store survives it. *)

From Stdlib Require Import ZArith String List Bool Lia.
From Stdlib Require Import Floats.PrimFloat Floats.SpecFloat Floats.FloatOps.
From stdpp Require Import gmap strings list.

Local Open Scope string_scope.
Local Open Scope list_scope.
Local Open Scope Z_scope.

(** ** Exceptions and results *)

Inductive exn : Type :=
| NotImplementedError (msg : string)
| ValueError (msg : string)
| TypeError (msg : string)
| ZeroDivisionError (msg : string)
| OverflowError (msg : string)
| AttributeError (msg : string)
| IndexError (msg : string)
| KeyError (key : string)
| RecursionError
  (* a location with no object behind it: cannot happen in Python, where a
     reference keeps its object alive *)
| Dangling
  (* the outcome [PyNum] gives to a numerical routine whose result it
     does not determine (libm, BLAS, scipy.stats) *)
| NotModelled (what : string).

Inductive result (A : Type) : Type :=
| Return (a : A)
| Raise (e : exn).
Arguments Return {A} a.
Arguments Raise {A} e.

Definition rbind {A B : Type} (r : result A) (k : A -> result B) : result B :=
  match r with
  | Return a => k a
  | Raise e => Raise e
  end.

Notation "'let?' x ':=' r 'in' k" := (rbind r (fun x => k))
  (at level 10, x name, r at level 100, k at level 200,
   format "'[v' 'let?'  x  ':='  r  'in' '/' k ']'").

(** A tuple index [t[i]]. *)
Definition tuple_index (t : list Z) (i : nat) : result Z :=
  match t !! i with
  | Some d => Return d
  | None => Raise (IndexError "tuple index out of range")
  end.

(** The [size] argument of [sample]: an int or a tuple of ints. *)
Inductive size : Type :=
| size_int (n : Z)
| size_tuple (dims : list Z).

(** [size == 1] *)
Definition size_eq_1 (s : size) : bool :=
  match s with
  | size_int n => n =? 1
  | size_tuple _ => false
  end.

Definition dtype : Type := string.

(** The four evaluation methods of a distribution. *)
Inductive method : Type := pdf | logpdf | cdf | logcdf.

Definition method_name (m : method) : string :=
  match m with
  | pdf => "pdf" | logpdf => "logpdf" | cdf => "cdf" | logcdf => "logcdf"
  end.

(** ** The array layer

    What the module imports from numpy and scipy, and the operators of the
    values it is handed: scalars ([np.isscalar]), arrays, sparse matrices
    and linear operators.  Every operation may raise. *)

Class ArrayLayer (V : Type) : Type := {
  np_isscalar : V -> bool;
  class_name : V -> string;                       (* type(v).__name__ *)
  shape_of : V -> list Z;                         (* v.shape *)
  dtype_of : V -> dtype;                          (* v.dtype, np.dtype(type(v)) *)
  py_int : Z -> V;                                (* an int literal *)
  py_float : float -> V;                          (* a float literal *)
  v_add : V -> V -> result V;                     (* a + b *)
  v_sub : V -> V -> result V;                     (* a - b *)
  v_mul : V -> V -> result V;                     (* a * b *)
  v_matmul : V -> V -> result V;                  (* a @ b *)
  v_truediv : V -> V -> result V;                 (* a / b *)
  v_pow : V -> V -> option V -> result V;         (* pow(a, b, modulo) *)
  v_neg : V -> result V;                          (* -a *)
  v_pos : V -> result V;                          (* +a *)
  v_abs : V -> result V;                          (* abs(a) *)
  v_invert : V -> result V;                       (* ~a *)
  v_eq_0 : V -> result bool;                      (* bool(a == 0) *)
  v_lt : V -> V -> result bool;                   (* bool(a < b) *)
  v_matmul_method : V -> exn;                     (* a @ m, m a bound method *)
  v_T : V -> result V;                            (* a.T *)
  np_exp : V -> result V;
  np_log : V -> result V;
  np_sqrt : V -> result V;
  np_diag : V -> result V;
  np_ones : size -> result V;
  (* scipy.stats.norm.<m>(x, loc, scale) and
     scipy.stats.multivariate_normal.<m>(x, mean, cov) *)
  scipy_stats_norm : method -> V -> V -> V -> result V;
  scipy_stats_multivariate_normal : method -> V -> V -> V -> result V
}.

(** ** A reference instance: Python ints and floats, numpy scalars and arrays *)

Inductive pyval : Type :=
| PInt (n : Z)                                    (* int, unbounded *)
| PFloat (x : float)                              (* float, IEEE binary64 *)
| PFloat64 (x : float)                            (* numpy.float64, a scalar *)
| PArray (shape : list Z) (data : list float).    (* float64 ndarray, row-major;
                                                     a 0-d array has shape [] *)

Module PyNum.

Definition name (v : pyval) : string :=
  match v with
  | PInt _ => "int" | PFloat _ => "float" | PFloat64 _ => "float64"
  | PArray _ _ => "ndarray"
  end.

(** [np.isscalar]: true of the builtin numbers and of numpy's scalars,
    false of every array, a 0-d one included. *)
Definition isscalar (v : pyval) : bool :=
  match v with PArray _ _ => false | _ => true end.

Definition shape (v : pyval) : list Z :=
  match v with PArray s _ => s | _ => [] end.

Definition dtype_name (v : pyval) : dtype :=
  match v with PInt _ => "int64" | _ => "float64" end.

(** [float(n)]: round to nearest, ties to even; too large raises. *)
Definition float_of_int (n : Z) : result float :=
  let x := SF2Prim (binary_normalize prec emax n 0 false) in
  if PrimFloat.is_infinity x
  then Raise (OverflowError "int too large to convert to float")
  else Return x.

Definition exact_int (n : Z) : bool := Z.abs n <=? 2 ^ 53.

(** What a numpy operation hands back for a result of the given shape: a
    0-d result is returned as the scalar [numpy.float64], not as an array
    ([1.0 * np.ones(shape=())] is [numpy.float64(1.0)]). *)
Definition of_ndarray (shape : list Z) (data : list float) : result pyval :=
  match shape, data with
  | [], [x] => Return (PFloat64 x)
  | [], _ => Raise (NotModelled "0-d array without exactly one entry")
  | _, _ => Return (PArray shape data)
  end.

(** [+], [-], [*]: exact on ints, IEEE on floats, elementwise on arrays; with
    a numpy scalar or an array as an operand the result is numpy's. *)
Definition arith (iop : Z -> Z -> Z) (fop : float -> float -> float)
    (a b : pyval) : result pyval :=
  match a, b with
  | PInt m, PInt n => Return (PInt (iop m n))
  | PInt m, PFloat y => let? x := float_of_int m in Return (PFloat (fop x y))
  | PFloat x, PInt n => let? y := float_of_int n in Return (PFloat (fop x y))
  | PFloat x, PFloat y => Return (PFloat (fop x y))
  | PInt m, PFloat64 y =>
      if exact_int m
      then let? x := float_of_int m in Return (PFloat64 (fop x y))
      else Raise (NotModelled "large int with numpy.float64")
  | PFloat64 x, PInt n =>
      if exact_int n
      then let? y := float_of_int n in Return (PFloat64 (fop x y))
      else Raise (NotModelled "large int with numpy.float64")
  | PFloat x, PFloat64 y | PFloat64 x, PFloat y | PFloat64 x, PFloat64 y =>
      Return (PFloat64 (fop x y))
  | PInt m, PArray s d =>
      if exact_int m
      then let? x := float_of_int m in of_ndarray s (map (fop x) d)
      else Raise (NotModelled "large int with array")
  | PArray s d, PInt n =>
      if exact_int n
      then let? y := float_of_int n in of_ndarray s (map (fun x => fop x y) d)
      else Raise (NotModelled "large int with array")
  | PFloat x, PArray s d | PFloat64 x, PArray s d =>
      of_ndarray s (map (fop x) d)
  | PArray s d, PFloat y | PArray s d, PFloat64 y =>
      of_ndarray s (map (fun x => fop x y) d)
  | PArray s1 d1, PArray s2 d2 =>
      if bool_decide (s1 = s2)
      then of_ndarray s1 (zip_with fop d1 d2)
      else Raise (NotModelled "broadcasting")
  end.

Definition is_zero (x : float) : bool := PrimFloat.eqb x 0%float.

(** [/]: the builtin numbers raise on a zero divisor; with a numpy scalar or
    an array as an operand the quotient is IEEE's. *)
Definition truediv (a b : pyval) : result pyval :=
  match a, b with
  | PInt m, PInt n =>
      if n =? 0 then Raise (ZeroDivisionError "division by zero")
      else if exact_int m && exact_int n
      then let? x := float_of_int m in
           let? y := float_of_int n in Return (PFloat (x / y)%float)
      else Raise (NotModelled "true division of large ints")
  | PInt m, PFloat y =>
      let? x := float_of_int m in
      if is_zero y then Raise (ZeroDivisionError "float division by zero")
      else Return (PFloat (x / y)%float)
  | PFloat x, PInt n =>
      let? y := float_of_int n in
      if is_zero y then Raise (ZeroDivisionError "float division by zero")
      else Return (PFloat (x / y)%float)
  | PFloat x, PFloat y =>
      if is_zero y then Raise (ZeroDivisionError "float division by zero")
      else Return (PFloat (x / y)%float)
  | _, _ => arith (fun _ _ => 0) PrimFloat.div a b
  end.

Definition power (a b : pyval) (modulo : option pyval) : result pyval :=
  match a, b, modulo with
  | PInt m, PInt n, None =>
      if 0 <=? n then Return (PInt (m ^ n))
      else Raise (NotModelled "int to a negative power")
  | _, _, _ => Raise (NotModelled "pow")
  end.

Definition matmul (a b : pyval) : result pyval :=
  match a, b with
  | PFloat64 _, _ | _, PFloat64 _ =>
      Raise (NotModelled "matmul with a numpy scalar")
  | PArray _ _, PArray _ _ => Raise (NotModelled "matmul")
  | PArray _ _, _ =>
      Raise (ValueError "matmul: Input operand 1 does not have enough dimensions")
  | _, PArray _ _ =>
      Raise (ValueError "matmul: Input operand 0 does not have enough dimensions")
  | _, _ =>
      Raise (TypeError ("unsupported operand type(s) for @: '" +:+ name a
                        +:+ "' and '" +:+ name b +:+ "'"))
  end.

(** [a @ m] for a bound method [m]: the builtin numbers have no [@], and
    numpy takes [m] for a 0-d operand (message of numpy 1.17, abridged). *)
Definition matmul_method (a : pyval) : exn :=
  match a with
  | PArray _ _ =>
      ValueError "matmul: Input operand 1 does not have enough dimensions"
  | PFloat64 _ => NotModelled "matmul with a numpy scalar"
  | _ => TypeError ("unsupported operand type(s) for @: '" +:+ name a
                    +:+ "' and 'method'")
  end.

Definition unary (iop : Z -> Z) (fop : float -> float) (a : pyval) : result pyval :=
  match a with
  | PInt n => Return (PInt (iop n))
  | PFloat x => Return (PFloat (fop x))
  | PFloat64 x => Return (PFloat64 (fop x))
  | PArray s d => of_ndarray s (map fop d)
  end.

Definition invert (a : pyval) : result pyval :=
  match a with
  | PInt n => Return (PInt (Z.lnot n))
  | PFloat _ => Raise (TypeError "bad operand type for unary ~: 'float'")
  | PFloat64 _ | PArray _ _ =>
      Raise (TypeError "ufunc 'invert' not supported for the input types")
  end.

Definition eq_0 (a : pyval) : result bool :=
  match a with
  | PInt n => Return (n =? 0)
  | PFloat x | PFloat64 x => Return (is_zero x)
  | PArray _ [x] => Return (is_zero x)
  | PArray _ [] => Raise (NotModelled "truth value of an empty array")
  | PArray _ _ =>
      Raise (ValueError "The truth value of an array with more than one element is ambiguous. Use a.any() or a.all()")
  end.

(** In a comparison a [numpy.float64] stands for the float it holds. *)
Definition number (a : pyval) : pyval :=
  match a with PFloat64 x => PFloat x | _ => a end.

Definition lt (a b : pyval) : result bool :=
  match number a, number b with
  | PInt m, PInt n => Return (m <? n)
  | PFloat x, PFloat y => Return (PrimFloat.ltb x y)
  | PInt m, PFloat y =>
      if exact_int m
      then let? x := float_of_int m in Return (PrimFloat.ltb x y)
      else Raise (NotModelled "comparison of a large int with a float")
  | PFloat x, PInt n =>
      if exact_int n
      then let? y := float_of_int n in Return (PrimFloat.ltb x y)
      else Raise (NotModelled "comparison of a large int with a float")
  | _, _ => Raise (NotModelled "comparison with an array")
  end.

Definition transpose (a : pyval) : result pyval :=
  match a with
  | PFloat64 _ | PArray [] _ | PArray [_] _ => Return a
  | PArray _ _ => Raise (NotModelled "transpose")
  | _ => Raise (AttributeError ("'" +:+ name a +:+ "' object has no attribute 'T'"))
  end.

(** [np.sqrt]: a ufunc, so the root of a scalar is a [numpy.float64]. *)
Definition sqrt (a : pyval) : result pyval :=
  match a with
  | PInt n => let? x := float_of_int n in Return (PFloat64 (PrimFloat.sqrt x))
  | PFloat x | PFloat64 x => Return (PFloat64 (PrimFloat.sqrt x))
  | PArray s d => of_ndarray s (map PrimFloat.sqrt d)
  end.

Definition numel (shape : list Z) : Z := fold_right Z.mul 1 shape.

(** The shape that a [size] asks for: [n] is [(n,)]. *)
Definition shape_of_size (s : size) : list Z :=
  match s with size_int n => [n] | size_tuple dims => dims end.

(** An array of the given shape, filled with [x]. *)
Definition full (shape : list Z) (x : float) : pyval :=
  PArray shape (repeat x (Z.to_nat (numel shape))).

(** [np.ones(shape=size)]: always an array, 0-d for [size=()]. *)
Definition ones (s : size) : result pyval :=
  if forallb (fun d => 0 <=? d) (shape_of_size s)
  then Return (full (shape_of_size s) 1%float)
  else Raise (ValueError "negative dimensions are not allowed").

End PyNum.

#[export] Instance PyNum_layer : ArrayLayer pyval := {|
  np_isscalar := PyNum.isscalar;
  class_name := PyNum.name;
  shape_of := PyNum.shape;
  dtype_of := PyNum.dtype_name;
  py_int := PInt;
  py_float := PFloat;
  v_add := PyNum.arith Z.add PrimFloat.add;
  v_sub := PyNum.arith Z.sub PrimFloat.sub;
  v_mul := PyNum.arith Z.mul PrimFloat.mul;
  v_matmul := PyNum.matmul;
  v_truediv := PyNum.truediv;
  v_pow := PyNum.power;
  v_neg := PyNum.unary Z.opp PrimFloat.opp;
  v_pos := PyNum.unary id id;
  v_abs := PyNum.unary Z.abs PrimFloat.abs;
  v_invert := PyNum.invert;
  v_eq_0 := PyNum.eq_0;
  v_lt := PyNum.lt;
  v_matmul_method := PyNum.matmul_method;
  v_T := PyNum.transpose;
  np_exp := fun _ => Raise (NotModelled "exp");
  np_log := fun _ => Raise (NotModelled "log");
  np_sqrt := PyNum.sqrt;
  np_diag := fun _ => Raise (NotModelled "diag");
  np_ones := PyNum.ones;
  scipy_stats_norm := fun _ _ _ _ => Raise (NotModelled "scipy.stats.norm");
  scipy_stats_multivariate_normal :=
    fun _ _ _ _ => Raise (NotModelled "scipy.stats.multivariate_normal")
|}.

(** ** Objects and the store *)

Definition loc : Type := nat.

(** [numpy.random] (the global singleton) or a [RandomState]. *)
Inductive random_state : Type :=
| np_random
| RandomState (seed : Z).

(** [scipy._lib._util.check_random_state] on [None] or an instance. *)
Definition check_random_state (seed : option random_state) : random_state :=
  match seed with
  | None => np_random
  | Some rs => rs
  end.

Inductive cls : Type := Distribution | Dirac | Normal.

(** [type(self).__name__] *)
Definition cls_name (c : cls) : string :=
  match c with
  | Distribution => "Distribution" | Dirac => "Dirac" | Normal => "Normal"
  end.

Definition is_Dirac (c : cls) : bool :=
  match c with Dirac => true | _ => false end.

Section Objects.
Context {V : Type}.

(** Callables of one argument, stored in [_pdf], [_logpdf], [_cdf], [_logcdf]. *)
Inductive fn1 : Type :=
| callable1 (f : V -> result V)                    (* handed in by the caller *)
| lambda_shift (m : method) (self : loc) (delta : V)  (* lambda x: self.m(x - delta) *)
| lambda_scale (m : method) (self : loc) (delta : V). (* lambda x: self.m(x / delta) *)

(** Callables of no argument, stored in [_mean], [_var]. *)
Inductive fn0 : Type :=
| callable0 (r : result V)                         (* handed in by the caller *)
| bound_var (self : loc)                           (* self.var *)
| lambda_mean_add (self : loc) (delta : V)         (* lambda: self.mean() + delta *)
| lambda_mean_mul (self : loc) (delta : V)         (* lambda: self.mean() * delta *)
| lambda_var_mul (self : loc) (delta : V)          (* lambda: self.var() * delta ** 2 *)
| lambda_mean_matmul (self : loc) (delta : V)      (* lambda: self.mean() @ delta *)
| lambda_mean_rmatmul (self : loc) (delta : V)     (* lambda: delta @ self.mean *)
| lambda_mean_neg (self : loc)                     (* lambda: -self.mean() *)
| lambda_mean_pos (self : loc)                     (* lambda: operator.pos(self.mean()) *)
| not_callable (v : V).                            (* a value where a callable belongs *)

(** Callables of [size], stored in [_sample]. *)
Inductive sampler : Type :=
| callable_sample (f : size -> result V)           (* handed in by the caller *)
| lambda_sample_add (self : loc) (delta : V)       (* lambda size: self.sample(size=size) + delta *)
| lambda_sample_mul (self : loc) (delta : V)       (* lambda size: self.sample(size=size) * delta *)
| lambda_sample_matmul (self : loc) (delta : V)    (* lambda size: self.sample(size=size) @ delta *)
| lambda_sample_rmatmul (self : loc) (delta : V)   (* lambda size: delta @ self.sample(size=size) *)
| lambda_sample_neg (self : loc)                   (* lambda size: -self.sample(size=size) *)
| lambda_sample_pos (self : loc)                   (* lambda size: operator.pos(self.sample(size=size)) *)
| lambda_sample_abs (self : loc).                  (* lambda size: operator.abs(self.sample(size=size)) *)

(** An instance of [Distribution] or of a subclass: the attributes that
    [Distribution.__init__] and [Normal.__init__] assign. *)
Record object : Type := {
  class_of : cls;
  _parameters : gmap string V;
  _pdf : option fn1;
  _logpdf : option fn1;
  _cdf : option fn1;
  _logcdf : option fn1;
  _sample : option sampler;
  _mean : option fn0;
  _var : option fn0;
  _random_state : random_state;
  _ismultivariate : option bool          (* assigned by Normal.__init__ only *)
}.

Definition heap : Type := list object.

(** [RandomVariable]: once built, no method of the class changes it. *)
Record RandomVariable : Type := {
  _shape : list Z;
  _dtype : option dtype;
  _distribution : loc
}.

(** The right operand of an operator on distributions. *)
Inductive operand : Type :=
| Value (v : V)
| Instance (l : loc).

(** The right operand of an operator on random variables. *)
Inductive rv_operand : Type :=
| Const (v : V)
| RV (rv : RandomVariable).

(** Computations on the store. *)
Definition M (A : Type) : Type := heap -> result A * heap.

Definition ret {A : Type} (a : A) : M A := fun h => (Return a, h).
Definition raise {A : Type} (e : exn) : M A := fun h => (Raise e, h).
Definition lift {A : Type} (r : result A) : M A := fun h => (r, h).
Definition bind {A B : Type} (m : M A) (k : A -> M B) : M B :=
  fun h =>
    match m h with
    | (Return a, h') => k a h'
    | (Raise e, h') => (Raise e, h')
    end.

(** Object creation: the new instance gets the next free location. *)
Definition new (o : object) : M loc :=
  fun h => (Return (List.length h), h ++ [o]).

Definition load (l : loc) : M object :=
  fun h =>
    match h !! l with
    | Some o => (Return o, h)
    | None => (Raise Dangling, h)
    end.

Definition store (l : loc) (o : object) : M unit :=
  fun h => (Return tt, <[l := o]> h).

(** [try: body except Exception: raise e] *)
Definition try_except {A : Type} (body : M A) (e : exn) : M A :=
  fun h =>
    match body h with
    | (Return a, h') => (Return a, h')
    | (Raise _, h') => (Raise e, h')
    end.

End Objects.

Arguments fn1 V : clear implicits.
Arguments fn0 V : clear implicits.
Arguments sampler V : clear implicits.
Arguments object V : clear implicits.
Arguments heap V : clear implicits.
Arguments operand V : clear implicits.
Arguments rv_operand V : clear implicits.
Arguments M V A : clear implicits.

(** A computation that only allocates: whatever it returns or raises, the
    store it leaves is the one it found, with new instances after it. *)
Definition allocates (V : Type) {A : Type} (m : M V A) : Prop :=
  forall h, exists t, snd (m h) = h ++ t.

Notation "'let*' x ':=' m 'in' k" := (bind m (fun x => k))
  (at level 10, x name, m at level 100, k at level 200,
   format "'[v' 'let*'  x  ':='  m  'in' '/' k ']'").

(** ** Evaluation: [pdf], [logpdf], [cdf], [logcdf], [mean], [var], [sample] *)

Inductive moment : Type := moment_mean | moment_var.

Section Evaluation.
Context {V : Type} `{AL : ArrayLayer V}.

(** [parameters[key]] *)
Definition getitem (parameters : gmap string V) (key : string) : result V :=
  match parameters !! key with
  | Some v => Return v
  | None => Raise (KeyError key)
  end.

(** The attributes every instance has once [__init__] has run. *)
Definition instance_attributes : list string :=
  ["_parameters"; "_pdf"; "_logpdf"; "_cdf"; "_logcdf"; "_sample"; "_mean";
   "_var"; "_random_state"].

Definition hasattr (self : object V) (attr : string) : bool :=
  bool_decide (attr ∈ instance_attributes).

(** Calling an attribute that may hold [None]. *)
Definition call_attribute {F A B : Type} (call : F -> A -> result B)
    (attribute : option F) (a : A) : result B :=
  match attribute with
  | Some f => call f a
  | None => Raise (TypeError "'NoneType' object is not callable")
  end.

Definition not_implemented (function : string) (self : object V) : exn :=
  NotImplementedError ("The function '" +:+ function
    +:+ "' is not implemented for object of class "
    +:+ cls_name (class_of self)).

Section Methods.
(** How a stored callable is called: the knot is tied in [evaluate] and
    [moment_of] below. *)
Variable call : fn1 V -> V -> result V.
Variable call0 : fn0 V -> unit -> result V.

(** [Distribution.pdf] *)
Definition Distribution_pdf (self : object V) (x : V) : result V :=
  match _pdf self with
  | Some f => call f x
  | None =>
      match _logpdf self with
      | Some g => let? y := call g x in np_exp y
      | None => Raise (not_implemented "pdf" self)
      end
  end.

(** [Distribution.logpdf]: the tests are [hasattr(self, '_logpdf')] and
    [hasattr(self, '_pdf')]. *)
Definition Distribution_logpdf (self : object V) (x : V) : result V :=
  if hasattr self "_logpdf" then call_attribute call (_logpdf self) x
  else if hasattr self "_pdf"
  then let? y := call_attribute call (_pdf self) x in np_log y
  else Raise (not_implemented "logpdf" self).

(** [Distribution.cdf] *)
Definition Distribution_cdf (self : object V) (x : V) : result V :=
  match _cdf self with
  | Some f => call f x
  | None =>
      match _logcdf self with
      | Some g => let? y := call g x in np_exp y
      | None => Raise (not_implemented "cdf" self)
      end
  end.

(** [Distribution.logcdf] *)
Definition Distribution_logcdf (self : object V) (x : V) : result V :=
  match _logcdf self with
  | Some f => call f x
  | None =>
      match _cdf self with
      | Some g => let? y := call g x in np_log y
      | None => Raise (not_implemented "logcdf" self)
      end
  end.

(** [Distribution.mean] *)
Definition Distribution_mean (self : object V) : result V :=
  match _mean self with
  | Some f => call0 f tt
  | None =>
      match _parameters self !! "mean" with
      | Some v => Return v
      | None => Raise (not_implemented "mean" self)
      end
  end.

(** [Distribution.var] *)
Definition Distribution_var (self : object V) : result V :=
  match _var self with
  | Some f => call0 f tt
  | None =>
      match _parameters self !! "var" with
      | Some v => Return v
      | None => Raise (not_implemented "var" self)
      end
  end.

End Methods.

(** [Dirac.cdf] *)
Definition Dirac_cdf (self : object V) (x : V) : result V :=
  let? support := getitem (_parameters self) "support" in
  let? below := v_lt x support in
  if below then Return (py_float 0%float) else Return (py_float 1%float).

(** [Dirac.mean] *)
Definition Dirac_mean (self : object V) : result V :=
  getitem (_parameters self) "support".

(** [Dirac.var] *)
Definition Dirac_var (self : object V) : result V :=
  Return (py_float 0%float).

(** [Dirac.sample] *)
Definition Dirac_sample (self : object V) (sz : size) : result V :=
  if size_eq_1 sz then getitem (_parameters self) "support"
  else
    let? support := getitem (_parameters self) "support" in
    let? ones := np_ones sz in
    v_mul support ones.

(** [self._ismultivariate] *)
Definition ismultivariate (self : object V) : result bool :=
  match _ismultivariate self with
  | Some b => Return b
  | None =>
      Raise (AttributeError ("'" +:+ cls_name (class_of self)
                             +:+ "' object has no attribute '_ismultivariate'"))
  end.

(** [Normal.pdf], [Normal.logpdf], [Normal.cdf], [Normal.logcdf] *)
Definition Normal_evaluate (m : method) (self : object V) (x : V) : result V :=
  let? multivariate := ismultivariate self in
  if multivariate then
    let? mu := getitem (_parameters self) "mean" in
    let? cov := getitem (_parameters self) "cov" in
    scipy_stats_multivariate_normal m x mu cov
  else
    let? mu := getitem (_parameters self) "mean" in
    let? cov := getitem (_parameters self) "cov" in
    let? scale := np_sqrt cov in
    scipy_stats_norm m x mu scale.

(** [Normal.mean] *)
Definition Normal_mean (self : object V) : result V :=
  getitem (_parameters self) "mean".

(** [Normal.var] *)
Definition Normal_var (self : object V) : result V :=
  let? multivariate := ismultivariate self in
  if multivariate
  then let? cov := getitem (_parameters self) "cov" in np_diag cov
  else getitem (_parameters self) "cov".

(** [self.m(x)], by the class of [self].  [fuel] bounds the depth of the
    calls, as the interpreter's recursion limit does. *)
Fixpoint evaluate (fuel : nat) (h : heap V) (m : method) (self : loc) (x : V)
    {struct fuel} : result V :=
  match fuel with
  | O => Raise RecursionError
  | S fuel' =>
      let call := fun (f : fn1 V) (y : V) =>
        match f with
        | callable1 g => g y
        | lambda_shift m' s delta =>
            let? z := v_sub y delta in evaluate fuel' h m' s z
        | lambda_scale m' s delta =>
            let? z := v_truediv y delta in evaluate fuel' h m' s z
        end in
      match h !! self with
      | None => Raise Dangling
      | Some o =>
          match class_of o, m with
          | Normal, _ => Normal_evaluate m o x
          | Dirac, cdf => Dirac_cdf o x
          | _, pdf => Distribution_pdf call o x
          | _, logpdf => Distribution_logpdf call o x
          | _, cdf => Distribution_cdf call o x
          | _, logcdf => Distribution_logcdf call o x
          end
      end
  end.

(** [self.mean()] and [self.var()], by the class of [self]. *)
Fixpoint moment_of (fuel : nat) (h : heap V) (k : moment) (self : loc)
    {struct fuel} : result V :=
  match fuel with
  | O => Raise RecursionError
  | S fuel' =>
      let call0 := fun (f : fn0 V) (_ : unit) =>
        match f with
        | callable0 r => r
        | bound_var s => moment_of fuel' h moment_var s
        | lambda_mean_add s delta =>
            let? mu := moment_of fuel' h moment_mean s in v_add mu delta
        | lambda_mean_mul s delta =>
            let? mu := moment_of fuel' h moment_mean s in v_mul mu delta
        | lambda_var_mul s delta =>
            let? var := moment_of fuel' h moment_var s in
            let? square := v_pow delta (py_int 2) None in
            v_mul var square
        | lambda_mean_matmul s delta =>
            let? mu := moment_of fuel' h moment_mean s in v_matmul mu delta
        | lambda_mean_rmatmul s delta => Raise (v_matmul_method delta)
        | lambda_mean_neg s =>
            let? mu := moment_of fuel' h moment_mean s in v_neg mu
        | lambda_mean_pos s =>
            let? mu := moment_of fuel' h moment_mean s in v_pos mu
        | not_callable v =>
            Raise (TypeError "object is not callable")
        end in
      match h !! self with
      | None => Raise Dangling
      | Some o =>
          match class_of o, k with
          | Distribution, moment_mean => Distribution_mean call0 o
          | Distribution, moment_var => Distribution_var call0 o
          | Dirac, moment_mean => Dirac_mean o
          | Dirac, moment_var => Dirac_var o
          | Normal, moment_mean => Normal_mean o
          | Normal, moment_var => Normal_var o
          end
      end
  end.

End Evaluation.

(** ** Constructors and coercion *)

Section Operators.
Context {V : Type} `{AL : ArrayLayer V}.

(** The recursion limit under which [mean()] is evaluated. *)
Variable fuel : nat.

(** [Distribution.__init__]; [c] is the class being instantiated. *)
Definition Distribution___init__ (c : cls) (parameters : option (gmap string V))
    (pdf logpdf cdf logcdf : option (fn1 V)) (sample : option (sampler V))
    (mean var : option (fn0 V)) (random_state : option random_state)
    : object V :=
  {| class_of := c;
     _parameters := match parameters with Some p => p | None => ∅ end;
     _pdf := pdf; _logpdf := logpdf; _cdf := cdf; _logcdf := logcdf;
     _sample := sample; _mean := mean; _var := var;
     _random_state := check_random_state random_state;
     _ismultivariate := None |}.

(** [Dirac.__init__] *)
Definition Dirac___init__ (support : V) (random_state : option random_state)
    : object V :=
  Distribution___init__ Dirac (Some {[ "support" := support ]})
    None None None None None None None random_state.

(** [Normal.__init__]: the mode it settles on ([false] univariate, [true]
    multivariate) or the error it raises.  A value that is not a scalar is
    an array, a sparse matrix or a linear operator. *)
Definition Normal_mode (mean cov : V) : result bool :=
  if np_isscalar mean && np_isscalar cov then Return false
  else if negb (np_isscalar mean) && negb (np_isscalar cov) then
    let? m0 := tuple_index (shape_of mean) 0 in
    let? c0 := tuple_index (shape_of cov) 0 in
    if m0 =? c0 then
      let? m0' := tuple_index (shape_of mean) 0 in
      let? c1 := tuple_index (shape_of cov) 1 in
      if m0' =? c1 then Return true
      else Raise (ValueError "Shape mismatch of mean and covariance.")
    else Raise (ValueError "Shape mismatch of mean and covariance.")
  else
    Raise (ValueError
      ("Cannot instantiate normal distribution with mean of type "
       +:+ class_name mean +:+ " and covariance of type "
       +:+ class_name cov +:+ ".")).

Definition Normal_object (multivariate : bool) (mean cov : V)
    (random_state : option random_state) : object V :=
  {| class_of := Normal;
     _parameters := {[ "mean" := mean; "cov" := cov ]};
     _pdf := None; _logpdf := None; _cdf := None; _logcdf := None;
     _sample := None; _mean := None; _var := None;
     _random_state := check_random_state random_state;
     _ismultivariate := Some multivariate |}.

Definition Normal___init__ (mean cov : V) (random_state : option random_state)
    : result (object V) :=
  let? multivariate := Normal_mode mean cov in
  Return (Normal_object multivariate mean cov random_state).

(** The calls [Dirac(...)] and [Normal(...)]. *)
Definition new_Dirac (support : V) (random_state : option random_state)
    : M V loc :=
  new (Dirac___init__ support random_state).

Definition new_Normal (mean cov : V) (random_state : option random_state)
    : M V loc :=
  let* o := lift (Normal___init__ mean cov random_state) in
  new o.

(** [asdistribution], on a [Distribution] instance or a value of the array
    layer (scipy's frozen distributions are not embedded).  A scalar, a
    sparse matrix and a linear operator become [Dirac(support=obj)], an
    array [Dirac(support=np.array(obj))], a copy with the same entries. *)
Definition asdistribution (obj : operand V) : M V loc :=
  match obj with
  | Instance l => ret l
  | Value v =>
      if np_isscalar v then new_Dirac v None
      else new_Dirac v None
  end.

(** Attribute reads on an instance. *)
Definition class_at (l : loc) : M V cls :=
  let* o := load l in ret (class_of o).

Definition isinstance (l : loc) (c : cls) : M V bool :=
  let* o := load l in
  ret (match c with
       | Distribution => true
       | Dirac => is_Dirac (class_of o)
       | Normal => match class_of o with Normal => true | _ => false end
       end).

Definition random_state_of (l : loc) : M V random_state :=
  let* o := load l in ret (_random_state o).

(** [self.parameters[key]] *)
Definition parameter (l : loc) (key : string) : M V V :=
  let* o := load l in lift (getitem (_parameters o) key).

(** [self.parameters[key] = v]: the dictionary of the instance is updated,
    nothing else of it changes. *)
Definition with_parameter (o : object V) (key : string) (v : V) : object V :=
  {| class_of := class_of o;
     _parameters := <[ key := v ]> (_parameters o);
     _pdf := _pdf o; _logpdf := _logpdf o; _cdf := _cdf o;
     _logcdf := _logcdf o; _sample := _sample o; _mean := _mean o;
     _var := _var o; _random_state := _random_state o;
     _ismultivariate := _ismultivariate o |}.

Definition set_parameter (l : loc) (key : string) (v : V) : M V unit :=
  let* o := load l in
  store l (with_parameter o key v).

(** [self.mean()] *)
Definition mean_of (l : loc) : M V V :=
  fun h => (moment_of fuel h moment_mean l, h).

(** [self.__class__.__name__] and [other.__class__.__name__] *)
Definition name_of (l : loc) : M V string :=
  let* o := load l in ret (cls_name (class_of o)).

Definition operand_name (other : operand V) : M V string :=
  match other with
  | Value v => ret (class_name v)
  | Instance l => name_of l
  end.

(** ["<What> not implemented for {} and {}."] *)
Definition unsupported {A : Type} (what a b : string) : M V A :=
  raise (NotImplementedError
           (what +:+ " not implemented for " +:+ a +:+ " and " +:+ b +:+ ".")).

Definition unsupported_unary (what a : string) : exn :=
  NotImplementedError (what +:+ " not implemented for " +:+ a +:+ ".").

(** [other == 0]: an instance of [Distribution] has no [__eq__], so it is
    compared by identity and differs from [0]. *)
Definition operand_eq_0 (other : operand V) : M V bool :=
  match other with
  | Value v => lift (v_eq_0 v)
  | Instance _ => ret false
  end.

(** ** Dirac: unary operators

    Each one assigns [self.parameters["support"]] and returns [self]. *)

Definition Dirac_unary (op : V -> result V) (self : loc) : M V loc :=
  let* support := parameter self "support" in
  let* v := lift (op support) in
  let* _ := set_parameter self "support" v in
  ret self.

Definition Dirac___neg__ : loc -> M V loc := Dirac_unary v_neg.
Definition Dirac___pos__ : loc -> M V loc := Dirac_unary v_pos.
Definition Dirac___abs__ : loc -> M V loc := Dirac_unary v_abs.
Definition Dirac___invert__ : loc -> M V loc := Dirac_unary v_invert.

(** ** Distribution: the generic operators

    In a method of [Distribution], [self] is an instance of the base class
    itself: [Dirac] and [Normal] override every operator.  Where the source
    writes [self + d] or [self * d] with [d] a [Dirac], Python first tries
    the reflected method of [d] (a subclass that overrides it), and
    [Dirac.__radd__] and [Dirac.__rmul__] call [self.__add__(d)] and
    [self.__mul__(d)]: the call made here. *)

(** [Distribution.__add__] *)
Definition Distribution___add__ (self : loc) (other : operand V) : M V loc :=
  let* otherdist := asdistribution other in
  let* is_dirac := isinstance otherdist Dirac in
  if is_dirac then
    let* delta := parameter otherdist "support" in      (* otherdist.mean() *)
    let* rs := random_state_of self in
    new (Distribution___init__ Distribution (Some ∅)
           (Some (lambda_shift pdf self delta))
           (Some (lambda_shift logpdf self delta))
           (Some (lambda_shift cdf self delta))
           (Some (lambda_shift logcdf self delta))
           (Some (lambda_sample_add self delta))
           (Some (lambda_mean_add self delta))
           (Some (bound_var self))
           (Some rs))
  else
    let* a := name_of self in
    let* b := operand_name other in
    unsupported "Addition" a b.

(** [Distribution.__sub__] *)
Definition Distribution___sub__ (self : loc) (other : operand V) : M V loc :=
  let* otherdist := asdistribution other in
  let* is_dirac := isinstance otherdist Dirac in
  if is_dirac then
    let* negated := Dirac___neg__ otherdist in
    Distribution___add__ self (Instance negated)
  else
    let* a := name_of self in
    let* b := operand_name other in
    unsupported "Subtraction" a b.

(** [Distribution.__mul__] *)
Definition Distribution___mul__ (self : loc) (other : operand V) : M V loc :=
  let* otherdist := asdistribution other in
  let* is_dirac := isinstance otherdist Dirac in
  if is_dirac then
    let* delta := parameter otherdist "support" in      (* otherdist.mean() *)
    let* zero := lift (v_eq_0 delta) in
    if zero then
      let* mu := mean_of self in
      let* support := lift (v_mul (py_int 0) mu) in
      let* rs := random_state_of self in
      new_Dirac support (Some rs)
    else
      let* rs := random_state_of self in
      new (Distribution___init__ Distribution (Some ∅)
             (Some (lambda_scale pdf self delta))
             (Some (lambda_scale logpdf self delta))
             (Some (lambda_scale cdf self delta))
             (Some (lambda_scale logcdf self delta))
             (Some (lambda_sample_mul self delta))
             (Some (lambda_mean_mul self delta))
             (Some (lambda_var_mul self delta))
             (Some rs))
  else
    let* a := name_of self in
    let* b := operand_name other in
    unsupported "Multiplication" a b.

(** [delta @ self.var @ delta.T], an argument of the call
    [Distribution(...)]: it is evaluated before the call, and [self.var] is
    the bound method, not its value. *)
Definition delta_matmul_var_matmul_delta_T (delta : V) : M V V :=
  let* left := raise (v_matmul_method delta) in
  let* transposed := lift (v_T delta) in
  lift (v_matmul left transposed).

(** [Distribution.__matmul__] *)
Definition Distribution___matmul__ (self : loc) (other : operand V) : M V loc :=
  let* otherdist := asdistribution other in
  let* is_dirac := isinstance otherdist Dirac in
  if is_dirac then
    let* delta := parameter otherdist "support" in      (* otherdist.mean() *)
    let* var := delta_matmul_var_matmul_delta_T delta in
    let* rs := random_state_of self in
    new (Distribution___init__ Distribution (Some ∅)
           None None None None
           (Some (lambda_sample_matmul self delta))
           (Some (lambda_mean_matmul self delta))
           (Some (not_callable var))
           (Some rs))
  else
    let* a := name_of self in
    let* b := operand_name other in
    unsupported "Matrix multiplication" a b.

(** [Distribution.__truediv__] *)
Definition Distribution___truediv__ (self : loc) (other : operand V) : M V loc :=
  let* zero := operand_eq_0 other in
  if zero then raise (ZeroDivisionError "Division by zero not supported.")
  else
    let* otherdist := asdistribution other in
    let* is_dirac := isinstance otherdist Dirac in
    if is_dirac then
      let* inverted := Dirac___invert__ otherdist in    (* operator.inv(otherdist) *)
      Distribution___mul__ self (Instance inverted)
    else
      let* a := name_of self in
      let* b := operand_name other in
      unsupported "Division" a b.

(** [Distribution.__pow__] *)
Definition Distribution___pow__ (self : loc) (power : operand V)
    (modulo : option V) : M V loc :=
  let* a := name_of self in
  let* b := operand_name power in
  unsupported "Exponentiation" a b.

(** [Distribution.__neg__] *)
Definition Distribution___neg__ (self : loc) : M V loc :=
  try_except
    (let* rs := random_state_of self in
     new (Distribution___init__ Distribution (Some ∅)
            None None None None
            (Some (lambda_sample_neg self))
            (Some (lambda_mean_neg self))
            (Some (bound_var self))
            (Some rs)))
    (unsupported_unary "Negation" "Distribution").

(** [Distribution.__abs__] *)
Definition Distribution___abs__ (self : loc) : M V loc :=
  try_except
    (let* rs := random_state_of self in
     new (Distribution___init__ Distribution (Some ∅)
            None None None None
            (Some (lambda_sample_abs self))
            None None
            (Some rs)))
    (unsupported_unary "Absolute value" "Distribution").

(** [Distribution.__invert__]: the sampler is that of [__abs__]. *)
Definition Distribution___invert__ (self : loc) : M V loc :=
  try_except
    (let* rs := random_state_of self in
     new (Distribution___init__ Distribution (Some ∅)
            None None None None
            (Some (lambda_sample_abs self))
            None None
            (Some rs)))
    (unsupported_unary "Inversion" "Distribution").

(** [Distribution.__rsub__] *)
Definition Distribution___rsub__ (self : loc) (other : operand V) : M V loc :=
  let* otherdist := asdistribution other in
  let* is_dirac := isinstance otherdist Dirac in
  if is_dirac then
    let* negated := Distribution___neg__ self in
    Distribution___add__ negated (Instance otherdist)
  else
    let* a := operand_name other in
    let* b := name_of self in
    unsupported "Subtraction" a b.

(** [Distribution.__rmatmul__]: [var] as in [__matmul__]. *)
Definition Distribution___rmatmul__ (self : loc) (other : operand V) : M V loc :=
  let* otherdist := asdistribution other in
  let* is_dirac := isinstance otherdist Dirac in
  if is_dirac then
    let* delta := parameter otherdist "support" in      (* otherdist.mean() *)
    let* var := delta_matmul_var_matmul_delta_T delta in
    let* rs := random_state_of self in
    new (Distribution___init__ Distribution (Some ∅)
           None None None None
           (Some (lambda_sample_rmatmul self delta))
           (Some (lambda_mean_rmatmul self delta))
           (Some (not_callable var))
           (Some rs))
  else
    let* a := operand_name other in
    let* b := name_of self in
    unsupported "Matrix multiplication" a b.

(** [Distribution.__rtruediv__] *)
Definition Distribution___rtruediv__ (self : loc) (other : operand V) : M V loc :=
  let* otherdist := asdistribution other in
  let* is_dirac := isinstance otherdist Dirac in
  if is_dirac then
    let* inverted := Distribution___invert__ self in
    Distribution___mul__ inverted (Instance otherdist)
  else
    let* a := operand_name other in
    let* b := name_of self in
    unsupported "Division" a b.

(** [Distribution.__pos__] *)
Definition Distribution___pos__ (self : loc) : M V loc :=
  try_except
    (let* rs := random_state_of self in
     new (Distribution___init__ Distribution (Some ∅)
            None None None None
            (Some (lambda_sample_pos self))
            (Some (lambda_mean_pos self))
            (Some (bound_var self))
            (Some rs)))
    (unsupported_unary "Negation" "Distribution").

(** [Distribution.__radd__] *)
Definition Distribution___radd__ (self : loc) (other : operand V) : M V loc :=
  let* otherdist := asdistribution other in
  let* is_dirac := isinstance otherdist Dirac in
  if is_dirac then Distribution___add__ self (Instance otherdist)
  else
    let* a := operand_name other in
    let* b := name_of self in
    unsupported "Addition" a b.

(** [Distribution.__rmul__] *)
Definition Distribution___rmul__ (self : loc) (other : operand V) : M V loc :=
  let* otherdist := asdistribution other in
  let* is_dirac := isinstance otherdist Dirac in
  if is_dirac then Distribution___mul__ self (Instance otherdist)
  else
    let* a := operand_name other in
    let* b := name_of self in
    unsupported "Multiplication" a b.

(** [Distribution.__rpow__] *)
Definition Distribution___rpow__ (self : loc) (power : operand V)
    (modulo : option V) : M V loc :=
  let* a := operand_name power in
  let* b := name_of self in
  unsupported "Exponentiation" a b.

(** ** Normal: closed forms against a Dirac *)

(** [Normal.__add__] *)
Definition Normal___add__ (self : loc) (other : operand V) : M V loc :=
  let* otherdist := asdistribution other in
  let* is_dirac := isinstance otherdist Dirac in
  if is_dirac then
    let* delta := parameter otherdist "support" in      (* otherdist.mean() *)
    let* mu := parameter self "mean" in
    let* shifted := lift (v_add mu delta) in
    let* cov := parameter self "cov" in
    let* rs := random_state_of self in
    new_Normal shifted cov (Some rs)
  else
    let* a := name_of self in
    let* b := operand_name other in
    unsupported "Addition" a b.

(** [Normal.__sub__] *)
Definition Normal___sub__ (self : loc) (other : operand V) : M V loc :=
  let* otherdist := asdistribution other in
  let* is_dirac := isinstance otherdist Dirac in
  if is_dirac then
    let* negated := Dirac___neg__ otherdist in
    Normal___add__ self (Instance negated)
  else
    let* a := name_of self in
    let* b := operand_name other in
    unsupported "Subtraction" a b.

(** [Normal.__mul__]; [self.mean()] is [Normal.mean]. *)
Definition Normal___mul__ (self : loc) (other : operand V) : M V loc :=
  let* otherdist := asdistribution other in
  let* is_dirac := isinstance otherdist Dirac in
  if is_dirac then
    let* delta := parameter otherdist "support" in      (* otherdist.mean() *)
    let* zero := lift (v_eq_0 delta) in
    if zero then
      let* mu := parameter self "mean" in
      let* support := lift (v_mul (py_int 0) mu) in
      let* rs := random_state_of self in
      new_Dirac support (Some rs)
    else
      let* mu := parameter self "mean" in
      let* scaled := lift (v_mul mu delta) in
      let* cov := parameter self "cov" in
      let* square := lift (v_pow delta (py_int 2) None) in
      let* scaled_cov := lift (v_mul cov square) in
      let* rs := random_state_of self in
      new_Normal scaled scaled_cov (Some rs)
  else
    let* a := name_of self in
    let* b := operand_name other in
    unsupported "Multiplication" a b.

(** [Normal.__matmul__] *)
Definition Normal___matmul__ (self : loc) (other : operand V) : M V loc :=
  let* otherdist := asdistribution other in
  let* is_dirac := isinstance otherdist Dirac in
  if is_dirac then
    let* delta := parameter otherdist "support" in      (* otherdist.mean() *)
    let* mu := parameter self "mean" in
    let* mapped := lift (v_matmul mu delta) in
    let* cov := parameter self "cov" in
    let* left := lift (v_matmul delta cov) in
    let* transposed := lift (v_T delta) in
    let* mapped_cov := lift (v_matmul left transposed) in
    let* rs := random_state_of self in
    new_Normal mapped mapped_cov (Some rs)
  else
    let* a := name_of self in
    let* b := operand_name other in
    unsupported "Matrix multiplication" a b.

(** [Normal.__truediv__] *)
Definition Normal___truediv__ (self : loc) (other : operand V) : M V loc :=
  let* zero := operand_eq_0 other in
  if zero then raise (ZeroDivisionError "Division by zero not supported.")
  else
    let* otherdist := asdistribution other in
    let* is_dirac := isinstance otherdist Dirac in
    if is_dirac then
      let* inverted := Dirac___invert__ otherdist in    (* operator.inv(otherdist) *)
      Normal___mul__ self (Instance inverted)
    else
      let* a := name_of self in
      let* b := operand_name other in
      unsupported "Division" a b.

(** [Normal.__pow__] *)
Definition Normal___pow__ (self : loc) (power : operand V)
    (modulo : option V) : M V loc :=
  let* a := name_of self in
  let* b := operand_name power in
  unsupported "Exponentiation" a b.

(** [Normal.__neg__] *)
Definition Normal___neg__ (self : loc) : M V loc :=
  try_except
    (let* mu := parameter self "mean" in
     let* negated := lift (v_neg mu) in
     let* cov := parameter self "cov" in
     let* rs := random_state_of self in
     new_Normal negated cov (Some rs))
    (unsupported_unary "Negation" "Normal").

(** [Normal.__pos__] *)
Definition Normal___pos__ (self : loc) : M V loc :=
  try_except
    (let* mu := parameter self "mean" in
     let* same := lift (v_pos mu) in
     let* cov := parameter self "cov" in
     let* rs := random_state_of self in
     new_Normal same cov (Some rs))
    (unsupported_unary "Negation" "Normal").

(** [Normal.__abs__] *)
Definition Normal___abs__ (self : loc) : M V loc :=
  try_except
    (let* rs := random_state_of self in
     new (Distribution___init__ Distribution (Some ∅)
            None None None None
            (Some (lambda_sample_abs self))
            None None
            (Some rs)))
    (unsupported_unary "Absolute value" "Normal").

(** [Normal.__invert__] *)
Definition Normal___invert__ (self : loc) : M V loc :=
  try_except
    (let* rs := random_state_of self in
     new (Distribution___init__ Distribution (Some ∅)
            None None None None
            (Some (lambda_sample_abs self))
            None None
            (Some rs)))
    (unsupported_unary "Inversion" "Normal").

(** [Normal.__radd__] *)
Definition Normal___radd__ (self : loc) (other : operand V) : M V loc :=
  let* otherdist := asdistribution other in
  let* is_dirac := isinstance otherdist Dirac in
  if is_dirac then Normal___add__ self (Instance otherdist)
  else
    let* a := operand_name other in
    let* b := name_of self in
    unsupported "Addition" a b.

(** [Normal.__rsub__] *)
Definition Normal___rsub__ (self : loc) (other : operand V) : M V loc :=
  let* otherdist := asdistribution other in
  let* is_dirac := isinstance otherdist Dirac in
  if is_dirac then
    let* negated := Normal___neg__ self in
    Normal___add__ negated (Instance otherdist)
  else
    let* a := operand_name other in
    let* b := name_of self in
    unsupported "Subtraction" a b.

(** [Normal.__rmul__] *)
Definition Normal___rmul__ (self : loc) (other : operand V) : M V loc :=
  let* otherdist := asdistribution other in
  let* is_dirac := isinstance otherdist Dirac in
  if is_dirac then Normal___mul__ self (Instance otherdist)
  else
    let* a := operand_name other in
    let* b := name_of self in
    unsupported "Multiplication" a b.

(** [Normal.__rmatmul__] *)
Definition Normal___rmatmul__ (self : loc) (other : operand V) : M V loc :=
  let* otherdist := asdistribution other in
  let* is_dirac := isinstance otherdist Dirac in
  if is_dirac then
    let* delta := parameter otherdist "support" in      (* otherdist.mean() *)
    let* mu := parameter self "mean" in
    let* mapped := lift (v_matmul delta mu) in
    let* cov := parameter self "cov" in
    let* left := lift (v_matmul delta cov) in
    let* transposed := lift (v_T delta) in
    let* mapped_cov := lift (v_matmul left transposed) in
    let* rs := random_state_of self in
    new_Normal mapped mapped_cov (Some rs)
  else
    let* a := operand_name other in
    let* b := name_of self in
    unsupported "Matrix multiplication" a b.

(** [Normal.__rtruediv__]: [operator.inv(self)] is a generic distribution. *)
Definition Normal___rtruediv__ (self : loc) (other : operand V) : M V loc :=
  let* otherdist := asdistribution other in
  let* is_dirac := isinstance otherdist Dirac in
  if is_dirac then
    let* inverted := Normal___invert__ self in
    Distribution___mul__ inverted (Instance otherdist)
  else
    let* a := operand_name other in
    let* b := name_of self in
    unsupported "Division" a b.

(** [Normal.__rpow__] *)
Definition Normal___rpow__ (self : loc) (power : operand V)
    (modulo : option V) : M V loc :=
  let* a := operand_name power in
  let* b := name_of self in
  unsupported "Exponentiation" a b.

(** ** Dirac: binary operators

    Against a Dirac the supports are combined and stored in [self], which is
    returned.  Otherwise [other] is itself the instance [otherdist] (a value
    would have become a Dirac), and the call goes to its method. *)

Definition Dirac_update (op : V -> V -> result V) (self otherdist : loc)
    : M V loc :=
  let* a := parameter self "support" in
  let* b := parameter otherdist "support" in
  let* v := lift (op a b) in
  let* _ := set_parameter self "support" v in
  ret self.

(** [Dirac.__add__] *)
Definition Dirac___add__ (self : loc) (other : operand V) : M V loc :=
  let* otherdist := asdistribution other in
  let* c := class_at otherdist in
  match c with
  | Dirac => Dirac_update v_add self otherdist
  | Distribution => Distribution___add__ otherdist (Instance self)   (* other.__add__(other=self) *)
  | Normal => Normal___add__ otherdist (Instance self)
  end.

(** [Dirac.__sub__] *)
Definition Dirac___sub__ (self : loc) (other : operand V) : M V loc :=
  let* otherdist := asdistribution other in
  let* c := class_at otherdist in
  match c with
  | Dirac => Dirac_update v_sub self otherdist
  | Distribution => Distribution___rsub__ otherdist (Instance self)  (* other.__rsub__(other=self) *)
  | Normal => Normal___rsub__ otherdist (Instance self)
  end.

(** [Dirac.__mul__] *)
Definition Dirac___mul__ (self : loc) (other : operand V) : M V loc :=
  let* otherdist := asdistribution other in
  let* c := class_at otherdist in
  match c with
  | Dirac => Dirac_update v_mul self otherdist
  | Distribution => Distribution___mul__ otherdist (Instance self)   (* other.__mul__(other=self) *)
  | Normal => Normal___mul__ otherdist (Instance self)
  end.

(** [Dirac.__matmul__] *)
Definition Dirac___matmul__ (self : loc) (other : operand V) : M V loc :=
  let* otherdist := asdistribution other in
  let* c := class_at otherdist in
  match c with
  | Dirac => Dirac_update v_matmul self otherdist
  | Distribution => Distribution___rmatmul__ otherdist (Instance self) (* other.__rmatmul__(other=self) *)
  | Normal => Normal___rmatmul__ otherdist (Instance self)
  end.

(** [Dirac.__truediv__] *)
Definition Dirac___truediv__ (self : loc) (other : operand V) : M V loc :=
  let* otherdist := asdistribution other in
  let* c := class_at otherdist in
  match c with
  | Dirac => Dirac_update v_truediv self otherdist
  | Distribution => Distribution___rtruediv__ otherdist (Instance self) (* other.__rtruediv__(other=self) *)
  | Normal => Normal___rtruediv__ otherdist (Instance self)
  end.

(** [Dirac.__pow__]; [__rtruediv__] takes no [modulo]. *)
Definition Dirac___pow__ (self : loc) (power : operand V) (modulo : option V)
    : M V loc :=
  let* otherdist := asdistribution power in
  let* c := class_at otherdist in
  match c with
  | Dirac => Dirac_update (fun a b => v_pow a b modulo) self otherdist
  | _ =>                              (* power.__rtruediv__(other=self, modulo=modulo) *)
      raise (TypeError "__rtruediv__() got an unexpected keyword argument 'modulo'")
  end.

(** ** The operators as Python applies them *)

Inductive operator : Type := add | sub | mul | matmul | truediv | pow.

(** [operator.<op>(a, b)] on two distributions: the method of the class of
    [a].  (When [a] is an instance of the base class and [b] of a subclass,
    Python tries the reflected method of [b] first; [Dirac]'s calls
    [a.__<op>__(b)], and [Normal]'s raises what [a.__<op>__(b)] raises.) *)
Definition apply (op : operator) (a b : loc) : M V loc :=
  let* c := class_at a in
  match c, op with
  | Distribution, add => Distribution___add__ a (Instance b)
  | Distribution, sub => Distribution___sub__ a (Instance b)
  | Distribution, mul => Distribution___mul__ a (Instance b)
  | Distribution, matmul => Distribution___matmul__ a (Instance b)
  | Distribution, truediv => Distribution___truediv__ a (Instance b)
  | Distribution, pow => Distribution___pow__ a (Instance b) None
  | Dirac, add => Dirac___add__ a (Instance b)
  | Dirac, sub => Dirac___sub__ a (Instance b)
  | Dirac, mul => Dirac___mul__ a (Instance b)
  | Dirac, matmul => Dirac___matmul__ a (Instance b)
  | Dirac, truediv => Dirac___truediv__ a (Instance b)
  | Dirac, pow => Dirac___pow__ a (Instance b) None
  | Normal, add => Normal___add__ a (Instance b)
  | Normal, sub => Normal___sub__ a (Instance b)
  | Normal, mul => Normal___mul__ a (Instance b)
  | Normal, matmul => Normal___matmul__ a (Instance b)
  | Normal, truediv => Normal___truediv__ a (Instance b)
  | Normal, pow => Normal___pow__ a (Instance b) None
  end.

(** The arithmetic of the array layer behind each operator. *)
Definition primitive (op : operator) (a b : V) : result V :=
  match op with
  | add => v_add a b
  | sub => v_sub a b
  | mul => v_mul a b
  | matmul => v_matmul a b
  | truediv => v_truediv a b
  | pow => v_pow a b None
  end.

(** ** RandomVariable *)

(** [RandomVariable.__init__] *)
Definition RandomVariable___init__ (shape : list Z) (dtype : option dtype)
    (distribution : option loc) : M V RandomVariable :=
  let* derived :=
    match distribution with
    | Some d =>
        (* distribution.mean is a bound method, never None *)
        let* mu := mean_of d in
        let* of_mean :=
          if np_isscalar mu then
            let* mu1 := mean_of d in
            ret ([], dtype_of mu1)
          else
            let* mu1 := mean_of d in
            let* mu2 := mean_of d in
            ret (shape_of mu1, dtype_of mu2) in
        if bool_decide (fst of_mean = shape)
        then ret (fst of_mean, Some (snd of_mean))
        else raise (ValueError "Shape of distribution mean and given shape do not match.")
    | None => ret (shape, dtype)
    end in
  let* held :=
    match distribution with
    | Some d => asdistribution (Instance d)
    | None =>
        new (Distribution___init__ Distribution None
               None None None None None None None None)
    end in
  ret {| _shape := fst derived; _dtype := snd derived; _distribution := held |}.

(** [asrandomvariable], on a random variable or a value of the array layer. *)
Definition asrandomvariable (obj : rv_operand V) : M V RandomVariable :=
  match obj with
  | RV rv => ret rv
  | Const v =>
      if np_isscalar v then
        let* d := new_Dirac v None in
        RandomVariable___init__ [] (Some (dtype_of v)) (Some d)
      else
        let* d := new_Dirac v None in
        RandomVariable___init__ (shape_of v) (Some (dtype_of v)) (Some d)
  end.

(** [RandomVariable._rv_from_op] *)
Definition RandomVariable__rv_from_op (self : RandomVariable)
    (other : rv_operand V) (op : operator) : M V RandomVariable :=
  let* other_rv := asrandomvariable other in
  let* d := apply op (_distribution self) (_distribution other_rv) in
  RandomVariable___init__ [] None (Some d).

Definition RandomVariable___add__ (self : RandomVariable) (other : rv_operand V) :=
  RandomVariable__rv_from_op self other add.
Definition RandomVariable___sub__ (self : RandomVariable) (other : rv_operand V) :=
  RandomVariable__rv_from_op self other sub.
Definition RandomVariable___mul__ (self : RandomVariable) (other : rv_operand V) :=
  RandomVariable__rv_from_op self other mul.
Definition RandomVariable___matmul__ (self : RandomVariable) (other : rv_operand V) :=
  RandomVariable__rv_from_op self other matmul.
Definition RandomVariable___truediv__ (self : RandomVariable) (other : rv_operand V) :=
  RandomVariable__rv_from_op self other truediv.
Definition RandomVariable___pow__ (self : RandomVariable) (power : rv_operand V) :=
  RandomVariable__rv_from_op self power pow.

End Operators.

(** ** Scenarios on Python numbers

    Programs of the documentation and of the claims, run from the empty
    store on [PyNum]. *)

Section Scenarios.

(** The docstring of [Normal]:
    [N = Normal(mean=0.5, cov=1); N1 = 2*N - 1; N1.parameters].
    [2*N] is [N.__rmul__(2)], since [int.__mul__] does not take [N]. *)
Definition Normal_docstring_example : M pyval (gmap string pyval) :=
  let* N := new_Normal (PFloat 0.5) (PInt 1) None in
  let* twice := Normal___rmul__ N (Value (PInt 2)) in
  let* N1 := Normal___sub__ twice (Value (PInt 1)) in
  let* o := load N1 in
  ret (_parameters o).

(** [Normal(mean=0, cov=1) + Dirac(support=np.array([1., 2.]))] *)
Definition Normal_plus_array_Dirac : M pyval loc :=
  let* N := new_Normal (PInt 0) (PInt 1) None in
  let* d := new_Dirac (PArray [2] [1%float; 2%float]) None in
  Normal___add__ N (Instance d).

(** [d = Dirac(support=0.) + Dirac(support=1.); d.sample(size)] *)
Definition Dirac_sum_sample (sz : size) : M pyval pyval :=
  let* zero := new_Dirac (PFloat 0) None in
  let* one := new_Dirac (PFloat 1) None in
  let* d := Dirac___add__ zero (Instance one) in
  let* o := load d in
  lift (Dirac_sample o sz).

(** [Normal(0, 1) * Normal(0, 1)] and [Normal(0, 1) ** 2] *)
Definition Normal_times_Normal : M pyval loc :=
  let* a := new_Normal (PInt 0) (PInt 1) None in
  let* b := new_Normal (PInt 0) (PInt 1) None in
  Normal___mul__ a (Instance b).

Definition Normal_squared : M pyval loc :=
  let* a := new_Normal (PInt 0) (PInt 1) None in
  Normal___pow__ a (Value (PInt 2)) None.

(** [asrandomvariable(np.array([1., 2.])) + np.array([3., 4.])] *)
Definition array_RandomVariable_plus_array (fuel : nat)
    : M pyval RandomVariable :=
  let* rv := asrandomvariable fuel (Const (PArray [2] [1%float; 2%float])) in
  RandomVariable___add__ fuel rv (Const (PArray [2] [3%float; 4%float])).

(** [Distribution(mean=lambda: 1.0) / Dirac(support=zero)] *)
Definition Distribution_over_Dirac (fuel : nat) (zero : pyval) : M pyval loc :=
  let* d :=
    new (Distribution___init__ Distribution None None None None None None
           (Some (callable0 (Return (PFloat 1)))) None None) in
  let* z := new_Dirac zero None in
  Distribution___truediv__ fuel d (Instance z).

(** [Normal(0, 1) / Dirac(support=0)] *)
Definition Normal_over_Dirac_0 : M pyval loc :=
  let* n := new_Normal (PInt 0) (PInt 1) None in
  let* z := new_Dirac (PInt 0) None in
  Normal___truediv__ n (Instance z).

(** [Distribution(mean=lambda: 1.0) / 0] *)
Definition Distribution_over_0 (fuel : nat) : M pyval loc :=
  let* d :=
    new (Distribution___init__ Distribution None None None None None None
           (Some (callable0 (Return (PFloat 1)))) None None) in
  Distribution___truediv__ fuel d (Value (PInt 0)).

End Scenarios.

(** ** Further methods of the module

    The reflected and the in-place operators of [Dirac], the unary
    operators as Python applies them, [median], and the methods of
    [RandomVariable] that read the distribution or rebuild the variable. *)

Inductive unary_operator : Type := neg | pos | abs.

(** The word for each operator in the messages of the errors. *)
Definition operation_name (op : operator) : string :=
  match op with
  | add => "Addition"
  | sub => "Subtraction"
  | mul => "Multiplication"
  | matmul => "Matrix multiplication"
  | truediv => "Division"
  | pow => "Exponentiation"
  end.

Section Further.
Context {V : Type} `{AL : ArrayLayer V}.

(** The recursion limit under which [mean()] and [cdf()] are evaluated. *)
Variable fuel : nat.

(** [Dirac.__radd__], ..., [Dirac.__rpow__]: the method of
    [asdistribution(other)] is called on [self], e.g.
    [asdistribution(other).__add__(other=self)]. *)
Definition Dirac_reflected (op : operator) (self : loc) (other : operand V)
    : M V loc :=
  let* otherdist := asdistribution other in
  apply fuel op otherdist self.

Definition Dirac___radd__ : loc -> operand V -> M V loc := Dirac_reflected add.
Definition Dirac___rsub__ : loc -> operand V -> M V loc := Dirac_reflected sub.
Definition Dirac___rmul__ : loc -> operand V -> M V loc := Dirac_reflected mul.
Definition Dirac___rmatmul__ : loc -> operand V -> M V loc :=
  Dirac_reflected matmul.
Definition Dirac___rtruediv__ : loc -> operand V -> M V loc :=
  Dirac_reflected truediv.
Definition Dirac___rpow__ : loc -> operand V -> M V loc := Dirac_reflected pow.

(** [Dirac.__iadd__], ..., [Dirac.__ipow__]: the update of the binary
    operator against a Dirac, a bare [raise NotImplementedError] otherwise. *)
Definition Dirac_in_place (op : V -> V -> result V) (self : loc)
    (other : operand V) : M V loc :=
  let* otherdist := asdistribution other in
  let* is_dirac := isinstance otherdist Dirac in
  if is_dirac then Dirac_update op self otherdist
  else raise (NotImplementedError "").

Definition Dirac___iadd__ : loc -> operand V -> M V loc := Dirac_in_place v_add.
Definition Dirac___isub__ : loc -> operand V -> M V loc := Dirac_in_place v_sub.
Definition Dirac___imul__ : loc -> operand V -> M V loc := Dirac_in_place v_mul.
Definition Dirac___imatmul__ : loc -> operand V -> M V loc :=
  Dirac_in_place v_matmul.
Definition Dirac___itruediv__ : loc -> operand V -> M V loc :=
  Dirac_in_place v_truediv.
Definition Dirac___ipow__ (self : loc) (power : operand V) (modulo : option V)
    : M V loc :=
  Dirac_in_place (fun a b => v_pow a b modulo) self power.

(** The in-place operator behind each augmented assignment of a Dirac. *)
Definition Dirac_augmented (op : operator) (self : loc) (other : operand V)
    : M V loc :=
  match op with
  | add => Dirac___iadd__ self other
  | sub => Dirac___isub__ self other
  | mul => Dirac___imul__ self other
  | matmul => Dirac___imatmul__ self other
  | truediv => Dirac___itruediv__ self other
  | pow => Dirac___ipow__ self other None
  end.

(** The binary operator of a Dirac, called as a method: [self.__add__(other)]
    and the like. *)
Definition Dirac_binary (op : operator) (self : loc) (other : operand V)
    : M V loc :=
  match op with
  | add => Dirac___add__ self other
  | sub => Dirac___sub__ self other
  | mul => Dirac___mul__ fuel self other
  | matmul => Dirac___matmul__ self other
  | truediv => Dirac___truediv__ fuel self other
  | pow => Dirac___pow__ self other None
  end.

(** [operator.neg(a)], [operator.pos(a)], [operator.abs(a)]: the method of
    the class of [a]. *)
Definition apply_unary (op : unary_operator) (a : loc) : M V loc :=
  let* c := class_at a in
  match c, op with
  | Distribution, neg => Distribution___neg__ a
  | Distribution, pos => Distribution___pos__ a
  | Distribution, abs => Distribution___abs__ a
  | Dirac, neg => Dirac___neg__ a
  | Dirac, pos => Dirac___pos__ a
  | Dirac, abs => Dirac___abs__ a
  | Normal, neg => Normal___neg__ a
  | Normal, pos => Normal___pos__ a
  | Normal, abs => Normal___abs__ a
  end.

(** [self.median()], by the class of [self]: [Dirac.median] is the support,
    [Distribution.median], which [Normal] inherits, is [self.cdf(x=0.5)]. *)
Definition median_of (h : heap V) (self : loc) : result V :=
  match h !! self with
  | None => Raise Dangling
  | Some o =>
      match class_of o with
      | Dirac => getitem (_parameters o) "support"
      | _ => evaluate fuel h cdf self (py_float 0.5%float)
      end
  end.

(** [RandomVariable.mean]: a [KeyError] of the distribution becomes the
    not-implemented error.  ([self._distribution] is never [None]: the
    constructor puts an empty [Distribution()] there.) *)
Definition RandomVariable_mean (self : RandomVariable) : M V V :=
  fun h =>
    match moment_of fuel h moment_mean (_distribution self) with
    | Raise (KeyError _) =>
        (let* name := name_of (_distribution self) in
         raise (NotImplementedError
                  ("Underlying " +:+ name +:+ " has no mean."))) h
    | r => (r, h)
    end.

(** [RandomVariable.cov]: [self._distribution.parameters["cov"]] *)
Definition RandomVariable_cov (self : RandomVariable) : M V V :=
  let* o := load (_distribution self) in
  match getitem (_parameters o) "cov" with
  | Raise (KeyError _) =>
      raise (NotImplementedError
               ("Underlying " +:+ cls_name (class_of o)
                +:+ " has no covariance."))
  | r => lift r
  end.

(** [RandomVariable.__neg__], [__pos__], [__abs__] *)
Definition RandomVariable_unary (op : unary_operator) (self : RandomVariable)
    : M V RandomVariable :=
  let* d := apply_unary op (_distribution self) in
  RandomVariable___init__ fuel (_shape self) (_dtype self) (Some d).

Definition RandomVariable___neg__ : RandomVariable -> M V RandomVariable :=
  RandomVariable_unary neg.
Definition RandomVariable___pos__ : RandomVariable -> M V RandomVariable :=
  RandomVariable_unary pos.
Definition RandomVariable___abs__ : RandomVariable -> M V RandomVariable :=
  RandomVariable_unary abs.

(** [RandomVariable.__radd__], ..., [RandomVariable.__rpow__]:
    [asrandomvariable(other)._rv_from_op(other=self, op=...)] *)
Definition RandomVariable_reflected (op : operator) (self : RandomVariable)
    (other : rv_operand V) : M V RandomVariable :=
  let* other_rv := asrandomvariable fuel other in
  RandomVariable__rv_from_op fuel other_rv (RV self) op.

Definition RandomVariable___radd__ := RandomVariable_reflected add.
Definition RandomVariable___rsub__ := RandomVariable_reflected sub.
Definition RandomVariable___rmul__ := RandomVariable_reflected mul.
Definition RandomVariable___rmatmul__ := RandomVariable_reflected matmul.
Definition RandomVariable___rtruediv__ := RandomVariable_reflected truediv.
Definition RandomVariable___rpow__ := RandomVariable_reflected pow.

(** The arithmetic of the array layer behind each unary operator. *)
Definition unary_primitive (op : unary_operator) (a : V) : result V :=
  match op with
  | neg => v_neg a
  | pos => v_pos a
  | abs => v_abs a
  end.

(** The instances that are not point masses. *)
Definition not_Dirac (l : loc) (o : object V) : Prop := class_of o <> Dirac.

(** Instances that a computation leaves as they are: those that satisfy
    [P] in the store [h] it starts from. *)
Definition preserves {A : Type} (P : loc -> object V -> Prop) (m : M V A)
    (h : heap V) : Prop :=
  forall l o, P l o -> h !! l = Some o -> snd (m h) !! l = Some o.

End Further.

(** * Reasoning about computations on the store *)

Section Store.
Context {V : Type} `{AL : ArrayLayer V}.

Lemma bind_Return {A B : Type} (m : M V A) (k : A -> M V B) h a h' :
  m h = (Return a, h') -> bind m k h = k a h'.
Proof. intros E. unfold bind. by rewrite E. Qed.

Lemma bind_Raise {A B : Type} (m : M V A) (k : A -> M V B) h e h' :
  m h = (Raise e, h') -> bind m k h = (Raise e, h').
Proof. intros E. unfold bind. by rewrite E. Qed.

Lemma load_Some (h : heap V) l o :
  h !! l = Some o -> load l h = (Return o, h).
Proof. intros E. unfold load. by rewrite E. Qed.

Lemma class_at_Some (h : heap V) l o :
  h !! l = Some o -> class_at l h = (Return (class_of o), h).
Proof.
  intros E. unfold class_at.
  by rewrite (bind_Return _ _ _ _ _ (load_Some _ _ _ E)).
Qed.

Lemma isinstance_Dirac (h : heap V) l o :
  h !! l = Some o ->
  isinstance l Dirac h = (Return (is_Dirac (class_of o)), h).
Proof.
  intros E. unfold isinstance.
  by rewrite (bind_Return _ _ _ _ _ (load_Some _ _ _ E)).
Qed.

Lemma name_of_Some (h : heap V) l o :
  h !! l = Some o -> name_of l h = (Return (cls_name (class_of o)), h).
Proof.
  intros E. unfold name_of.
  by rewrite (bind_Return _ _ _ _ _ (load_Some _ _ _ E)).
Qed.

Lemma random_state_of_Some (h : heap V) l o :
  h !! l = Some o -> random_state_of l h = (Return (_random_state o), h).
Proof.
  intros E. unfold random_state_of.
  by rewrite (bind_Return _ _ _ _ _ (load_Some _ _ _ E)).
Qed.

Lemma parameter_Some (h : heap V) l o key v :
  h !! l = Some o -> _parameters o !! key = Some v ->
  parameter l key h = (Return v, h).
Proof.
  intros E K. unfold parameter.
  rewrite (bind_Return _ _ _ _ _ (load_Some _ _ _ E)).
  unfold lift, getitem. by rewrite K.
Qed.

Lemma set_parameter_Some (h : heap V) l o key v :
  h !! l = Some o ->
  set_parameter l key v h = (Return tt, <[l := with_parameter o key v]> h).
Proof.
  intros E. unfold set_parameter.
  by rewrite (bind_Return _ _ _ _ _ (load_Some _ _ _ E)).
Qed.

Lemma lift_Return {A : Type} (r : result A) a (h : heap V) :
  r = Return a -> lift r h = (Return a, h).
Proof. by intros ->. Qed.

Lemma lift_Raise {A : Type} (r : result A) e (h : heap V) :
  r = Raise e -> lift r h = (Raise e, h).
Proof. by intros ->. Qed.

Lemma asdistribution_Instance l (h : heap V) :
  asdistribution (Instance l) h = (Return l, h).
Proof. reflexivity. Qed.

Lemma asdistribution_Value v (h : heap V) :
  asdistribution (Value v) h
  = (Return (List.length h), h ++ [Dirac___init__ v None]).
Proof. unfold asdistribution. by destruct (np_isscalar v). Qed.

Lemma new_Normal_valid (h : heap V) mean cov rs multivariate :
  Normal_mode mean cov = Return multivariate ->
  new_Normal mean cov rs h
  = (Return (List.length h), h ++ [Normal_object multivariate mean cov rs]).
Proof.
  intros E. unfold new_Normal, Normal___init__, bind, lift. by rewrite E.
Qed.

Lemma new_Normal_invalid (h : heap V) mean cov rs e :
  Normal_mode mean cov = Raise e ->
  new_Normal mean cov rs h = (Raise e, h).
Proof.
  intros E. unfold new_Normal, Normal___init__, bind, lift. by rewrite E.
Qed.

Lemma lookup_updated (h : heap V) l o o' :
  h !! l = Some o -> <[l := o']> h !! l = Some o'.
Proof. intros E. apply list_lookup_insert_eq. by eapply lookup_lt_Some. Qed.

Lemma lookup_allocated (h : heap V) o :
  (h ++ [o]) !! List.length h = Some o.
Proof. by rewrite list_lookup_middle. Qed.

Lemma lookup_kept (h t : heap V) l o :
  h !! l = Some o -> (h ++ t) !! l = Some o.
Proof. intros E. by apply lookup_app_l_Some. Qed.

Lemma allocates_ret {A : Type} (a : A) : allocates V (ret a).
Proof. intros h. exists []. simpl. by rewrite app_nil_r. Qed.

Lemma allocates_raise {A : Type} (e : exn) : allocates V (@raise V A e).
Proof. intros h. exists []. simpl. by rewrite app_nil_r. Qed.

Lemma allocates_lift {A : Type} (r : result A) : allocates V (lift r).
Proof. intros h. exists []. simpl. by rewrite app_nil_r. Qed.

Lemma allocates_new (o : object V) : allocates V (new o).
Proof. intros h. by exists [o]. Qed.

Lemma allocates_load l : allocates V (load l).
Proof.
  intros h. exists []. unfold load.
  destruct (h !! l); simpl; by rewrite app_nil_r.
Qed.

Lemma allocates_bind {A B : Type} (m : M V A) (k : A -> M V B) :
  allocates V m -> (forall a, allocates V (k a)) -> allocates V (bind m k).
Proof.
  intros Hm Hk h. unfold bind.
  destruct (Hm h) as [t Ht]. destruct (m h) as [[a|e] h']; simpl in Ht; subst h'.
  - destruct (Hk a (h ++ t)) as [t' Ht']. exists (t ++ t').
    by rewrite Ht', app_assoc.
  - by exists t.
Qed.

End Store.

(** One [let*] whose computation returns: rewrite it away. *)
Ltac step :=
  lazymatch goal with
  | |- context [ bind ?m ?k ?h ] =>
      erewrite (bind_Return m k h);
      [ cbv beta
      | first [ eapply parameter_Some; eassumption
              | eapply set_parameter_Some; eassumption
              | eapply class_at_Some; eassumption
              | eapply isinstance_Dirac; eassumption
              | eapply name_of_Some; eassumption
              | eapply random_state_of_Some; eassumption
              | eapply load_Some; eassumption
              | eapply lift_Return; eassumption
              | apply asdistribution_Instance
              | apply asdistribution_Value
              | eapply new_Normal_valid; eassumption
              | reflexivity ] ]
  end.

Section Frames.
Context {V : Type} `{AL : ArrayLayer V}.

Lemma allocates_asdistribution (obj : operand V) :
  allocates V (asdistribution obj).
Proof.
  destruct obj as [v|l]; unfold asdistribution, new_Dirac.
  - destruct (np_isscalar v); apply allocates_new.
  - apply allocates_ret.
Qed.

Lemma allocates_unsupported {A : Type} what a b :
  allocates V (@unsupported V A what a b).
Proof. apply allocates_raise. Qed.

Lemma allocates_operand_name (other : operand V) :
  allocates V (operand_name other).
Proof.
  destruct other; unfold operand_name, name_of.
  - apply allocates_ret.
  - apply allocates_bind; [ apply allocates_load | intros; apply allocates_ret ].
Qed.

Lemma allocates_new_Normal (mean cov : V) rs :
  allocates V (new_Normal mean cov rs).
Proof.
  unfold new_Normal.
  apply allocates_bind; [ apply allocates_lift | intros; apply allocates_new ].
Qed.

Lemma allocates_Distribution___add__ self (other : operand V) :
  allocates V (Distribution___add__ self other).
Proof.
  unfold Distribution___add__, isinstance, parameter, random_state_of, name_of.
  repeat first
    [ apply allocates_ret | apply allocates_lift | apply allocates_new
    | apply allocates_load | apply allocates_asdistribution
    | apply allocates_unsupported | apply allocates_operand_name
    | apply allocates_bind; [ | intros ? ]
    | match goal with
      | |- allocates _ (if ?b then _ else _) => destruct b
      end ].
Qed.

Lemma allocates_Normal___add__ self (other : operand V) :
  allocates V (Normal___add__ self other).
Proof.
  unfold Normal___add__, isinstance, parameter, random_state_of, name_of.
  repeat first
    [ apply allocates_ret | apply allocates_lift | apply allocates_new_Normal
    | apply allocates_load | apply allocates_asdistribution
    | apply allocates_unsupported | apply allocates_operand_name
    | apply allocates_bind; [ | intros ? ]
    | match goal with
      | |- allocates _ (if ?b then _ else _) => destruct b
      end ].
Qed.

End Frames.

(** * Dirac arithmetic is an update in place *)

Section DiracInPlace.
Context {V : Type} `{AL : ArrayLayer V}.
Variable fuel : nat.

(** C4: for two Dirac instances [d1] and [d2] and each of [+ - * @ / **],
    [d1 op d2] stores [support(d1) op support(d2)] as the support of [d1]
    and returns [d1] itself; no instance is created.  [d1] and [d2] may be
    the same instance.  When the arithmetic on the supports raises, the
    exception is passed on and [d1] is left as it was. *)
Theorem Dirac_binary_operators_update_in_place
    (op : operator) (h : heap V) (d1 d2 : loc) (o1 o2 : object V) (s1 s2 : V) :
  h !! d1 = Some o1 -> h !! d2 = Some o2 ->
  class_of o1 = Dirac -> class_of o2 = Dirac ->
  _parameters o1 !! "support" = Some s1 ->
  _parameters o2 !! "support" = Some s2 ->
  apply fuel op d1 d2 h
  = match primitive op s1 s2 with
    | Return v => (Return d1, <[d1 := with_parameter o1 "support" v]> h)
    | Raise e => (Raise e, h)
    end.
Proof.
  intros H1 H2 C1 C2 S1 S2.
  unfold apply. step. rewrite C1.
  destruct op;
    [ unfold Dirac___add__ | unfold Dirac___sub__ | unfold Dirac___mul__
    | unfold Dirac___matmul__ | unfold Dirac___truediv__ | unfold Dirac___pow__ ];
    step; step; rewrite C2; unfold Dirac_update; step; step; simpl primitive.
  all: match goal with
       | |- context [ lift ?r ] => destruct r as [v|e] eqn:P
       end.
  all: first [ step; step; reflexivity
             | erewrite bind_Raise; [ reflexivity | by apply lift_Raise ] ].
Qed.

(** C9: on a Dirac [d], each of [-d], [+d], [abs(d)] and [~d] stores the
    result as the support of [d] and returns [d] itself.  Hence
    [self - d], computed as [self + (-d)] by [Distribution.__sub__] and by
    [Normal.__sub__], leaves [d] with the negated support in the store,
    whatever the addition then returns or raises: every holder of [d]
    sees it. *)
Theorem Dirac_unary_operators_update_in_place
    (h : heap V) (d : loc) (o : object V) (s : V) :
  h !! d = Some o -> class_of o = Dirac ->
  _parameters o !! "support" = Some s ->
  (forall v, v_neg s = Return v ->
     Dirac___neg__ d h = (Return d, <[d := with_parameter o "support" v]> h))
  /\ (forall v, v_pos s = Return v ->
     Dirac___pos__ d h = (Return d, <[d := with_parameter o "support" v]> h))
  /\ (forall v, v_abs s = Return v ->
     Dirac___abs__ d h = (Return d, <[d := with_parameter o "support" v]> h))
  /\ (forall v, v_invert s = Return v ->
     Dirac___invert__ d h = (Return d, <[d := with_parameter o "support" v]> h))
  /\ (forall v self, v_neg s = Return v ->
     snd (Distribution___sub__ self (Instance d) h) !! d
     = Some (with_parameter o "support" v))
  /\ (forall v self, v_neg s = Return v ->
     snd (Normal___sub__ self (Instance d) h) !! d
     = Some (with_parameter o "support" v)).
Proof.
  intros H C S.
  assert (U : forall op v, op s = Return v ->
            Dirac_unary op d h
            = (Return d, <[d := with_parameter o "support" v]> h)).
  { intros op v P. unfold Dirac_unary. do 3 step. reflexivity. }
  repeat split; intros v; try (intros P; by apply U).
  - intros self P. unfold Distribution___sub__.
    step. step. rewrite C. cbn [is_Dirac].
    erewrite bind_Return by (by apply U).
    destruct (allocates_Distribution___add__ self (Instance d)
                (<[d := with_parameter o "support" v]> h)) as [t ->].
    apply lookup_kept. by eapply lookup_updated.
  - intros self P. unfold Normal___sub__.
    step. step. rewrite C. cbn [is_Dirac].
    erewrite bind_Return by (by apply U).
    destruct (allocates_Normal___add__ self (Instance d)
                (<[d := with_parameter o "support" v]> h)) as [t ->].
    apply lookup_kept. by eapply lookup_updated.
Qed.

End DiracInPlace.

(** The sum of the point masses at 1 and 2, on Python ints. *)
Lemma Dirac_binary_operators_update_in_place_witness :
  apply 0 add 0%nat 1%nat
    [Dirac___init__ (PInt 1) None; Dirac___init__ (PInt 2) None]
  = (Return 0%nat,
     [Dirac___init__ (PInt 3) None; Dirac___init__ (PInt 2) None]).
Proof.
  exact (Dirac_binary_operators_update_in_place 0 add
           [Dirac___init__ (PInt 1) None; Dirac___init__ (PInt 2) None]
           0%nat 1%nat
           (Dirac___init__ (PInt 1) None) (Dirac___init__ (PInt 2) None)
           (PInt 1) (PInt 2)
           eq_refl eq_refl eq_refl eq_refl eq_refl eq_refl).
Defined.

(** The point mass at 1, negated by [Normal(0, 1) - d]. *)
Lemma Dirac_unary_operators_update_in_place_witness :
  snd (Normal___sub__ 0%nat (Instance 1%nat)
         [Normal_object false (PInt 0) (PInt 1) None;
          Dirac___init__ (PInt 1) None]) !! 1%nat
  = Some (Dirac___init__ (PInt (-1)) None).
Proof.
  exact (proj2 (proj2 (proj2 (proj2 (proj2
           (Dirac_unary_operators_update_in_place
              [Normal_object false (PInt 0) (PInt 1) None;
               Dirac___init__ (PInt 1) None]
              1%nat (Dirac___init__ (PInt 1) None) (PInt 1)
              eq_refl eq_refl eq_refl)))))
           (PInt (-1)) 0%nat eq_refl).
Defined.

(** * Evaluation methods and moments *)

Section Capabilities.
Context {V : Type} `{AL : ArrayLayer V}.

(** C2 (where the code departs from the claim): [Distribution.logpdf] tests
    [hasattr(self, '_logpdf')], which holds of every instance, and so calls
    [self._logpdf] even when it is [None]: on an instance built without
    [logpdf] the call raises [TypeError], whether or not [pdf] was given.
    It neither returns [log(pdf(x))] nor raises the not-implemented error. *)
Theorem logpdf_calls_None (fuel : nat) (h : heap V) (l : loc) (o : object V) (x : V) :
  h !! l = Some o -> class_of o <> Normal -> _logpdf o = None ->
  evaluate (S fuel) h logpdf l x
  = Raise (TypeError "'NoneType' object is not callable").
Proof.
  intros H C E. simpl. rewrite H.
  destruct (class_of o); [ | | congruence ];
    unfold Distribution_logpdf; by rewrite E.
Qed.

(** The other three methods are as the claim has them: the function itself
    when it was given, else the counterpart through [exp] or [log], else
    the not-implemented error that names the class. *)
Lemma pdf_cdf_logcdf_dispatch (fuel : nat) (h : heap V) (l : loc) (o : object V) (x : V) :
  h !! l = Some o -> class_of o = Distribution ->
  (forall f, _pdf o = Some (callable1 f) -> evaluate (S fuel) h pdf l x = f x)
  /\ (forall g, _pdf o = None -> _logpdf o = Some (callable1 g) ->
        evaluate (S fuel) h pdf l x = let? y := g x in np_exp y)
  /\ (_pdf o = None -> _logpdf o = None ->
        evaluate (S fuel) h pdf l x
        = Raise (NotImplementedError
            "The function 'pdf' is not implemented for object of class Distribution"))
  /\ (forall f, _cdf o = Some (callable1 f) -> evaluate (S fuel) h cdf l x = f x)
  /\ (forall g, _cdf o = None -> _logcdf o = Some (callable1 g) ->
        evaluate (S fuel) h cdf l x = let? y := g x in np_exp y)
  /\ (_cdf o = None -> _logcdf o = None ->
        evaluate (S fuel) h cdf l x
        = Raise (NotImplementedError
            "The function 'cdf' is not implemented for object of class Distribution"))
  /\ (forall f, _logcdf o = Some (callable1 f) -> evaluate (S fuel) h logcdf l x = f x)
  /\ (forall g, _logcdf o = None -> _cdf o = Some (callable1 g) ->
        evaluate (S fuel) h logcdf l x = let? y := g x in np_log y)
  /\ (_logcdf o = None -> _cdf o = None ->
        evaluate (S fuel) h logcdf l x
        = Raise (NotImplementedError
            "The function 'logcdf' is not implemented for object of class Distribution"))
  /\ (forall f, _logpdf o = Some (callable1 f) -> evaluate (S fuel) h logpdf l x = f x).
Proof.
  intros H C. simpl. rewrite H, C.
  unfold Distribution_pdf, Distribution_cdf, Distribution_logcdf,
    Distribution_logpdf, not_implemented.
  rewrite C. cbn [cls_name].
  repeat split; intros; repeat match goal with E : _ = _ |- _ => rewrite E end;
    reflexivity.
Qed.

(** C10: a random variable cannot be built on an instance of the base class
    that has no [mean] function and no ["mean"] parameter: the constructor
    calls [distribution.mean()], which raises the not-implemented error,
    at construction.  The distributions that [abs] returns, on a generic
    distribution and on a Normal, are such instances. *)
Theorem RandomVariable_needs_a_mean
    (fuel : nat) (h : heap V) (d : loc) (o : object V)
    (shape : list Z) (dt : option dtype) :
  h !! d = Some o ->
  let no_mean :=
    NotImplementedError
      "The function 'mean' is not implemented for object of class Distribution" in
  let abs_d :=
    Distribution___init__ Distribution (Some ∅) None None None None
      (Some (lambda_sample_abs d)) None None (Some (_random_state o)) in
  (class_of o = Distribution -> _mean o = None ->
   _parameters o !! "mean" = None ->
   RandomVariable___init__ (S fuel) shape dt (Some d) h = (Raise no_mean, h))
  /\ (class_of o = Distribution ->
      (let* a := Distribution___abs__ d in
       RandomVariable___init__ (S fuel) shape dt (Some a)) h
      = (Raise no_mean, h ++ [abs_d]))
  /\ (class_of o = Normal ->
      (let* a := Normal___abs__ d in
       RandomVariable___init__ (S fuel) shape dt (Some a)) h
      = (Raise no_mean, h ++ [abs_d])).
Proof.
  intros H no_mean abs_d.
  assert (K : forall (h' : heap V) d' o', h' !! d' = Some o' ->
            class_of o' = Distribution -> _mean o' = None ->
            _parameters o' !! "mean" = None ->
            RandomVariable___init__ (S fuel) shape dt (Some d') h'
            = (Raise no_mean, h')).
  { intros h' d' o' H' C E P. unfold RandomVariable___init__.
    erewrite bind_Raise; [ reflexivity | ].
    erewrite bind_Raise; [ reflexivity | ].
    unfold mean_of. simpl. rewrite H', C.
    unfold Distribution_mean, not_implemented. by rewrite E, P, C. }
  split; [ by apply K | ].
  assert (A : forall e, try_except
            (let* rs := random_state_of d in
             new (Distribution___init__ Distribution (Some ∅) None None None
                    None (Some (lambda_sample_abs d)) None None (Some rs))) e h
            = (Return (List.length h), h ++ [abs_d])).
  { intros e. unfold try_except. step. reflexivity. }
  split; intros _.
  - unfold Distribution___abs__. erewrite bind_Return by apply A.
    eapply K; [ apply lookup_allocated | reflexivity .. ].
  - unfold Normal___abs__. erewrite bind_Return by apply A.
    eapply K; [ apply lookup_allocated | reflexivity .. ].
Qed.

End Capabilities.

(** [Distribution(pdf=f).logpdf(x)], with [f] the identity. *)
Lemma logpdf_calls_None_witness :
  evaluate 1
    [Distribution___init__ Distribution None (Some (callable1 Return))
       None None None None None None None]
    logpdf 0%nat (PFloat 1)
  = Raise (TypeError "'NoneType' object is not callable").
Proof.
  apply (logpdf_calls_None 0
           [Distribution___init__ Distribution None (Some (callable1 Return))
              None None None None None None None]
           0%nat
           (Distribution___init__ Distribution None (Some (callable1 Return))
              None None None None None None None));
    [ reflexivity | discriminate | reflexivity ].
Defined.

(** The empty distribution [Distribution()]. *)
Lemma RandomVariable_needs_a_mean_witness :
  RandomVariable___init__ 1 [] None (Some 0%nat)
    [Distribution___init__ Distribution None
       None None None None None None None None]
  = (Raise (NotImplementedError
       "The function 'mean' is not implemented for object of class Distribution"),
     [Distribution___init__ Distribution (@None (gmap string pyval))
        None None None None None None None None]).
Proof.
  apply (proj1 (RandomVariable_needs_a_mean 0
                  [Distribution___init__ Distribution None
                     None None None None None None None None]
                  0%nat
                  (Distribution___init__ Distribution None
                     None None None None None None None None)
                  [] None eq_refl));
    reflexivity.
Defined.

(** * Operators that raise *)

Section Unsupported.
Context {V : Type} `{AL : ArrayLayer V}.

(** C6 (where the code departs from the claim): [d @ Dirac(delta)] returns
    no distribution.  [Distribution.__matmul__] passes
    [var=delta @ self.var @ delta.T], an expression evaluated at the call
    in which [self.var] is the bound method: the product of [delta] and a
    method raises, before any instance is built.  This holds for every
    [self] and every support [delta]. *)
Theorem Distribution_matmul_Dirac_raises
    (h : heap V) (self d : loc) (o : object V) (delta : V) :
  h !! d = Some o -> class_of o = Dirac ->
  _parameters o !! "support" = Some delta ->
  Distribution___matmul__ self (Instance d) h
  = (Raise (v_matmul_method delta), h).
Proof.
  intros H C S. unfold Distribution___matmul__.
  step. step. rewrite C. cbn [is_Dirac]. step.
  reflexivity.
Qed.

(** C7: the product of two Normal instances, and a Normal raised to any
    power, raise the not-implemented error at the call, with both class
    names in the message; nothing is returned and the store is unchanged. *)
Theorem Normal_product_and_power_unsupported
    (h : heap V) (a b : loc) (oa ob : object V) :
  h !! a = Some oa -> h !! b = Some ob ->
  class_of oa = Normal -> class_of ob = Normal ->
  Normal___mul__ a (Instance b) h
  = (Raise (NotImplementedError
       "Multiplication not implemented for Normal and Normal."), h)
  /\ (forall (p : V) (modulo : option V),
      Normal___pow__ a (Value p) modulo h
      = (Raise (NotImplementedError
           ("Exponentiation not implemented for Normal and "
            +:+ class_name p +:+ ".")), h))
  /\ (forall (modulo : option V),
      Normal___pow__ a (Instance b) modulo h
      = (Raise (NotImplementedError
           "Exponentiation not implemented for Normal and Normal."), h)).
Proof.
  intros Ha Hb Ca Cb. repeat split.
  - unfold Normal___mul__. step. step. rewrite Cb. cbn [is_Dirac].
    step. unfold operand_name. step. by rewrite Ca, Cb.
  - intros p modulo. unfold Normal___pow__. step.
    unfold operand_name, unsupported, bind, ret, raise. by rewrite Ca.
  - intros modulo. unfold Normal___pow__. step.
    unfold operand_name. step. by rewrite Ca, Cb.
Qed.

End Unsupported.

(** [Distribution() @ Dirac(support=np.array([1., 2.]))] *)
Lemma Distribution_matmul_Dirac_raises_witness :
  Distribution___matmul__ 0%nat (Instance 1%nat)
    [Distribution___init__ Distribution None
       None None None None None None None None;
     Dirac___init__ (PArray [2] [1%float; 2%float]) None]
  = (Raise (ValueError
       "matmul: Input operand 1 does not have enough dimensions"),
     [Distribution___init__ Distribution None
        None None None None None None None None;
      Dirac___init__ (PArray [2] [1%float; 2%float]) None]).
Proof.
  exact (Distribution_matmul_Dirac_raises
           [Distribution___init__ Distribution None
              None None None None None None None None;
            Dirac___init__ (PArray [2] [1%float; 2%float]) None]
           0%nat 1%nat
           (Dirac___init__ (PArray [2] [1%float; 2%float]) None)
           (PArray [2] [1%float; 2%float])
           eq_refl eq_refl eq_refl).
Defined.

(** [Normal(0, 1) * Normal(0, 1)] and [Normal(0, 1) ** 2], from the empty
    store. *)
Lemma Normal_product_and_power_unsupported_witness :
  fst (Normal_times_Normal [])
  = Raise (NotImplementedError
      "Multiplication not implemented for Normal and Normal.")
  /\ fst (Normal_squared [])
     = Raise (NotImplementedError
         "Exponentiation not implemented for Normal and int.").
Proof.
  pose proof (Normal_product_and_power_unsupported
                [Normal_object false (PInt 0) (PInt 1) None;
                 Normal_object false (PInt 0) (PInt 1) None]
                0%nat 1%nat
                (Normal_object false (PInt 0) (PInt 1) None)
                (Normal_object false (PInt 0) (PInt 1) None)
                eq_refl eq_refl eq_refl eq_refl) as [Hmul _].
  pose proof (Normal_product_and_power_unsupported
                [Normal_object false (PInt 0) (PInt 1) None]
                0%nat 0%nat
                (Normal_object false (PInt 0) (PInt 1) None)
                (Normal_object false (PInt 0) (PInt 1) None)
                eq_refl eq_refl eq_refl eq_refl) as [_ [Hpow _]].
  split.
  - unfold Normal_times_Normal.
    change (fst (Normal___mul__ 0%nat (Instance 1%nat)
                   [Normal_object false (PInt 0) (PInt 1) None;
                    Normal_object false (PInt 0) (PInt 1) None]) = Raise
              (NotImplementedError
                 "Multiplication not implemented for Normal and Normal.")).
    by rewrite Hmul.
  - unfold Normal_squared.
    change (fst (Normal___pow__ 0%nat (Value (PInt 2)) None
                   [Normal_object false (PInt 0) (PInt 1) None]) = Raise
              (NotImplementedError
                 "Exponentiation not implemented for Normal and int.")).
    by rewrite (Hpow (PInt 2) None).
Defined.

(** * Arithmetic of random variables *)

Section RandomVariables.
Context {V : Type} `{AL : ArrayLayer V}.

(** What [RandomVariable(distribution=d)] does once [d.mean()] is known. *)
Lemma RandomVariable___init___with_mean
    (fuel : nat) (h : heap V) (d : loc) (mu : V) (shape : list Z)
    (dt : option dtype) :
  moment_of fuel h moment_mean d = Return mu ->
  RandomVariable___init__ fuel shape dt (Some d) h
  = let shape_mean := if np_isscalar mu then [] else shape_of mu in
    if bool_decide (shape_mean = shape)
    then (Return {| _shape := shape_mean; _dtype := Some (dtype_of mu);
                    _distribution := d |}, h)
    else (Raise (ValueError
            "Shape of distribution mean and given shape do not match."), h).
Proof.
  intros E.
  unfold RandomVariable___init__, bind, mean_of, ret, raise, asdistribution.
  rewrite E. destruct (np_isscalar mu); rewrite !E; cbn [fst snd];
    match goal with
    | |- context [ bool_decide ?P ] => destruct (bool_decide P)
    end; reflexivity.
Qed.

(** C3 (where the code departs from the claim): [_rv_from_op] builds the
    result with [RandomVariable(distribution=...)], that is with the
    default [shape=()], and the constructor compares the shape of the mean
    with it.  So whenever the operator on the two distributions returns a
    distribution whose mean is not a scalar and has a shape other than
    [()], the operator on the random variables raises [ValueError] and
    returns no random variable. *)
Theorem RandomVariable_operator_rejects_arrays
    (fuel : nat) (op : operator) (self other_rv : RandomVariable)
    (other : rv_operand V) (h h1 h2 : heap V) (d : loc) (mu : V) :
  asrandomvariable fuel other h = (Return other_rv, h1) ->
  apply fuel op (_distribution self) (_distribution other_rv) h1
  = (Return d, h2) ->
  moment_of fuel h2 moment_mean d = Return mu ->
  np_isscalar mu = false -> shape_of mu <> [] ->
  RandomVariable__rv_from_op fuel self other op h
  = (Raise (ValueError
       "Shape of distribution mean and given shape do not match."), h2).
Proof.
  intros Hother Hop Hmu Hscalar Hshape. unfold RandomVariable__rv_from_op.
  rewrite (bind_Return _ _ _ _ _ Hother), (bind_Return _ _ _ _ _ Hop).
  rewrite (RandomVariable___init___with_mean _ _ _ _ _ _ Hmu), Hscalar.
  cbv zeta. by rewrite bool_decide_eq_false_2.
Qed.

(** On a scalar mean the operator does what the claim says: the other
    operand is coerced, the operator is applied to the two distributions,
    and the distribution it returns is wrapped, with the shape [()] and the
    dtype of its mean. *)
Lemma RandomVariable_operator_on_scalars
    (fuel : nat) (op : operator) (self other_rv : RandomVariable)
    (other : rv_operand V) (h h1 h2 : heap V) (d : loc) (mu : V) :
  asrandomvariable fuel other h = (Return other_rv, h1) ->
  apply fuel op (_distribution self) (_distribution other_rv) h1
  = (Return d, h2) ->
  moment_of fuel h2 moment_mean d = Return mu ->
  np_isscalar mu = true ->
  RandomVariable__rv_from_op fuel self other op h
  = (Return {| _shape := []; _dtype := Some (dtype_of mu);
               _distribution := d |}, h2).
Proof.
  intros Hother Hop Hmu Hscalar. unfold RandomVariable__rv_from_op.
  rewrite (bind_Return _ _ _ _ _ Hother), (bind_Return _ _ _ _ _ Hop).
  by rewrite (RandomVariable___init___with_mean _ _ _ _ _ _ Hmu), Hscalar.
Qed.

End RandomVariables.

(** [asrandomvariable(np.array([1., 2.])) + np.array([3., 4.])]: the sum of
    the two point masses is the point mass at [[4., 6.]], of shape [(2,)]. *)
Lemma RandomVariable_operator_rejects_arrays_witness :
  fst (array_RandomVariable_plus_array 1 [])
  = Raise (ValueError
      "Shape of distribution mean and given shape do not match.").
Proof.
  unfold array_RandomVariable_plus_array, RandomVariable___add__.
  erewrite bind_Return by reflexivity.
  erewrite (RandomVariable_operator_rejects_arrays 1 add
              {| _shape := [2]; _dtype := Some "float64"; _distribution := 0%nat |}
              {| _shape := [2]; _dtype := Some "float64"; _distribution := 1%nat |}
              (Const (PArray [2] [3%float; 4%float]))
              [Dirac___init__ (PArray [2] [1%float; 2%float]) None]
              [Dirac___init__ (PArray [2] [1%float; 2%float]) None;
               Dirac___init__ (PArray [2] [3%float; 4%float]) None]
              [Dirac___init__ (PArray [2] [4%float; 6%float]) None;
               Dirac___init__ (PArray [2] [3%float; 4%float]) None]
              0%nat (PArray [2] [4%float; 6%float]));
    [ reflexivity | reflexivity | reflexivity | reflexivity | reflexivity
    | discriminate ].
Defined.

(** * Sampling a sum of point masses *)

Lemma map_mul_1_repeat_1 (n : nat) :
  map (PrimFloat.mul 1%float) (repeat 1%float n) = repeat 1%float n.
Proof. induction n as [|n IH]; [ reflexivity | ]. simpl. by rewrite IH. Qed.



(** * Division *)

(** C5 (where the code departs from the claim): the test [other == 0] of
    [__truediv__] is on the operand as handed in.  A Dirac instance is not
    equal to [0], whatever its support, so dividing by the point mass at
    zero does not raise the division-by-zero error: the support is
    inverted with [~] and the division becomes a product.  With the int
    [0] as support, [~0] is [-1] and a distribution is returned; with the
    float [0.], [~] raises [TypeError].  Dividing by the scalar [0] does
    raise the division-by-zero error, at the call. *)
Theorem division_by_a_zero_Dirac (fuel : nat) :
  Distribution_over_Dirac fuel (PInt 0) []
  = (Return 2%nat,
     [Distribution___init__ Distribution None None None None None None
        (Some (callable0 (Return (PFloat 1)))) None None;
      Dirac___init__ (PInt (-1)) None;
      Distribution___init__ Distribution (Some ∅)
        (Some (lambda_scale pdf 0%nat (PInt (-1))))
        (Some (lambda_scale logpdf 0%nat (PInt (-1))))
        (Some (lambda_scale cdf 0%nat (PInt (-1))))
        (Some (lambda_scale logcdf 0%nat (PInt (-1))))
        (Some (lambda_sample_mul 0%nat (PInt (-1))))
        (Some (lambda_mean_mul 0%nat (PInt (-1))))
        (Some (lambda_var_mul 0%nat (PInt (-1))))
        (Some np_random)])
  /\ fst (Distribution_over_Dirac fuel (PFloat 0) [])
     = Raise (TypeError "bad operand type for unary ~: 'float'")
  /\ Normal_over_Dirac_0 []
     = (Return 2%nat,
        [Normal_object false (PInt 0) (PInt 1) None;
         Dirac___init__ (PInt (-1)) None;
         Normal_object false (PInt 0) (PInt 1) (Some np_random)])
  /\ fst (Distribution_over_0 fuel [])
     = Raise (ZeroDivisionError "Division by zero not supported.").
Proof. repeat split; reflexivity. Qed.

(** * The affine closure of Normal *)

Section Affine.
Context {V : Type} `{AL : ArrayLayer V}.

Lemma support_of_Dirac (delta : V) (rs : option random_state) :
  _parameters (Dirac___init__ delta rs) !! "support" = Some delta.
Proof. apply lookup_singleton_eq. Qed.

(** C1, as amended.  On a Normal [n] with mean [m] and covariance [C]:
    - [n + d], for a Dirac [d] with support [delta], builds
      [Normal(m + delta, C)]: a new instance when the constructor accepts
      the pair (both scalars, or both arrays with
      [mean.shape[0] == cov.shape[0] == cov.shape[1]]), and the
      constructor's error otherwise;
    - [delta * n], for a scalar [delta] that is not [0], is a new
      [Normal(m * delta, C * delta ** 2)], under the same condition;
    - [delta * n], for [delta == 0], is a new [Dirac(0 * m)];
    - [2 * Normal(mean=0.5, cov=1) - 1] has the parameters
      [{"mean": 0.0, "cov": 4}].
    Sums and products are those of the array layer, where it returns. *)
Theorem Normal_affine_closure
    (h : heap V) (n : loc) (o : object V) (m C : V) :
  h !! n = Some o -> class_of o = Normal ->
  _parameters o !! "mean" = Some m -> _parameters o !! "cov" = Some C ->
  (forall d od delta a,
     h !! d = Some od -> class_of od = Dirac ->
     _parameters od !! "support" = Some delta ->
     v_add m delta = Return a ->
     Normal___add__ n (Instance d) h
     = match Normal_mode a C with
       | Return multivariate =>
           (Return (List.length h),
            h ++ [Normal_object multivariate a C (Some (_random_state o))])
       | Raise e => (Raise e, h)
       end)
  /\ (forall delta a square c multivariate,
     np_isscalar delta = true -> v_eq_0 delta = Return false ->
     v_mul m delta = Return a ->
     v_pow delta (py_int 2) None = Return square ->
     v_mul C square = Return c ->
     Normal_mode a c = Return multivariate ->
     Normal___rmul__ n (Value delta) h
     = (Return (S (List.length h)),
        h ++ [Dirac___init__ delta None;
              Normal_object multivariate a c (Some (_random_state o))]))
  /\ (forall delta z,
     np_isscalar delta = true -> v_eq_0 delta = Return true ->
     v_mul (py_int 0) m = Return z ->
     Normal___rmul__ n (Value delta) h
     = (Return (S (List.length h)),
        h ++ [Dirac___init__ delta None;
              Dirac___init__ z (Some (_random_state o))]))
  /\ fst (Normal_docstring_example [])
     = Return {[ "mean" := PFloat 0; "cov" := PInt 4 ]}.
Proof.
  intros H Cn Pm Pc.
  split; [ | split; [ | split; [ | reflexivity ] ] ].
  - intros d od delta a Hd Cd Sd Ha. unfold Normal___add__.
    step. step. rewrite Cd. cbn [is_Dirac]. do 5 step.
    destruct (Normal_mode a C) as [multivariate|e] eqn:E.
    + by apply new_Normal_valid.
    + by apply new_Normal_invalid.
  - intros delta a square c multivariate _ Hz Ha Hsq Hc Hmode.
    pose proof (lookup_allocated h (Dirac___init__ delta None)) as Hd.
    pose proof (lookup_kept h [Dirac___init__ delta None] n o H) as Hn.
    pose proof (support_of_Dirac delta None) as Sd.
    unfold Normal___rmul__. step. step. cbn [is_Dirac class_of Dirac___init__
      Distribution___init__].
    unfold Normal___mul__. step. step. cbn [is_Dirac class_of Dirac___init__
      Distribution___init__].
    step. step. cbv iota. do 6 step.
    erewrite new_Normal_valid by eassumption.
    by rewrite length_app, Nat.add_1_r, <- app_assoc.
  - intros delta z _ Hz Hzero.
    pose proof (lookup_allocated h (Dirac___init__ delta None)) as Hd.
    pose proof (lookup_kept h [Dirac___init__ delta None] n o H) as Hn.
    pose proof (support_of_Dirac delta None) as Sd.
    unfold Normal___rmul__. step. step. cbn [is_Dirac class_of Dirac___init__
      Distribution___init__].
    unfold Normal___mul__. step. step. cbn [is_Dirac class_of Dirac___init__
      Distribution___init__].
    step. step. cbv iota. do 3 step. unfold new_Dirac, new.
    by rewrite length_app, Nat.add_1_r, <- app_assoc.
Qed.

End Affine.

(** [2 * Normal(mean=0.5, cov=1)], the first half of the docstring. *)
Lemma Normal_affine_closure_witness :
  Normal___rmul__ 0%nat (Value (PInt 2))
    [Normal_object false (PFloat 0.5) (PInt 1) None]
  = (Return 2%nat,
     [Normal_object false (PFloat 0.5) (PInt 1) None;
      Dirac___init__ (PInt 2) None;
      Normal_object false (PFloat 1) (PInt 4) (Some np_random)]).
Proof.
  exact (proj1 (proj2
           (Normal_affine_closure
              [Normal_object false (PFloat 0.5) (PInt 1) None] 0%nat
              (Normal_object false (PFloat 0.5) (PInt 1) None)
              (PFloat 0.5) (PInt 1) eq_refl eq_refl eq_refl eq_refl))
           (PInt 2) (PFloat 1) (PInt 4) (PInt 4) false
           eq_refl eq_refl eq_refl eq_refl eq_refl eq_refl).
Defined.

(** C1 as stated fails where the sum of the mean and the support is an
    array and the covariance a scalar: [Normal(0, 1) + Dirac([1., 2.])]
    returns no Normal, the constructor rejects mean [[1., 2.]] with
    covariance [1]. *)
Lemma Normal_plus_array_Dirac_is_rejected :
  Normal_plus_array_Dirac []
  = (Raise (ValueError
       "Cannot instantiate normal distribution with mean of type ndarray and covariance of type int."),
     [Normal_object false (PInt 0) (PInt 1) None;
      Dirac___init__ (PArray [2] [1%float; 2%float]) None])
  /\ (forall l, fst (Normal_plus_array_Dirac []) <> Return l).
Proof.
  assert (E : Normal_plus_array_Dirac []
    = (Raise (ValueError
         "Cannot instantiate normal distribution with mean of type ndarray and covariance of type int."),
       [Normal_object false (PInt 0) (PInt 1) None;
        Dirac___init__ (PArray [2] [1%float; 2%float]) None]))
    by reflexivity.
  split; [ exact E | ]. intros l. rewrite E. discriminate.
Qed.

(** * Further examples *)

(** [Distribution(pdf=f).pdf(x)], with [f] the identity. *)
Lemma pdf_cdf_logcdf_dispatch_witness :
  evaluate 1
    [Distribution___init__ Distribution None (Some (callable1 Return))
       None None None None None None None]
    pdf 0%nat (PFloat 1)
  = Return (PFloat 1).
Proof.
  exact (proj1 (pdf_cdf_logcdf_dispatch 0
           [Distribution___init__ Distribution None (Some (callable1 Return))
              None None None None None None None]
           0%nat
           (Distribution___init__ Distribution None (Some (callable1 Return))
              None None None None None None None)
           (PFloat 1) eq_refl eq_refl) Return eq_refl).
Defined.

(** [asrandomvariable(1.) + 2.]: the point mass of the left operand is
    updated to [3.] and is the distribution of the result. *)
Lemma RandomVariable_operator_on_scalars_witness :
  RandomVariable__rv_from_op 1
    {| _shape := []; _dtype := Some "float64"; _distribution := 0%nat |}
    (Const (PFloat 2)) add
    [Dirac___init__ (PFloat 1) None]
  = (Return {| _shape := []; _dtype := Some "float64"; _distribution := 0%nat |},
     [Dirac___init__ (PFloat 3) None; Dirac___init__ (PFloat 2) None]).
Proof.
  exact (RandomVariable_operator_on_scalars 1 add
           {| _shape := []; _dtype := Some "float64"; _distribution := 0%nat |}
           {| _shape := []; _dtype := Some "float64"; _distribution := 1%nat |}
           (Const (PFloat 2))
           [Dirac___init__ (PFloat 1) None]
           [Dirac___init__ (PFloat 1) None; Dirac___init__ (PFloat 2) None]
           [Dirac___init__ (PFloat 3) None; Dirac___init__ (PFloat 2) None]
           0%nat (PFloat 3)
           eq_refl eq_refl eq_refl eq_refl).
Defined.

Section Division.
Context {V : Type} `{AL : ArrayLayer V}.

(** Dividing by a Dirac instance [d] is multiplying by [~d], for a generic
    distribution and for a Normal: the test [other == 0] does not look at
    the support.  Dividing by a value [v] with [v == 0] raises the
    division-by-zero error before anything else is done. *)
Lemma truediv_is_mul_by_inverted
    (fuel : nat) (h : heap V) (self d : loc) (o : object V) :
  h !! d = Some o -> class_of o = Dirac ->
  Distribution___truediv__ fuel self (Instance d) h
  = (let* inverted := Dirac___invert__ d in
     Distribution___mul__ fuel self (Instance inverted)) h
  /\ Normal___truediv__ self (Instance d) h
     = (let* inverted := Dirac___invert__ d in
        Normal___mul__ self (Instance inverted)) h
  /\ (forall v, v_eq_0 v = Return true ->
      Distribution___truediv__ fuel self (Value v) h
      = (Raise (ZeroDivisionError "Division by zero not supported."), h)
      /\ Normal___truediv__ self (Value v) h
         = (Raise (ZeroDivisionError "Division by zero not supported."), h)).
Proof.
  intros H C. split; [ | split ].
  - unfold Distribution___truediv__, operand_eq_0.
    step. cbv iota. step. step. by rewrite C.
  - unfold Normal___truediv__, operand_eq_0.
    step. cbv iota. step. step. by rewrite C.
  - intros v Hv. split.
    + unfold Distribution___truediv__, operand_eq_0. by step.
    + unfold Normal___truediv__, operand_eq_0. by step.
Qed.

End Division.

(** [Normal(0, 1) / Dirac(support=2)] is [Normal(0, 1) * Dirac(~2)]. *)
Lemma truediv_is_mul_by_inverted_witness :
  Normal___truediv__ 0%nat (Instance 1%nat)
    [Normal_object false (PInt 0) (PInt 1) None; Dirac___init__ (PInt 2) None]
  = (Return 2%nat,
     [Normal_object false (PInt 0) (PInt 1) None;
      Dirac___init__ (PInt (-3)) None;
      Normal_object false (PInt 0) (PInt 9) (Some np_random)]).
Proof.
  rewrite (proj1 (proj2 (truediv_is_mul_by_inverted 0
             [Normal_object false (PInt 0) (PInt 1) None;
              Dirac___init__ (PInt 2) None]
             0%nat 1%nat (Dirac___init__ (PInt 2) None) eq_refl eq_refl))).
  reflexivity.
Defined.

(** * Construction and coercion *)

Section Construction.
Context {V : Type} `{AL : ArrayLayer V}.

Lemma Normal_mode_table (mean cov : V) :
  Normal_mode mean cov
  = match np_isscalar mean, np_isscalar cov with
    | true, true => Return false
    | false, false =>
        match shape_of mean !! 0%nat, shape_of cov !! 0%nat with
        | Some m0, Some c0 =>
            if m0 =? c0 then
              match shape_of cov !! 1%nat with
              | Some c1 =>
                  if m0 =? c1 then Return true
                  else Raise (ValueError "Shape mismatch of mean and covariance.")
              | None => Raise (IndexError "tuple index out of range")
              end
            else Raise (ValueError "Shape mismatch of mean and covariance.")
        | _, _ => Raise (IndexError "tuple index out of range")
        end
    | _, _ =>
        Raise (ValueError
          ("Cannot instantiate normal distribution with mean of type "
           +:+ class_name mean +:+ " and covariance of type "
           +:+ class_name cov +:+ "."))
    end.
Proof.
  unfold Normal_mode, tuple_index.
  destruct (np_isscalar mean), (np_isscalar cov); cbn [andb negb]; try reflexivity.
  destruct (shape_of mean !! 0%nat) as [m0|]; [ | reflexivity ].
  destruct (shape_of cov !! 0%nat) as [c0|]; [ | reflexivity ].
  cbn [rbind]. destruct (m0 =? c0); [ | reflexivity ].
  destruct (shape_of cov !! 1%nat) as [c1|]; reflexivity.
Qed.

Lemma new_Normal_by_mode (mean cov : V) rs (h : heap V) :
  new_Normal mean cov rs h
  = match Normal_mode mean cov with
    | Return b => (Return (List.length h), h ++ [Normal_object b mean cov rs])
    | Raise e => (Raise e, h)
    end.
Proof.
  unfold new_Normal, Normal___init__, bind, lift, new.
  destruct (Normal_mode mean cov); reflexivity.
Qed.

(** What the constructor of [Normal] accepts: a scalar mean with a scalar
    covariance, or two arrays with
    [mean.shape[0] == cov.shape[0] == cov.shape[1]].  It puts the new
    instance after the store, with the two values as its parameters;
    otherwise it raises and the store is as before.  Which error it raises:
    - a scalar with an array: [ValueError], naming the two types;
    - two arrays, one of them without a first dimension: the [IndexError]
      of the tuple index;
    - two arrays whose first dimensions differ: [ValueError] for the shape
      mismatch, whether or not the covariance has a second dimension (the
      conjunction stops at its first comparison);
    - two arrays whose first dimensions agree, the covariance having no
      second one: [IndexError];
    - two arrays whose first dimensions agree, the second dimension of the
      covariance differing: [ValueError] for the shape mismatch. *)
Theorem Normal_constructor_accepts
    (h : heap V) (mean cov : V) (rs : option random_state) :
  let both_scalars := np_isscalar mean = true /\ np_isscalar cov = true in
  let both_arrays := np_isscalar mean = false /\ np_isscalar cov = false in
  let square :=
    exists n, shape_of mean !! 0%nat = Some n
              /\ shape_of cov !! 0%nat = Some n
              /\ shape_of cov !! 1%nat = Some n in
  let mixed :=
    ValueError
      ("Cannot instantiate normal distribution with mean of type "
       +:+ class_name mean +:+ " and covariance of type "
       +:+ class_name cov +:+ ".") in
  let mismatch := ValueError "Shape mismatch of mean and covariance." in
  let index := IndexError "tuple index out of range" in
  (both_scalars ->
     new_Normal mean cov rs h
     = (Return (List.length h), h ++ [Normal_object false mean cov rs]))
  /\ (both_arrays -> square ->
     new_Normal mean cov rs h
     = (Return (List.length h), h ++ [Normal_object true mean cov rs]))
  /\ (forall l h', new_Normal mean cov rs h = (Return l, h') ->
      both_scalars \/ (both_arrays /\ square))
  /\ (forall e h', new_Normal mean cov rs h = (Raise e, h') ->
      h' = h
      /\ (e = mixed \/ e = mismatch \/ (both_arrays /\ e = index)))
  /\ (np_isscalar mean <> np_isscalar cov ->
      new_Normal mean cov rs h = (Raise mixed, h))
  /\ (both_arrays ->
      shape_of mean !! 0%nat = None \/ shape_of cov !! 0%nat = None ->
      new_Normal mean cov rs h = (Raise index, h))
  /\ (both_arrays -> forall m0 c0,
      shape_of mean !! 0%nat = Some m0 -> shape_of cov !! 0%nat = Some c0 ->
      m0 <> c0 ->
      new_Normal mean cov rs h = (Raise mismatch, h))
  /\ (both_arrays -> forall n,
      shape_of mean !! 0%nat = Some n -> shape_of cov !! 0%nat = Some n ->
      shape_of cov !! 1%nat = None ->
      new_Normal mean cov rs h = (Raise index, h))
  /\ (both_arrays -> forall n c1,
      shape_of mean !! 0%nat = Some n -> shape_of cov !! 0%nat = Some n ->
      shape_of cov !! 1%nat = Some c1 -> n <> c1 ->
      new_Normal mean cov rs h = (Raise mismatch, h)).
Proof.
  intros both_scalars both_arrays square mixed mismatch index.
  subst both_scalars both_arrays square.
  rewrite new_Normal_by_mode, Normal_mode_table.
  split; [ intros [-> ->]; reflexivity | ].
  split; [ intros [-> ->] (n & -> & -> & ->); by rewrite Z.eqb_refl | ].
  split; [ | split ].
  - intros l h'.
    destruct (np_isscalar mean), (np_isscalar cov); try discriminate.
    + intros _. left. by split.
    + destruct (shape_of mean !! 0%nat) as [m0|]; [ | discriminate ].
      destruct (shape_of cov !! 0%nat) as [c0|]; [ | discriminate ].
      destruct (m0 =? c0) eqn:E0; [ | discriminate ].
      destruct (shape_of cov !! 1%nat) as [c1|]; [ | discriminate ].
      destruct (m0 =? c1) eqn:E1; [ | discriminate ].
      intros _. apply Z.eqb_eq in E0, E1. subst c0 c1.
      right. split; [ by split | by exists m0 ].
  - intros e h'.
    destruct (np_isscalar mean), (np_isscalar cov); try discriminate;
      try (intros [= <- <-]; split; [ reflexivity | by left ]).
    destruct (shape_of mean !! 0%nat) as [m0|];
      [ | intros [= <- <-]; split; [ reflexivity | right; right; by split ] ].
    destruct (shape_of cov !! 0%nat) as [c0|];
      [ | intros [= <- <-]; split; [ reflexivity | right; right; by split ] ].
    destruct (m0 =? c0);
      [ | intros [= <- <-]; split; [ reflexivity | right; by left ] ].
    destruct (shape_of cov !! 1%nat) as [c1|];
      [ | intros [= <- <-]; split; [ reflexivity | right; right; by split ] ].
    destruct (m0 =? c1); [ discriminate | ].
    intros [= <- <-]. split; [ reflexivity | right; by left ].
  - split; [ | split; [ | split; [ | split ] ] ].
    + intros Hne. destruct (np_isscalar mean), (np_isscalar cov);
        first [ reflexivity | by destruct Hne ].
    + intros [-> ->] [-> | Ec]; [ reflexivity | ].
      rewrite Ec. by destruct (shape_of mean !! 0%nat).
    + intros [-> ->] m0 c0 -> -> Hne.
      apply Z.eqb_neq in Hne. by rewrite Hne.
    + intros [-> ->] n -> -> ->. by rewrite Z.eqb_refl.
    + intros [-> ->] n c1 -> -> -> Hne.
      apply Z.eqb_neq in Hne. by rewrite Z.eqb_refl, Hne.
Qed.

End Construction.

(** [Normal(mean=np.ones(2), cov=np.ones(3))]: the first dimensions differ,
    so the covariance is not asked for a second one. *)
Lemma Normal_constructor_accepts_witness :
  new_Normal (PArray [2] [1%float; 1%float])
    (PArray [3] [1%float; 1%float; 1%float]) None []
  = (Raise (ValueError "Shape mismatch of mean and covariance."), []).
Proof.
  apply (proj1 (proj2 (proj2 (proj2 (proj2 (proj2 (proj2
           (Normal_constructor_accepts []
              (PArray [2] [1%float; 1%float])
              (PArray [3] [1%float; 1%float; 1%float]) None))))))))
    with (m0 := 2) (c0 := 3);
    [ split; reflexivity | reflexivity | reflexivity | discriminate ].
Defined.

(** * Point masses and coercion *)

Section PointMass.
Context {V : Type} `{AL : ArrayLayer V}.

(** The methods of a Dirac [d] with support [s]: [mean()] and [median()]
    are [s], [var()] is [0.], [cdf(x)] is [0.] when [x < s] and [1.]
    otherwise, [sample(size=1)] is [s] itself and any other size gives
    [s * np.ones(size)].  [pdf] and [logcdf] are inherited from
    [Distribution]: without a stored function, [pdf] raises the
    not-implemented error naming [Dirac], and [logcdf] raises it too, since
    the inherited method looks at the attribute [_cdf], not at the method
    [cdf] that [Dirac] defines. *)
Theorem Dirac_methods
    (fuel : nat) (h : heap V) (d : loc) (o : object V) (s : V) :
  h !! d = Some o -> class_of o = Dirac ->
  _parameters o !! "support" = Some s ->
  moment_of (S fuel) h moment_mean d = Return s
  /\ median_of fuel h d = Return s
  /\ moment_of (S fuel) h moment_var d = Return (py_float 0%float)
  /\ (forall x, evaluate (S fuel) h cdf d x
        = let? below := v_lt x s in
          if below then Return (py_float 0%float) else Return (py_float 1%float))
  /\ (forall sz, Dirac_sample o sz
        = if size_eq_1 sz then Return s
          else let? ones := np_ones sz in v_mul s ones)
  /\ (forall x, _pdf o = None -> _logpdf o = None ->
        evaluate (S fuel) h pdf d x
        = Raise (NotImplementedError
            "The function 'pdf' is not implemented for object of class Dirac"))
  /\ (forall x, _cdf o = None -> _logcdf o = None ->
        evaluate (S fuel) h logcdf d x
        = Raise (NotImplementedError
            "The function 'logcdf' is not implemented for object of class Dirac")).
Proof.
  intros H C S.
  unfold median_of. cbn [moment_of evaluate]. rewrite H, C.
  unfold Dirac_mean, Dirac_var, Dirac_cdf, Dirac_sample, getitem. rewrite S.
  cbn [rbind].
  split; [ reflexivity | ]. split; [ reflexivity | ]. split; [ reflexivity | ].
  split; [ reflexivity | ]. split; [ reflexivity | ].
  unfold Distribution_pdf, Distribution_logcdf, not_implemented. rewrite C.
  split; intros x E1 E2; rewrite E1, E2; reflexivity.
Qed.

(** [asdistribution] returns an instance of [Distribution] as it is, the
    same object, and turns a value [v] into a new point mass at [v], leaving
    every instance of the store as it was: the mean and the median of the
    new instance are [v], its variance is [0.]; coercing the result again
    changes nothing. *)
Theorem asdistribution_point_mass (fuel : nat) (h : heap V) :
  (forall l, asdistribution (Instance l) h = (Return l, h))
  /\ (forall v, exists d h',
        asdistribution (Value v) h = (Return d, h')
        /\ h !! d = None
        /\ (forall l o, h !! l = Some o -> h' !! l = Some o)
        /\ h' !! d = Some (Dirac___init__ v None)
        /\ moment_of (S fuel) h' moment_mean d = Return v
        /\ median_of fuel h' d = Return v
        /\ moment_of (S fuel) h' moment_var d = Return (py_float 0%float)
        /\ asdistribution (Instance d) h' = (Return d, h')).
Proof.
  split; [ reflexivity | ].
  intros v. exists (List.length h), (h ++ [Dirac___init__ v None]).
  split; [ apply asdistribution_Value | ].
  split; [ apply lookup_ge_None_2; lia | ].
  split; [ intros l o E; by apply lookup_kept | ].
  assert (E : @lookup loc (object V) (heap V) _ (List.length h)
                (h ++ [Dirac___init__ v None])
              = Some (Dirac___init__ v None)) by apply lookup_allocated.
  split; [ exact E | ].
  unfold median_of. cbn [moment_of]. rewrite E.
  cbn [class_of Dirac___init__ Distribution___init__].
  unfold Dirac_mean, Dirac_var, getitem. rewrite support_of_Dirac.
  repeat split.
Qed.

End PointMass.

(** The point mass at [3.]. *)
Lemma Dirac_methods_witness :
  moment_of 1 [Dirac___init__ (PFloat 3) None] moment_mean 0%nat
  = Return (PFloat 3)
  /\ evaluate 1 [Dirac___init__ (PFloat 3) None] cdf 0%nat (PFloat 2)
     = Return (PFloat 0)
  /\ evaluate 1 [Dirac___init__ (PFloat 3) None] cdf 0%nat (PFloat 3)
     = Return (PFloat 1).
Proof.
  pose proof (Dirac_methods 0 [Dirac___init__ (PFloat 3) None] 0%nat
                (Dirac___init__ (PFloat 3) None) (PFloat 3)
                eq_refl eq_refl eq_refl) as (Hmean & _ & _ & Hcdf & _).
  split; [ exact Hmean | ].
  split; [ rewrite (Hcdf (PFloat 2)) | rewrite (Hcdf (PFloat 3)) ]; reflexivity.
Defined.

(** * Random variables: construction, mean and covariance *)

Section RandomVariableAccess.
Context {V : Type} `{AL : ArrayLayer V}.

Lemma mean_of_new_Dirac (fuel : nat) (h : heap V) (v : V) :
  moment_of (S fuel) (h ++ [Dirac___init__ v None]) moment_mean (List.length h)
  = Return v.
Proof.
  assert (E : @lookup loc (object V) (heap V) _ (List.length h)
                (h ++ [Dirac___init__ v None])
              = Some (Dirac___init__ v None)) by apply lookup_allocated.
  cbn [moment_of]. rewrite E. unfold Dirac_mean, getitem.
  cbn [class_of Dirac___init__ Distribution___init__].
  change (_parameters _) with (_parameters (Dirac___init__ v None)).
  by rewrite support_of_Dirac.
Qed.

Lemma asrandomvariable_Const (fuel : nat) (h : heap V) (v : V) :
  asrandomvariable (S fuel) (Const v) h
  = (Return {| _shape := if np_isscalar v then [] else shape_of v;
               _dtype := Some (dtype_of v);
               _distribution := List.length h |},
     h ++ [Dirac___init__ v None]).
Proof.
  pose proof (mean_of_new_Dirac fuel h v) as Hmean.
  unfold asrandomvariable, new_Dirac.
  destruct (np_isscalar v) eqn:Hs;
    erewrite bind_Return by reflexivity;
    rewrite (RandomVariable___init___with_mean _ _ _ _ _ _ Hmean);
    rewrite Hs; cbv zeta; rewrite bool_decide_eq_true_2 by reflexivity;
    reflexivity.
Qed.

(** [asrandomvariable] returns a random variable as it is and wraps a value
    [v] into a random variable on a new point mass at [v]: its shape is
    [()] for a scalar and [v.shape] otherwise, its dtype is that of [v],
    its mean is [v], and asking for its covariance raises the
    not-implemented error naming [Dirac]. *)
Theorem asrandomvariable_of_value (fuel : nat) (h : heap V) (v : V) :
  let rv := {| _shape := if np_isscalar v then [] else shape_of v;
               _dtype := Some (dtype_of v);
               _distribution := List.length h |} in
  let h' := h ++ [Dirac___init__ v None] in
  asrandomvariable (S fuel) (Const v) h = (Return rv, h')
  /\ RandomVariable_mean (S fuel) rv h' = (Return v, h')
  /\ RandomVariable_cov rv h'
     = (Raise (NotImplementedError "Underlying Dirac has no covariance."), h')
  /\ (forall rv0, asrandomvariable (S fuel) (RV rv0) h = (Return rv0, h)).
Proof.
  intros rv h'.
  assert (E : @lookup loc (object V) (heap V) _ (List.length h) h'
              = Some (Dirac___init__ v None)) by apply lookup_allocated.
  pose proof (mean_of_new_Dirac fuel h v) as Hmean. fold h' in Hmean.
  split; [ | split; [ | split; [ | reflexivity ] ] ].
  - apply asrandomvariable_Const.
  - unfold RandomVariable_mean. cbn [_distribution rv]. subst rv.
    cbn [_distribution]. by rewrite Hmean.
  - unfold RandomVariable_cov. subst rv. cbn [_distribution].
    erewrite bind_Return by (apply load_Some; exact E).
    reflexivity.
Qed.

(** [RandomVariable(shape, dtype)] without a distribution keeps the shape
    and the dtype it is given and holds a new, empty [Distribution()].
    Such a random variable has no mean and no covariance: [mean()] raises
    the not-implemented error of [Distribution.mean], [cov()] the one
    naming [Distribution], and [-rv], [+rv] and [abs(rv)] raise at the
    construction of their result. *)
Theorem RandomVariable_without_distribution
    (fuel : nat) (h : heap V) (shape : list Z) (dt : option dtype) :
  let rv := {| _shape := shape; _dtype := dt;
               _distribution := List.length h |} in
  let h' := h ++ [Distribution___init__ Distribution None
                    None None None None None None None None] in
  let no_mean :=
    NotImplementedError
      "The function 'mean' is not implemented for object of class Distribution" in
  RandomVariable___init__ fuel shape dt None h = (Return rv, h')
  /\ RandomVariable_mean (S fuel) rv h' = (Raise no_mean, h')
  /\ RandomVariable_cov rv h'
     = (Raise (NotImplementedError
          "Underlying Distribution has no covariance."), h')
  /\ (forall op, fst (RandomVariable_unary (S (S fuel)) op rv h')
                 = Raise no_mean).
Proof.
  intros rv h' no_mean.
  assert (E : @lookup loc (object V) (heap V) _ (List.length h) h'
              = Some (Distribution___init__ Distribution None
                        None None None None None None None None))
    by apply lookup_allocated.
  assert (Hmean : forall k t,
            moment_of (S k) (h' ++ t) moment_mean (List.length h)
            = Raise no_mean).
  { intros k t. cbn [moment_of].
    assert (E' : @lookup loc (object V) (heap V) _ (List.length h) (h' ++ t)
                 = Some (Distribution___init__ Distribution None
                           None None None None None None None None))
      by (apply lookup_kept; exact E).
    rewrite E'. reflexivity. }
  split; [ reflexivity | ].
  split; [ | split ].
  - unfold RandomVariable_mean. subst rv. cbn [_distribution].
    specialize (Hmean fuel []). rewrite app_nil_r in Hmean. by rewrite Hmean.
  - unfold RandomVariable_cov. subst rv. cbn [_distribution].
    erewrite bind_Return by (apply load_Some; exact E). reflexivity.
  - intros op. subst rv.
    assert (R : forall (o' : object V),
              class_of o' = Distribution ->
              (_mean o' = None /\ _parameters o' !! "mean" = None)
              \/ _mean o' = Some (lambda_mean_neg (List.length h))
              \/ _mean o' = Some (lambda_mean_pos (List.length h)) ->
              fst (RandomVariable___init__ (S (S fuel)) shape dt
                     (Some (List.length h')) (h' ++ [o']))
              = Raise no_mean).
    { intros o' C M. unfold RandomVariable___init__.
      erewrite bind_Raise; [ reflexivity | ].
      erewrite bind_Raise; [ reflexivity | ].
      unfold mean_of. f_equal. cbn [moment_of].
      assert (E' : @lookup loc (object V) (heap V) _ (List.length h')
                     (h' ++ [o']) = Some o') by apply lookup_allocated.
      assert (E'' : @lookup loc (object V) (heap V) _ (List.length h)
                      (h' ++ [o'])
                    = Some (Distribution___init__ Distribution None
                              None None None None None None None None))
        by (apply lookup_kept; exact E).
      rewrite E', C. unfold Distribution_mean.
      destruct M as [[M P] | [M | M]]; rewrite M; cbv beta iota.
      - rewrite P. unfold not_implemented. by rewrite C.
      - by rewrite E''.
      - by rewrite E''. }
    assert (A : exists o',
              apply_unary op (List.length h) h'
              = (Return (List.length h'), h' ++ [o'])
              /\ class_of o' = Distribution
              /\ ((_mean o' = None /\ _parameters o' !! "mean" = None)
                  \/ _mean o' = Some (lambda_mean_neg (List.length h))
                  \/ _mean o' = Some (lambda_mean_pos (List.length h)))).
    { unfold apply_unary.
      erewrite bind_Return by (apply class_at_Some; exact E).
      cbn [class_of Distribution___init__].
      destruct op;
        [ unfold Distribution___neg__ | unfold Distribution___pos__
        | unfold Distribution___abs__ ];
        unfold try_except;
        erewrite bind_Return by (apply random_state_of_Some; exact E);
        unfold new; eexists; (split; [ reflexivity | ]);
        (split; [ reflexivity | cbn; auto ]). }
    destruct A as (o' & A & C & M).
    unfold RandomVariable_unary. cbn [_distribution _shape _dtype].
    erewrite bind_Return by exact A. by apply R.
Qed.

(** [RandomVariable(shape, dtype, distribution=n)] on a Normal [n] with
    mean [m] and covariance [C]: the shape must be that of [m] ([()] for a
    scalar), otherwise the constructor raises [ValueError]; the dtype of
    the result is the dtype of [m], whatever dtype was given; the random
    variable holds [n] itself, its [mean()] is [m] and its [cov()] is [C]. *)
Theorem RandomVariable_of_Normal
    (fuel : nat) (h : heap V) (n : loc) (o : object V) (m C : V)
    (shape : list Z) (dt : option dtype) :
  h !! n = Some o -> class_of o = Normal ->
  _parameters o !! "mean" = Some m -> _parameters o !! "cov" = Some C ->
  let shape_mean := if np_isscalar m then [] else shape_of m in
  let rv := {| _shape := shape_mean; _dtype := Some (dtype_of m);
               _distribution := n |} in
  (shape = shape_mean ->
   RandomVariable___init__ (S fuel) shape dt (Some n) h = (Return rv, h))
  /\ (shape <> shape_mean ->
      RandomVariable___init__ (S fuel) shape dt (Some n) h
      = (Raise (ValueError
           "Shape of distribution mean and given shape do not match."), h))
  /\ RandomVariable_mean (S fuel) rv h = (Return m, h)
  /\ RandomVariable_cov rv h = (Return C, h).
Proof.
  intros H Cn Pm Pc shape_mean rv.
  assert (Hmean : moment_of (S fuel) h moment_mean n = Return m).
  { cbn [moment_of]. rewrite H, Cn. unfold Normal_mean, getitem. by rewrite Pm. }
  rewrite (RandomVariable___init___with_mean _ _ _ _ _ _ Hmean).
  fold shape_mean. cbv zeta.
  split; [ | split; [ | split ] ].
  - intros ->. by rewrite bool_decide_eq_true_2.
  - intros Hne. rewrite bool_decide_eq_false_2; [ reflexivity | congruence ].
  - unfold RandomVariable_mean. subst rv. cbn [_distribution]. by rewrite Hmean.
  - unfold RandomVariable_cov. subst rv. cbn [_distribution].
    erewrite bind_Return by (apply load_Some; exact H).
    unfold getitem. by rewrite Pc.
Qed.

End RandomVariableAccess.

(** [RandomVariable(distribution=Normal(0.5, 1))] *)
Lemma RandomVariable_of_Normal_witness :
  RandomVariable___init__ 1 [] None (Some 0%nat)
    [Normal_object false (PFloat 0.5) (PInt 1) None]
  = (Return {| _shape := []; _dtype := Some "float64"; _distribution := 0%nat |},
     [Normal_object false (PFloat 0.5) (PInt 1) None]).
Proof.
  exact (proj1 (RandomVariable_of_Normal 0
                  [Normal_object false (PFloat 0.5) (PInt 1) None] 0%nat
                  (Normal_object false (PFloat 0.5) (PInt 1) None)
                  (PFloat 0.5) (PInt 1) [] None
                  eq_refl eq_refl eq_refl eq_refl) eq_refl).
Defined.

(** * Dirac: operands that are values, reflected and in-place operators *)

Section DiracOperands.
Context {V : Type} `{AL : ArrayLayer V}.
Variable fuel : nat.

Lemma Dirac_with_support (v r : V) (rs : option random_state) :
  with_parameter (Dirac___init__ v rs) "support" r = Dirac___init__ r rs.
Proof.
  unfold with_parameter, Dirac___init__, Distribution___init__.
  cbn [class_of _parameters _pdf _logpdf _cdf _logcdf _sample _mean _var
       _random_state _ismultivariate].
  by rewrite insert_singleton_eq.
Qed.

(** What [Dirac_update] does on two instances that hold a support. *)
Lemma Dirac_update_Some (op : V -> V -> result V) (h : heap V)
    (d1 d2 : loc) (o1 o2 : object V) (s1 s2 : V) :
  h !! d1 = Some o1 -> h !! d2 = Some o2 ->
  _parameters o1 !! "support" = Some s1 ->
  _parameters o2 !! "support" = Some s2 ->
  Dirac_update op d1 d2 h
  = match op s1 s2 with
    | Return v => (Return d1, <[d1 := with_parameter o1 "support" v]> h)
    | Raise e => (Raise e, h)
    end.
Proof.
  intros H1 H2 S1 S2. unfold Dirac_update. step. step.
  destruct (op s1 s2) as [v|e] eqn:P.
  - step. step. reflexivity.
  - erewrite bind_Raise; [ reflexivity | by apply lift_Raise ].
Qed.

(** The method of the class of a Dirac [a], applied to a Dirac [b]. *)
Lemma Dirac_binary_on_Dirac (op : operator) (h : heap V)
    (a b : loc) (oa ob : object V) (sa sb : V) :
  h !! a = Some oa -> h !! b = Some ob -> class_of ob = Dirac ->
  _parameters oa !! "support" = Some sa ->
  _parameters ob !! "support" = Some sb ->
  Dirac_binary fuel op a (Instance b) h
  = match primitive op sa sb with
    | Return v => (Return a, <[a := with_parameter oa "support" v]> h)
    | Raise e => (Raise e, h)
    end.
Proof.
  intros Ha Hb Cb Sa Sb.
  destruct op; cbn [Dirac_binary primitive];
    [ unfold Dirac___add__ | unfold Dirac___sub__ | unfold Dirac___mul__
    | unfold Dirac___matmul__ | unfold Dirac___truediv__ | unfold Dirac___pow__ ];
    step; step; rewrite Cb;
    by erewrite Dirac_update_Some.
Qed.

(** On a Dirac, [apply] is the method of [Dirac]. *)
Lemma apply_on_Dirac (op : operator) (h : heap V) (a b : loc) (oa : object V) :
  h !! a = Some oa -> class_of oa = Dirac ->
  apply fuel op a b h = Dirac_binary fuel op a (Instance b) h.
Proof. intros Ha Ca. unfold apply. step. rewrite Ca. by destruct op. Qed.

(** With a value [v] as the other operand, the operator of a Dirac [d] and
    its reflected operator differ in what they change.  [d op v] coerces
    [v] to a new point mass, stores [support(d) op v] in [d] and returns [d]
    itself.  The reflected [v op d] stores [v op support(d)] in the new
    point mass and returns that one: [d] is left as it was. *)
Theorem Dirac_operators_with_a_value
    (op : operator) (h : heap V) (d : loc) (o : object V) (s v : V) :
  h !! d = Some o -> class_of o = Dirac ->
  _parameters o !! "support" = Some s ->
  Dirac_binary fuel op d (Value v) h
  = match primitive op s v with
    | Return r =>
        (Return d,
         <[d := with_parameter o "support" r]> (h ++ [Dirac___init__ v None]))
    | Raise e => (Raise e, h ++ [Dirac___init__ v None])
    end
  /\ Dirac_reflected fuel op d (Value v) h
     = match primitive op v s with
       | Return r => (Return (List.length h), h ++ [Dirac___init__ r None])
       | Raise e => (Raise e, h ++ [Dirac___init__ v None])
       end.
Proof.
  intros H C S.
  assert (Hv : @lookup loc (object V) (heap V) _ (List.length h)
                 (h ++ [Dirac___init__ v None])
               = Some (Dirac___init__ v None)) by apply lookup_allocated.
  assert (Hd : @lookup loc (object V) (heap V) _ d
                 (h ++ [Dirac___init__ v None]) = Some o)
    by (by apply lookup_kept).
  pose proof (support_of_Dirac v None) as Sv.
  split.
  - transitivity (Dirac_binary fuel op d (Instance (List.length h))
                    (h ++ [Dirac___init__ v None])).
    + destruct op; cbn [Dirac_binary];
        [ unfold Dirac___add__ | unfold Dirac___sub__ | unfold Dirac___mul__
        | unfold Dirac___matmul__ | unfold Dirac___truediv__
        | unfold Dirac___pow__ ];
        step; symmetry; step; reflexivity.
    + by erewrite Dirac_binary_on_Dirac.
  - unfold Dirac_reflected. step.
    transitivity (Dirac_binary fuel op (List.length h) (Instance d)
                    (h ++ [Dirac___init__ v None])).
    + by erewrite apply_on_Dirac.
    + erewrite Dirac_binary_on_Dirac by eassumption.
      destruct (primitive op v s) as [r|e]; [ | reflexivity ].
      rewrite Dirac_with_support. f_equal.
      unfold heap, loc. rewrite insert_app_r_alt by reflexivity.
      by rewrite Nat.sub_diag.
Qed.

(** The in-place operators of a Dirac [d] ([+=], [-=], [*=], [@=], [/=],
    [**=]).  Against a Dirac they are the update of the binary operator:
    the combined support is stored in [d], which is returned.  Against an
    instance of any other class they raise a bare [NotImplementedError] and
    change nothing, where the binary operator would hand over to the other
    class.  A value is coerced to a point mass first. *)
Theorem Dirac_augmented_assignment
    (op : operator) (h : heap V) (d : loc) (o : object V) (s : V) :
  h !! d = Some o -> class_of o = Dirac ->
  _parameters o !! "support" = Some s ->
  (forall d2 o2 s2,
     h !! d2 = Some o2 -> class_of o2 = Dirac ->
     _parameters o2 !! "support" = Some s2 ->
     Dirac_augmented op d (Instance d2) h
     = match primitive op s s2 with
       | Return r => (Return d, <[d := with_parameter o "support" r]> h)
       | Raise e => (Raise e, h)
       end)
  /\ (forall d2 o2,
     h !! d2 = Some o2 -> class_of o2 <> Dirac ->
     Dirac_augmented op d (Instance d2) h
     = (Raise (NotImplementedError ""), h))
  /\ (forall v,
     Dirac_augmented op d (Value v) h
     = match primitive op s v with
       | Return r =>
           (Return d,
            <[d := with_parameter o "support" r]>
              (h ++ [Dirac___init__ v None]))
       | Raise e => (Raise e, h ++ [Dirac___init__ v None])
       end).
Proof.
  intros H C S.
  assert (U : forall f, Dirac_augmented op d = Dirac_in_place f d ->
            forall (h1 : heap V) d2 o1 o2,
              h1 !! d = Some o1 -> h1 !! d2 = Some o2 ->
              Dirac_augmented op d (Instance d2) h1
              = if is_Dirac (class_of o2) then Dirac_update f d d2 h1
                else (Raise (NotImplementedError ""), h1)).
  { intros f -> h1 d2 o1 o2 H1 H2. unfold Dirac_in_place.
    step. step. by destruct (is_Dirac (class_of o2)). }
  assert (F : exists f, Dirac_augmented op d = Dirac_in_place f d
                        /\ forall a b, f a b = primitive op a b).
  { destruct op; eexists; (split; [ reflexivity | reflexivity ]). }
  destruct F as (f & F & P).
  split; [ | split ].
  - intros d2 o2 s2 H2 C2 S2.
    rewrite (U f F h d2 o o2 H H2), C2. cbn [is_Dirac].
    erewrite Dirac_update_Some by eassumption. by rewrite P.
  - intros d2 o2 H2 C2.
    rewrite (U f F h d2 o o2 H H2).
    destruct (class_of o2); [ reflexivity | congruence | reflexivity ].
  - intros v.
    assert (Hv : @lookup loc (object V) (heap V) _ (List.length h)
                   (h ++ [Dirac___init__ v None])
                 = Some (Dirac___init__ v None)) by apply lookup_allocated.
    assert (Hd : @lookup loc (object V) (heap V) _ d
                   (h ++ [Dirac___init__ v None]) = Some o)
      by (by apply lookup_kept).
    transitivity (Dirac_augmented op d (Instance (List.length h))
                    (h ++ [Dirac___init__ v None])).
    + rewrite F. unfold Dirac_in_place. step. symmetry. step. reflexivity.
    + rewrite (U f F _ _ _ _ Hd Hv). cbn [is_Dirac class_of Dirac___init__
        Distribution___init__].
      erewrite Dirac_update_Some;
        [ | eassumption | eassumption | eassumption | apply support_of_Dirac ].
      by rewrite P.
Qed.

End DiracOperands.

(** [d = Dirac(1); d + 2] updates [d]; [2 + d] does not. *)
Lemma Dirac_operators_with_a_value_witness :
  Dirac_binary 0 add 0%nat (Value (PInt 2)) [Dirac___init__ (PInt 1) None]
  = (Return 0%nat, [Dirac___init__ (PInt 3) None; Dirac___init__ (PInt 2) None])
  /\ Dirac_reflected 0 add 0%nat (Value (PInt 2)) [Dirac___init__ (PInt 1) None]
     = (Return 1%nat,
        [Dirac___init__ (PInt 1) None; Dirac___init__ (PInt 3) None]).
Proof.
  exact (Dirac_operators_with_a_value 0 add [Dirac___init__ (PInt 1) None]
           0%nat (Dirac___init__ (PInt 1) None) (PInt 1) (PInt 2)
           eq_refl eq_refl eq_refl).
Defined.

(** [d = Dirac(1); d += Normal(0, 1)] *)
Lemma Dirac_augmented_assignment_witness :
  Dirac_augmented add 0%nat (Instance 1%nat)
    [Dirac___init__ (PInt 1) None; Normal_object false (PInt 0) (PInt 1) None]
  = (Raise (NotImplementedError ""),
     [Dirac___init__ (PInt 1) None; Normal_object false (PInt 0) (PInt 1) None]).
Proof.
  apply (proj1 (proj2
           (Dirac_augmented_assignment add
              [Dirac___init__ (PInt 1) None;
               Normal_object false (PInt 0) (PInt 1) None]
              0%nat (Dirac___init__ (PInt 1) None) (PInt 1)
              eq_refl eq_refl eq_refl))
           1%nat (Normal_object false (PInt 0) (PInt 1) None));
    [ reflexivity | discriminate ].
Defined.

(** * The generic operators: what the distribution they return computes *)

Section Generic.
Context {V : Type} `{AL : ArrayLayer V}.

(** [D + d], for a generic distribution [D] and a Dirac [d] with support
    [delta], is a new instance of [Distribution] with the random state of
    [D].  Wherever that instance is later found in the store, each of its
    [pdf], [logpdf], [cdf] and [logcdf] at [x] is the same method of [D] at
    [x - delta], its mean is [D.mean() + delta] and its variance is
    [D.var()]: [delta] is the support [d] had at the call, and [D] is read
    where it then is. *)
Theorem Distribution_shifted_by_Dirac
    (fuel : nat) (h : heap V) (D d : loc) (oD od : object V) (delta : V) :
  h !! D = Some oD -> h !! d = Some od -> class_of od = Dirac ->
  _parameters od !! "support" = Some delta ->
  exists o,
    Distribution___add__ D (Instance d) h = (Return (List.length h), h ++ [o])
    /\ class_of o = Distribution
    /\ _random_state o = _random_state oD
    /\ forall (h' : heap V) (r : loc), h' !! r = Some o ->
       (forall m x,
          evaluate (S fuel) h' m r x
          = let? y := v_sub x delta in evaluate fuel h' m D y)
       /\ moment_of (S fuel) h' moment_mean r
          = (let? mu := moment_of fuel h' moment_mean D in v_add mu delta)
       /\ moment_of (S fuel) h' moment_var r = moment_of fuel h' moment_var D.
Proof.
  intros HD Hd Cd Sd. eexists. split; [ | split; [ | split ] ].
  - unfold Distribution___add__. step. step. rewrite Cd. cbn [is_Dirac].
    step. step. reflexivity.
  - reflexivity.
  - reflexivity.
  - intros h' r Hr. cbn [evaluate moment_of]. rewrite Hr.
    cbn [class_of Distribution___init__].
    split; [ | split; reflexivity ].
    intros m x. destruct m; reflexivity.
Qed.

(** [D * d], for a generic distribution [D] and a Dirac [d] with support
    [delta].  When [delta == 0] is false the result is a new instance of
    [Distribution] whose methods at [x] are those of [D] at [x / delta],
    whose mean is [D.mean() * delta] and whose variance is
    [D.var() * delta ** 2].  When [delta == 0] the result is the point
    mass [Dirac(0 * D.mean())] with the random state of [D], and an error
    of [D.mean()] is raised at the call, with nothing created.  When the
    comparison itself raises, so does the product. *)
Theorem Distribution_scaled_by_Dirac
    (fuel k : nat) (h : heap V) (D d : loc) (oD od : object V) (delta : V) :
  h !! D = Some oD -> h !! d = Some od -> class_of od = Dirac ->
  _parameters od !! "support" = Some delta ->
  (v_eq_0 delta = Return false ->
   exists o,
     Distribution___mul__ fuel D (Instance d) h
     = (Return (List.length h), h ++ [o])
     /\ class_of o = Distribution
     /\ _random_state o = _random_state oD
     /\ forall (h' : heap V) (r : loc), h' !! r = Some o ->
        (forall m x,
           evaluate (S k) h' m r x
           = let? y := v_truediv x delta in evaluate k h' m D y)
        /\ moment_of (S k) h' moment_mean r
           = (let? mu := moment_of k h' moment_mean D in v_mul mu delta)
        /\ moment_of (S k) h' moment_var r
           = (let? var := moment_of k h' moment_var D in
              let? square := v_pow delta (py_int 2) None in
              v_mul var square))
  /\ (v_eq_0 delta = Return true ->
      Distribution___mul__ fuel D (Instance d) h
      = match (let? mu := moment_of fuel h moment_mean D in
               v_mul (py_int 0) mu) with
        | Return z =>
            (Return (List.length h),
             h ++ [Dirac___init__ z (Some (_random_state oD))])
        | Raise e => (Raise e, h)
        end)
  /\ (forall e, v_eq_0 delta = Raise e ->
      Distribution___mul__ fuel D (Instance d) h = (Raise e, h)).
Proof.
  intros HD Hd Cd Sd. split; [ | split ].
  - intros Z. eexists. split; [ | split; [ | split ] ].
    + unfold Distribution___mul__. step. step. rewrite Cd. cbn [is_Dirac].
      step. step. cbv iota. step. reflexivity.
    + reflexivity.
    + reflexivity.
    + intros h' r Hr. cbn [evaluate moment_of]. rewrite Hr.
      cbn [class_of Distribution___init__].
      split; [ | split; reflexivity ].
      intros m x. destruct m; reflexivity.
  - intros Z. unfold Distribution___mul__. step. step. rewrite Cd.
    cbn [is_Dirac]. step. step. cbv iota.
    destruct (moment_of fuel h moment_mean D) as [mu|e] eqn:Emu.
    + erewrite (bind_Return (mean_of fuel D))
        by (unfold mean_of; rewrite Emu; reflexivity).
      cbn [rbind].
      destruct (v_mul (py_int 0) mu) as [z|e] eqn:Ez.
      * step. step. reflexivity.
      * erewrite bind_Raise; [ reflexivity | by apply lift_Raise ].
    + erewrite (bind_Raise (mean_of fuel D))
        by (unfold mean_of; rewrite Emu; reflexivity).
      reflexivity.
  - intros e Z. unfold Distribution___mul__. step. step. rewrite Cd.
    cbn [is_Dirac]. step.
    erewrite bind_Raise; [ reflexivity | by apply lift_Raise ].
Qed.

(** The unary operators of a generic distribution [D] return a new
    instance of [Distribution] with the random state of [D] and no
    parameters.  [-D] is given a sampler, a mean and a variance and nothing
    else: its mean is [-D.mean()], its variance is that of [D], and it has
    no density, whether [D] has one or not.  [+D] likewise, with
    [+D.mean()].  [abs(D)] and [~D] return the same thing, an instance that
    is given the sampler [lambda size: abs(D.sample(size=size))] and
    nothing else: it has no mean and no variance. *)
Theorem Distribution_unary_operators
    (fuel : nat) (h : heap V) (D : loc) (oD : object V) :
  h !! D = Some oD ->
  let built sample mean var :=
    Distribution___init__ Distribution (Some ∅) None None None None
      (Some sample) mean var (Some (_random_state oD)) in
  let o_neg :=
    built (lambda_sample_neg D) (Some (lambda_mean_neg D)) (Some (bound_var D)) in
  let o_pos :=
    built (lambda_sample_pos D) (Some (lambda_mean_pos D)) (Some (bound_var D)) in
  let o_abs := built (lambda_sample_abs D) None None in
  Distribution___neg__ D h = (Return (List.length h), h ++ [o_neg])
  /\ Distribution___pos__ D h = (Return (List.length h), h ++ [o_pos])
  /\ Distribution___abs__ D h = (Return (List.length h), h ++ [o_abs])
  /\ Distribution___invert__ D h = (Return (List.length h), h ++ [o_abs])
  /\ _random_state o_neg = _random_state oD
  /\ _random_state o_pos = _random_state oD
  /\ _random_state o_abs = _random_state oD
  /\ forall (h' : heap V) (r : loc),
     (h' !! r = Some o_neg ->
        moment_of (S fuel) h' moment_mean r
        = (let? mu := moment_of fuel h' moment_mean D in v_neg mu)
        /\ moment_of (S fuel) h' moment_var r
           = moment_of fuel h' moment_var D
        /\ forall x, evaluate (S fuel) h' pdf r x
           = Raise (NotImplementedError
               "The function 'pdf' is not implemented for object of class Distribution"))
     /\ (h' !! r = Some o_pos ->
        moment_of (S fuel) h' moment_mean r
        = (let? mu := moment_of fuel h' moment_mean D in v_pos mu)
        /\ moment_of (S fuel) h' moment_var r
           = moment_of fuel h' moment_var D
        /\ forall x, evaluate (S fuel) h' pdf r x
           = Raise (NotImplementedError
               "The function 'pdf' is not implemented for object of class Distribution"))
     /\ (h' !! r = Some o_abs ->
        moment_of (S fuel) h' moment_mean r
        = Raise (NotImplementedError
            "The function 'mean' is not implemented for object of class Distribution")
        /\ moment_of (S fuel) h' moment_var r
           = Raise (NotImplementedError
               "The function 'var' is not implemented for object of class Distribution")
        /\ forall x, evaluate (S fuel) h' pdf r x
           = Raise (NotImplementedError
               "The function 'pdf' is not implemented for object of class Distribution")).
Proof.
  intros HD built o_neg o_pos o_abs.
  assert (Rs : check_random_state (Some (_random_state oD)) = _random_state oD)
    by reflexivity.
  split; [ unfold Distribution___neg__, try_except; step; reflexivity | ].
  split; [ unfold Distribution___pos__, try_except; step; reflexivity | ].
  split; [ unfold Distribution___abs__, try_except; step; reflexivity | ].
  split; [ unfold Distribution___invert__, try_except; step; reflexivity | ].
  split; [ exact Rs | ]. split; [ exact Rs | ]. split; [ exact Rs | ].
  intros h' r.
  split; [ | split ]; intros Hr; cbn [evaluate moment_of]; rewrite Hr;
    repeat split.
Qed.

End Generic.

(** [Distribution(mean=lambda: 1.0) + Dirac(support=2.)] has mean [3.0]. *)
Lemma Distribution_shifted_by_Dirac_witness :
  exists o,
    Distribution___add__ 0%nat (Instance 1%nat)
      [Distribution___init__ Distribution None None None None None None
         (Some (callable0 (Return (PFloat 1)))) None None;
       Dirac___init__ (PFloat 2) None]
    = (Return 2%nat,
       [Distribution___init__ Distribution None None None None None None
          (Some (callable0 (Return (PFloat 1)))) None None;
        Dirac___init__ (PFloat 2) None; o])
    /\ moment_of 2
         [Distribution___init__ Distribution None None None None None None
            (Some (callable0 (Return (PFloat 1)))) None None;
          Dirac___init__ (PFloat 2) None; o] moment_mean 2%nat
       = Return (PFloat 3).
Proof.
  destruct (Distribution_shifted_by_Dirac 1
              [Distribution___init__ Distribution None None None None None None
                 (Some (callable0 (Return (PFloat 1)))) None None;
               Dirac___init__ (PFloat 2) None]
              0%nat 1%nat
              (Distribution___init__ Distribution None None None None None None
                 (Some (callable0 (Return (PFloat 1)))) None None)
              (Dirac___init__ (PFloat 2) None) (PFloat 2)
              eq_refl eq_refl eq_refl eq_refl) as (o & E & _ & _ & P).
  exists o. split; [ exact E | ].
  destruct (P [Distribution___init__ Distribution None None None None None None
                 (Some (callable0 (Return (PFloat 1)))) None None;
               Dirac___init__ (PFloat 2) None; o] 2%nat eq_refl)
    as (_ & Hmean & _).
  rewrite Hmean. reflexivity.
Defined.

(** [Distribution(mean=lambda: 1.0) * Dirac(support=0)] is [Dirac(0.0)]. *)
Lemma Distribution_scaled_by_Dirac_witness :
  Distribution___mul__ 1 0%nat (Instance 1%nat)
    [Distribution___init__ Distribution None None None None None None
       (Some (callable0 (Return (PFloat 1)))) None None;
     Dirac___init__ (PInt 0) None]
  = (Return 2%nat,
     [Distribution___init__ Distribution None None None None None None
        (Some (callable0 (Return (PFloat 1)))) None None;
      Dirac___init__ (PInt 0) None;
      Dirac___init__ (PFloat 0) (Some np_random)]).
Proof.
  exact (proj1 (proj2
           (Distribution_scaled_by_Dirac 1 0
              [Distribution___init__ Distribution None None None None None None
                 (Some (callable0 (Return (PFloat 1)))) None None;
               Dirac___init__ (PInt 0) None]
              0%nat 1%nat
              (Distribution___init__ Distribution None None None None None None
                 (Some (callable0 (Return (PFloat 1)))) None None)
              (Dirac___init__ (PInt 0) None) (PInt 0)
              eq_refl eq_refl eq_refl eq_refl)) eq_refl).
Defined.

(** [abs(Distribution(mean=lambda: 1.0))]: a sampler and nothing else. *)
Lemma Distribution_unary_operators_witness :
  Distribution___abs__ 0%nat
    [Distribution___init__ Distribution None None None None None None
       (Some (callable0 (Return (PFloat 1)))) None None]
  = (Return 1%nat,
     [Distribution___init__ Distribution None None None None None None
        (Some (callable0 (Return (PFloat 1)))) None None;
      Distribution___init__ Distribution (Some ∅) None None None None
        (Some (lambda_sample_abs 0%nat)) None None (Some np_random)]).
Proof.
  exact (proj1 (proj2 (proj2
           (Distribution_unary_operators 0
              [Distribution___init__ Distribution None None None None None None
                 (Some (callable0 (Return (PFloat 1)))) None None]
              0%nat
              (Distribution___init__ Distribution None None None None None None
                 (Some (callable0 (Return (PFloat 1)))) None None)
              eq_refl)))).
Defined.

(** * Normal: negation, a Dirac minus a Normal, reflected operators *)

Section NormalAndDirac.
Context {V : Type} `{AL : ArrayLayer V}.
Variable fuel : nat.

(** [-n] and [+n] on a Normal [n] with mean [m] and covariance [C] build
    [Normal(-m, C)] and [Normal(+m, C)], new instances with the random
    state of [n].  Whatever goes wrong on the way, in the sign of the mean
    or in the constructor, is replaced by the not-implemented error, whose
    message says "Negation" for both operators; the store is then as
    before. *)
Theorem Normal_negation (h : heap V) (n : loc) (o : object V) (m C : V) :
  h !! n = Some o -> class_of o = Normal ->
  _parameters o !! "mean" = Some m -> _parameters o !! "cov" = Some C ->
  let built (sign : V -> result V) :=
    match (let? a := sign m in
           let? multivariate := Normal_mode a C in
           Return (a, multivariate)) with
    | Return (a, multivariate) =>
        (Return (List.length h),
         h ++ [Normal_object multivariate a C (Some (_random_state o))])
    | Raise _ =>
        (Raise (NotImplementedError "Negation not implemented for Normal."), h)
    end in
  Normal___neg__ n h = built v_neg /\ Normal___pos__ n h = built v_pos.
Proof.
  intros H Cn Pm Pc built. subst built. cbv beta.
  split; [ unfold Normal___neg__ | unfold Normal___pos__ ];
    unfold try_except; step;
    match goal with
    | |- context [ lift ?r ] => destruct r as [a|e] eqn:Ea
    end.
  all: try (erewrite bind_Raise; [ reflexivity | by apply lift_Raise ]).
  all: step; step; step; rewrite new_Normal_by_mode; cbn [rbind];
    by destruct (Normal_mode a C).
Qed.

(** [d - n], for a Dirac [d] with support [s] and a Normal [n] with mean
    [m] and covariance [C], is computed as [(-n) + d]: it creates
    [Normal(-m, C)] and then the result [Normal(-m + s, C)], both with the
    random state of [n], and changes neither [d] nor [n]. *)
Theorem Dirac_minus_Normal
    (h : heap V) (n d : loc) (o od : object V) (m C s a t : V)
    (b b' : bool) :
  h !! n = Some o -> class_of o = Normal ->
  _parameters o !! "mean" = Some m -> _parameters o !! "cov" = Some C ->
  h !! d = Some od -> class_of od = Dirac ->
  _parameters od !! "support" = Some s ->
  v_neg m = Return a -> Normal_mode a C = Return b ->
  v_add a s = Return t -> Normal_mode t C = Return b' ->
  apply fuel sub d n h
  = (Return (S (List.length h)),
     h ++ [Normal_object b a C (Some (_random_state o));
           Normal_object b' t C (Some (_random_state o))]).
Proof.
  intros Hn Cn Pm Pc Hd Cd Sd Ea Eb Et Eb'.
  unfold apply. step. rewrite Cd. unfold Dirac___sub__. step. step.
  rewrite Cn. unfold Normal___rsub__. step. step. rewrite Cd.
  cbn [is_Dirac].
  assert (N : Normal___neg__ n h
              = (Return (List.length h),
                 h ++ [Normal_object b a C (Some (_random_state o))])).
  { unfold Normal___neg__, try_except. do 4 step.
    by erewrite new_Normal_valid. }
  erewrite bind_Return by exact N.
  set (o1 := Normal_object b a C (Some (_random_state o))).
  assert (H1 : @lookup loc (object V) (heap V) _ (List.length h) (h ++ [o1])
               = Some o1) by apply lookup_allocated.
  assert (Hd1 : @lookup loc (object V) (heap V) _ d (h ++ [o1]) = Some od)
    by (by apply lookup_kept).
  assert (Pm1 : _parameters o1 !! "mean" = Some a) by reflexivity.
  assert (Pc1 : _parameters o1 !! "cov" = Some C) by reflexivity.
  unfold Normal___add__. step. step. rewrite Cd. cbn [is_Dirac].
  do 5 step. erewrite new_Normal_valid by eassumption.
  by rewrite length_app, Nat.add_1_r, <- app_assoc.
Qed.

(** With a value or a Dirac as the other operand, the reflected sum and
    product of a generic distribution and of a Normal are the sum and the
    product themselves: [v + D] is [D + v] and [v * D] is [D * v]. *)
Theorem reflected_sum_and_product (h : heap V) (self : loc) (other : operand V) :
  match other with
  | Value _ => True
  | Instance l => exists o, h !! l = Some o /\ class_of o = Dirac
  end ->
  Distribution___radd__ self other h = Distribution___add__ self other h
  /\ Distribution___rmul__ fuel self other h
     = Distribution___mul__ fuel self other h
  /\ Normal___radd__ self other h = Normal___add__ self other h
  /\ Normal___rmul__ self other h = Normal___mul__ self other h.
Proof.
  intros Hother.
  assert (K : exists l h1 o1,
            asdistribution other h = (Return l, h1)
            /\ h1 !! l = Some o1 /\ class_of o1 = Dirac).
  { destruct other as [v|l].
    - exists (List.length h), (h ++ [Dirac___init__ v None]),
        (Dirac___init__ v None).
      split; [ apply asdistribution_Value | ].
      split; [ apply lookup_allocated | reflexivity ].
    - destruct Hother as (o1 & H1 & C1). by exists l, h, o1. }
  destruct K as (l & h1 & o1 & K & H1 & C1).
  repeat split.
  - unfold Distribution___radd__.
    rewrite (bind_Return _ _ _ _ _ K). step. rewrite C1. cbn [is_Dirac].
    unfold Distribution___add__. step.
    rewrite (bind_Return _ _ _ _ _ K). step. step. by rewrite C1.
  - unfold Distribution___rmul__.
    rewrite (bind_Return _ _ _ _ _ K). step. rewrite C1. cbn [is_Dirac].
    unfold Distribution___mul__. step.
    rewrite (bind_Return _ _ _ _ _ K). step. step. by rewrite C1.
  - unfold Normal___radd__.
    rewrite (bind_Return _ _ _ _ _ K). step. rewrite C1. cbn [is_Dirac].
    unfold Normal___add__. step.
    rewrite (bind_Return _ _ _ _ _ K). step. step. by rewrite C1.
  - unfold Normal___rmul__.
    rewrite (bind_Return _ _ _ _ _ K). step. rewrite C1. cbn [is_Dirac].
    unfold Normal___mul__. step.
    rewrite (bind_Return _ _ _ _ _ K). step. step. by rewrite C1.
Qed.

End NormalAndDirac.

(** [-Normal(0.5, 1)] *)
Lemma Normal_negation_witness :
  Normal___neg__ 0%nat [Normal_object false (PFloat 0.5) (PInt 1) None]
  = (Return 1%nat,
     [Normal_object false (PFloat 0.5) (PInt 1) None;
      Normal_object false (PFloat (-0.5)) (PInt 1) (Some np_random)]).
Proof.
  exact (proj1 (Normal_negation
                  [Normal_object false (PFloat 0.5) (PInt 1) None] 0%nat
                  (Normal_object false (PFloat 0.5) (PInt 1) None)
                  (PFloat 0.5) (PInt 1) eq_refl eq_refl eq_refl eq_refl)).
Defined.

(** [Dirac(1) - Normal(2, 1)] is [Normal(-1, 1)]. *)
Lemma Dirac_minus_Normal_witness :
  apply 0 sub 0%nat 1%nat
    [Dirac___init__ (PInt 1) None; Normal_object false (PInt 2) (PInt 1) None]
  = (Return 3%nat,
     [Dirac___init__ (PInt 1) None; Normal_object false (PInt 2) (PInt 1) None;
      Normal_object false (PInt (-2)) (PInt 1) (Some np_random);
      Normal_object false (PInt (-1)) (PInt 1) (Some np_random)]).
Proof.
  exact (Dirac_minus_Normal 0
           [Dirac___init__ (PInt 1) None;
            Normal_object false (PInt 2) (PInt 1) None]
           1%nat 0%nat (Normal_object false (PInt 2) (PInt 1) None)
           (Dirac___init__ (PInt 1) None)
           (PInt 2) (PInt 1) (PInt 1) (PInt (-2)) (PInt (-1)) false false
           eq_refl eq_refl eq_refl eq_refl eq_refl eq_refl eq_refl
           eq_refl eq_refl eq_refl eq_refl).
Defined.

(** [2 + Normal(0, 1)] is [Normal(0, 1) + 2]. *)
Lemma reflected_sum_and_product_witness :
  Normal___radd__ 0%nat (Value (PInt 2))
    [Normal_object false (PInt 0) (PInt 1) None]
  = Normal___add__ 0%nat (Value (PInt 2))
      [Normal_object false (PInt 0) (PInt 1) None].
Proof.
  exact (proj1 (proj2 (proj2
           (reflected_sum_and_product 0
              [Normal_object false (PInt 0) (PInt 1) None] 0%nat
              (Value (PInt 2)) I)))).
Defined.

(** * Normal: the instance the constructor builds, and subtraction *)

Section NormalMethods.
Context {V : Type} `{AL : ArrayLayer V}.

(** The instance that [Normal(mean, cov)] builds, when it builds one, is
    univariate exactly when [mean] is a scalar.  Its [mean()] is [mean];
    its [var()] is [cov] when univariate and [np.diag(cov)] otherwise; each
    of [pdf], [logpdf], [cdf], [logcdf] is the function of
    [scipy.stats.norm] with [loc=mean, scale=np.sqrt(cov)] when univariate
    and that of [scipy.stats.multivariate_normal] with [mean, cov]
    otherwise; and [median()], inherited from [Distribution], is
    [cdf(0.5)]. *)
Theorem Normal_methods
    (fuel : nat) (h h' : heap V) (mean cov : V) (rs : option random_state)
    (l : loc) :
  new_Normal mean cov rs h = (Return l, h') ->
  h' !! l = Some (Normal_object (negb (np_isscalar mean)) mean cov rs)
  /\ moment_of (S fuel) h' moment_mean l = Return mean
  /\ moment_of (S fuel) h' moment_var l
     = (if np_isscalar mean then Return cov else np_diag cov)
  /\ (forall m x,
        evaluate (S fuel) h' m l x
        = if np_isscalar mean
          then let? scale := np_sqrt cov in scipy_stats_norm m x mean scale
          else scipy_stats_multivariate_normal m x mean cov)
  /\ median_of (S fuel) h' l = evaluate (S fuel) h' cdf l (py_float 0.5%float).
Proof.
  rewrite new_Normal_by_mode, Normal_mode_table.
  intros E.
  assert (K : h' = h ++ [Normal_object (negb (np_isscalar mean)) mean cov rs]
              /\ l = List.length h).
  { destruct (np_isscalar mean), (np_isscalar cov); try discriminate E.
    - by injection E as <- <-.
    - destruct (shape_of mean !! 0%nat) as [m0|]; [ | discriminate E ].
      destruct (shape_of cov !! 0%nat) as [c0|]; [ | discriminate E ].
      destruct (m0 =? c0); [ | discriminate E ].
      destruct (shape_of cov !! 1%nat) as [c1|]; [ | discriminate E ].
      destruct (m0 =? c1); [ | discriminate E ].
      by injection E as <- <-. }
  destruct K as [-> ->].
  assert (Hl : @lookup loc (object V) (heap V) _ (List.length h)
                 (h ++ [Normal_object (negb (np_isscalar mean)) mean cov rs])
               = Some (Normal_object (negb (np_isscalar mean)) mean cov rs))
    by apply lookup_allocated.
  split; [ exact Hl | ].
  unfold median_of. cbn [evaluate moment_of]. rewrite Hl.
  cbn [class_of Normal_object].
  unfold Normal_mean, Normal_var, Normal_evaluate, ismultivariate, getitem.
  cbn [_ismultivariate _parameters Normal_object rbind].
  assert (Pm : ({[ "mean" := mean; "cov" := cov ]} : gmap string V) !! "mean"
               = Some mean) by (by rewrite lookup_insert_eq).
  assert (Pc : ({[ "mean" := mean; "cov" := cov ]} : gmap string V) !! "cov"
               = Some cov).
  { rewrite lookup_insert_ne by discriminate. apply lookup_singleton_eq. }
  rewrite Pm, Pc.
  destruct (np_isscalar mean); cbn [negb rbind]; repeat split.
Qed.

(** [n - d] on a Normal [n] with mean [m] and covariance [C] and a Dirac
    [d] with support [s]: the support of [d] becomes [-s], in place, and
    the result is a new [Normal(m + (-s), C)].  With a value [v] in place
    of [d], the point mass that is negated is the new one made from [v]. *)
Theorem Normal_minus_Dirac
    (h : heap V) (n : loc) (o : object V) (m C s ns a : V) (b : bool) :
  h !! n = Some o -> class_of o = Normal ->
  _parameters o !! "mean" = Some m -> _parameters o !! "cov" = Some C ->
  v_neg s = Return ns -> v_add m ns = Return a ->
  Normal_mode a C = Return b ->
  (forall d od,
     h !! d = Some od -> class_of od = Dirac ->
     _parameters od !! "support" = Some s ->
     Normal___sub__ n (Instance d) h
     = (Return (List.length h),
        <[d := with_parameter od "support" ns]> h
        ++ [Normal_object b a C (Some (_random_state o))]))
  /\ Normal___sub__ n (Value s) h
     = (Return (S (List.length h)),
        h ++ [Dirac___init__ ns None;
              Normal_object b a C (Some (_random_state o))]).
Proof.
  intros Hn Cn Pm Pc Ens Ea Eb.
  assert (K : forall (h1 : heap V) d od,
            h1 !! n = Some o -> h1 !! d = Some od -> class_of od = Dirac ->
            _parameters od !! "support" = Some s ->
            (let* negated := Dirac___neg__ d in
             Normal___add__ n (Instance negated)) h1
            = (Return (List.length h1),
               <[d := with_parameter od "support" ns]> h1
               ++ [Normal_object b a C (Some (_random_state o))])).
  { intros h1 d od Hn1 Hd Cd Sd.
    assert (U : Dirac___neg__ d h1
                = (Return d, <[d := with_parameter od "support" ns]> h1)).
    { unfold Dirac___neg__, Dirac_unary. do 3 step. reflexivity. }
    rewrite (bind_Return _ _ _ _ _ U).
    set (h2 := <[d := with_parameter od "support" ns]> h1).
    assert (Hd2 : h2 !! d = Some (with_parameter od "support" ns))
      by (by eapply lookup_updated).
    assert (Hn2 : h2 !! n = Some o).
    { subst h2. destruct (decide (n = d)) as [->|Hne].
      - rewrite Hd in Hn1. injection Hn1 as <-. congruence.
      - unfold heap, loc in *. by rewrite list_lookup_insert_ne. }
    assert (Sd2 : _parameters (with_parameter od "support" ns) !! "support"
                  = Some ns).
    { unfold with_parameter. cbn [_parameters]. by rewrite lookup_insert_eq. }
    unfold Normal___add__. step. step.
    cbn [class_of with_parameter]. rewrite Cd. cbn [is_Dirac].
    do 5 step. erewrite new_Normal_valid by eassumption.
    subst h2. unfold heap, loc. by rewrite length_insert. }
  split.
  - intros d od Hd Cd Sd. unfold Normal___sub__. step. step. rewrite Cd.
    cbn [is_Dirac]. by apply K.
  - unfold Normal___sub__. step.
    assert (Hv : @lookup loc (object V) (heap V) _ (List.length h)
                   (h ++ [Dirac___init__ s None])
                 = Some (Dirac___init__ s None)) by apply lookup_allocated.
    assert (Hn1 : @lookup loc (object V) (heap V) _ n
                    (h ++ [Dirac___init__ s None]) = Some o)
      by (by apply lookup_kept).
    step. cbn [class_of Dirac___init__ Distribution___init__ is_Dirac].
    rewrite (K _ _ _ Hn1 Hv eq_refl (support_of_Dirac s None)).
    rewrite length_app, Nat.add_1_r. f_equal.
    assert (W : with_parameter (Dirac___init__ s None) "support" ns
                = Dirac___init__ ns None).
    { unfold with_parameter, Dirac___init__, Distribution___init__.
      cbn [class_of _parameters _pdf _logpdf _cdf _logcdf _sample _mean _var
           _random_state _ismultivariate].
      by rewrite insert_singleton_eq. }
    rewrite W. unfold heap, loc.
    rewrite insert_app_r_alt by reflexivity. rewrite Nat.sub_diag.
    by rewrite <- app_assoc.
Qed.

(** Arithmetic of a generic distribution or a Normal is defined against
    point masses only.  For every binary operator, applied to an instance
    [a] that is not a Dirac and an instance [b] that is not a Dirac either,
    the call raises the not-implemented error that names the operation and
    the two classes, in this order, and changes nothing. *)
Theorem unsupported_operands
    (fuel : nat) (op : operator) (h : heap V) (a b : loc) (oa ob : object V) :
  h !! a = Some oa -> h !! b = Some ob ->
  class_of oa <> Dirac -> class_of ob <> Dirac ->
  apply fuel op a b h
  = (Raise (NotImplementedError
       (operation_name op +:+ " not implemented for "
        +:+ cls_name (class_of oa) +:+ " and "
        +:+ cls_name (class_of ob) +:+ ".")), h).
Proof.
  intros Ha Hb Ca Cb.
  assert (Nb : is_Dirac (class_of ob) = false)
    by (destruct (class_of ob); [ reflexivity | congruence | reflexivity ]).
  unfold apply. step.
  destruct (class_of oa) eqn:Ea; [ | congruence | ]; destruct op;
    cbn [operation_name cls_name];
    [ unfold Distribution___add__ | unfold Distribution___sub__
    | unfold Distribution___mul__ | unfold Distribution___matmul__
    | unfold Distribution___truediv__, operand_eq_0
    | unfold Distribution___pow__
    | unfold Normal___add__ | unfold Normal___sub__
    | unfold Normal___mul__ | unfold Normal___matmul__
    | unfold Normal___truediv__, operand_eq_0
    | unfold Normal___pow__ ];
    repeat (first [ step | rewrite Nb | rewrite Ea | progress cbv iota
                  | progress unfold operand_name ]);
    reflexivity.
Qed.

End NormalMethods.

(** [Normal(0.5, 1)] *)
Lemma Normal_methods_witness :
  moment_of 1 [Normal_object false (PFloat 0.5) (PInt 1) None] moment_var 0%nat
  = Return (PInt 1).
Proof.
  exact (proj1 (proj2 (proj2
           (Normal_methods 0 [] [Normal_object false (PFloat 0.5) (PInt 1) None]
              (PFloat 0.5) (PInt 1) None 0%nat eq_refl)))).
Defined.

(** [Normal(0, 1) - Dirac(1)] *)
Lemma Normal_minus_Dirac_witness :
  Normal___sub__ 0%nat (Instance 1%nat)
    [Normal_object false (PInt 0) (PInt 1) None; Dirac___init__ (PInt 1) None]
  = (Return 2%nat,
     [Normal_object false (PInt 0) (PInt 1) None;
      Dirac___init__ (PInt (-1)) None;
      Normal_object false (PInt (-1)) (PInt 1) (Some np_random)]).
Proof.
  exact (proj1 (Normal_minus_Dirac
                  [Normal_object false (PInt 0) (PInt 1) None;
                   Dirac___init__ (PInt 1) None]
                  0%nat (Normal_object false (PInt 0) (PInt 1) None)
                  (PInt 0) (PInt 1) (PInt 1) (PInt (-1)) (PInt (-1)) false
                  eq_refl eq_refl eq_refl eq_refl eq_refl eq_refl eq_refl)
           1%nat (Dirac___init__ (PInt 1) None) eq_refl eq_refl eq_refl).
Defined.

(** [Distribution() - Normal(0, 1)] *)
Lemma unsupported_operands_witness :
  apply 0 sub 0%nat 1%nat
    [Distribution___init__ Distribution None
       None None None None None None None None;
     Normal_object false (PInt 0) (PInt 1) None]
  = (Raise (NotImplementedError
       "Subtraction not implemented for Distribution and Normal."),
     [Distribution___init__ Distribution None
        None None None None None None None None;
      Normal_object false (PInt 0) (PInt 1) None]).
Proof.
  apply (unsupported_operands 0 sub
           [Distribution___init__ Distribution None
              None None None None None None None None;
            Normal_object false (PInt 0) (PInt 1) None]
           0%nat 1%nat
           (Distribution___init__ Distribution None
              None None None None None None None None)
           (Normal_object false (PInt 0) (PInt 1) None));
    [ reflexivity | reflexivity | discriminate | discriminate ].
Defined.

(** * Only point masses are ever changed *)

(** A computation made of reads, allocations and [let*] only allocates;
    [lemma1] and [lemma2] are further facts of this kind to apply. *)
Ltac only_allocates lemma1 lemma2 :=
  repeat first
    [ apply allocates_ret | apply allocates_raise | apply allocates_lift
    | apply allocates_new | apply allocates_load
    | apply allocates_asdistribution | apply allocates_operand_name
    | apply allocates_new_Normal | apply lemma1 | apply lemma2
    | apply allocates_bind; [ | intros ? ]
    | match goal with
      | |- allocates _ (if ?b then _ else _) => destruct b
      end ].

Section Immutability.
Context {V : Type} `{AL : ArrayLayer V}.
Variable fuel : nat.

Lemma allocates_mean_of (l : loc) : allocates V (mean_of fuel l).
Proof. intros h. exists []. unfold mean_of. simpl. by rewrite app_nil_r. Qed.

Lemma allocates_try_except {A : Type} (m : M V A) (e : exn) :
  allocates V m -> allocates V (try_except m e).
Proof.
  intros Hm h. destruct (Hm h) as [t Ht]. exists t. unfold try_except.
  by destruct (m h) as [[a|e'] h'].
Qed.

Lemma allocates_Distribution___mul__ (self : loc) (other : operand V) :
  allocates V (Distribution___mul__ fuel self other).
Proof.
  unfold Distribution___mul__,
    delta_matmul_var_matmul_delta_T, new_Dirac, isinstance, parameter,
    random_state_of, name_of, unsupported.
  only_allocates allocates_mean_of @allocates_try_except.
Qed.

Lemma allocates_Distribution___matmul__ (self : loc) (other : operand V) :
  allocates V (Distribution___matmul__ self other).
Proof.
  unfold Distribution___matmul__,
    delta_matmul_var_matmul_delta_T, new_Dirac, isinstance, parameter,
    random_state_of, name_of, unsupported.
  only_allocates allocates_mean_of @allocates_try_except.
Qed.

Lemma allocates_Distribution___pow__ (self : loc) (power : operand V) (modulo : option V) :
  allocates V (Distribution___pow__ self power modulo).
Proof.
  unfold Distribution___pow__,
    delta_matmul_var_matmul_delta_T, new_Dirac, isinstance, parameter,
    random_state_of, name_of, unsupported.
  only_allocates allocates_mean_of @allocates_try_except.
Qed.

Lemma allocates_Distribution___neg__ (self : loc) :
  allocates V (Distribution___neg__ self).
Proof.
  unfold Distribution___neg__,
    delta_matmul_var_matmul_delta_T, new_Dirac, isinstance, parameter,
    random_state_of, name_of, unsupported.
  only_allocates allocates_mean_of @allocates_try_except.
Qed.

Lemma allocates_Distribution___pos__ (self : loc) :
  allocates V (Distribution___pos__ self).
Proof.
  unfold Distribution___pos__,
    delta_matmul_var_matmul_delta_T, new_Dirac, isinstance, parameter,
    random_state_of, name_of, unsupported.
  only_allocates allocates_mean_of @allocates_try_except.
Qed.

Lemma allocates_Distribution___abs__ (self : loc) :
  allocates V (Distribution___abs__ self).
Proof.
  unfold Distribution___abs__,
    delta_matmul_var_matmul_delta_T, new_Dirac, isinstance, parameter,
    random_state_of, name_of, unsupported.
  only_allocates allocates_mean_of @allocates_try_except.
Qed.

Lemma allocates_Distribution___rsub__ (self : loc) (other : operand V) :
  allocates V (Distribution___rsub__ self other).
Proof.
  unfold Distribution___rsub__, Distribution___neg__, Distribution___add__,
    delta_matmul_var_matmul_delta_T, new_Dirac, isinstance, parameter,
    random_state_of, name_of, unsupported.
  only_allocates allocates_mean_of @allocates_try_except.
Qed.

Lemma allocates_Distribution___rmatmul__ (self : loc) (other : operand V) :
  allocates V (Distribution___rmatmul__ self other).
Proof.
  unfold Distribution___rmatmul__,
    delta_matmul_var_matmul_delta_T, new_Dirac, isinstance, parameter,
    random_state_of, name_of, unsupported.
  only_allocates allocates_mean_of @allocates_try_except.
Qed.

Lemma allocates_Distribution___rtruediv__ (self : loc) (other : operand V) :
  allocates V (Distribution___rtruediv__ fuel self other).
Proof.
  unfold Distribution___rtruediv__, Distribution___invert__, Distribution___mul__,
    delta_matmul_var_matmul_delta_T, new_Dirac, isinstance, parameter,
    random_state_of, name_of, unsupported.
  only_allocates allocates_mean_of @allocates_try_except.
Qed.

Lemma allocates_Normal___mul__ (self : loc) (other : operand V) :
  allocates V (Normal___mul__ self other).
Proof.
  unfold Normal___mul__,
    delta_matmul_var_matmul_delta_T, new_Dirac, isinstance, parameter,
    random_state_of, name_of, unsupported.
  only_allocates allocates_mean_of @allocates_try_except.
Qed.

Lemma allocates_Normal___matmul__ (self : loc) (other : operand V) :
  allocates V (Normal___matmul__ self other).
Proof.
  unfold Normal___matmul__,
    delta_matmul_var_matmul_delta_T, new_Dirac, isinstance, parameter,
    random_state_of, name_of, unsupported.
  only_allocates allocates_mean_of @allocates_try_except.
Qed.

Lemma allocates_Normal___pow__ (self : loc) (power : operand V) (modulo : option V) :
  allocates V (Normal___pow__ self power modulo).
Proof.
  unfold Normal___pow__,
    delta_matmul_var_matmul_delta_T, new_Dirac, isinstance, parameter,
    random_state_of, name_of, unsupported.
  only_allocates allocates_mean_of @allocates_try_except.
Qed.

Lemma allocates_Normal___neg__ (self : loc) :
  allocates V (Normal___neg__ self).
Proof.
  unfold Normal___neg__,
    delta_matmul_var_matmul_delta_T, new_Dirac, isinstance, parameter,
    random_state_of, name_of, unsupported.
  only_allocates allocates_mean_of @allocates_try_except.
Qed.

Lemma allocates_Normal___pos__ (self : loc) :
  allocates V (Normal___pos__ self).
Proof.
  unfold Normal___pos__,
    delta_matmul_var_matmul_delta_T, new_Dirac, isinstance, parameter,
    random_state_of, name_of, unsupported.
  only_allocates allocates_mean_of @allocates_try_except.
Qed.

Lemma allocates_Normal___abs__ (self : loc) :
  allocates V (Normal___abs__ self).
Proof.
  unfold Normal___abs__,
    delta_matmul_var_matmul_delta_T, new_Dirac, isinstance, parameter,
    random_state_of, name_of, unsupported.
  only_allocates allocates_mean_of @allocates_try_except.
Qed.

Lemma allocates_Normal___rsub__ (self : loc) (other : operand V) :
  allocates V (Normal___rsub__ self other).
Proof.
  unfold Normal___rsub__, Normal___neg__, Normal___add__,
    delta_matmul_var_matmul_delta_T, new_Dirac, isinstance, parameter,
    random_state_of, name_of, unsupported.
  only_allocates allocates_mean_of @allocates_try_except.
Qed.

Lemma allocates_Normal___rmatmul__ (self : loc) (other : operand V) :
  allocates V (Normal___rmatmul__ self other).
Proof.
  unfold Normal___rmatmul__,
    delta_matmul_var_matmul_delta_T, new_Dirac, isinstance, parameter,
    random_state_of, name_of, unsupported.
  only_allocates allocates_mean_of @allocates_try_except.
Qed.

Lemma allocates_Normal___rtruediv__ (self : loc) (other : operand V) :
  allocates V (Normal___rtruediv__ fuel self other).
Proof.
  unfold Normal___rtruediv__, Normal___invert__, Distribution___mul__,
    delta_matmul_var_matmul_delta_T, new_Dirac, isinstance, parameter,
    random_state_of, name_of, unsupported.
  only_allocates allocates_mean_of @allocates_try_except.
Qed.

Lemma preserves_allocates {A : Type} (P : loc -> object V -> Prop)
    (m : M V A) (h : heap V) :
  allocates V m -> preserves P m h.
Proof.
  intros Hm l o _ Hl. destruct (Hm h) as [t ->]. by apply lookup_kept.
Qed.

Lemma preserves_bind {A B : Type} (P : loc -> object V -> Prop)
    (m : M V A) (k : A -> M V B) (h : heap V) :
  preserves P m h ->
  (forall a h', m h = (Return a, h') -> preserves P (k a) h') ->
  preserves P (bind m k) h.
Proof.
  intros Hm Hk l o Po Hl. specialize (Hm l o Po Hl). unfold bind.
  destruct (m h) as [[a|e] h'] eqn:E; cbn [snd] in Hm.
  - by apply (Hk a h' eq_refl).
  - exact Hm.
Qed.

(** What a successful [isinstance(l, Dirac)] tells about the store. *)
Lemma isinstance_Dirac_inv (l : loc) (b : bool) (h h' : heap V) :
  isinstance l Dirac h = (Return b, h') ->
  h' = h /\ exists o, h !! l = Some o /\ is_Dirac (class_of o) = b.
Proof.
  unfold isinstance, bind, load, ret. destruct (h !! l) as [o|]; intros E.
  - injection E as <- <-. split; [ reflexivity | by exists o ].
  - discriminate E.
Qed.

Lemma class_at_inv (l : loc) (c : cls) (h h' : heap V) :
  class_at l h = (Return c, h') ->
  h' = h /\ exists o, h !! l = Some o /\ class_of o = c.
Proof.
  unfold class_at, bind, load, ret. destruct (h !! l) as [o|]; intros E.
  - injection E as <- <-. split; [ reflexivity | by exists o ].
  - discriminate E.
Qed.

(** Assigning a parameter of a point mass leaves the other instances. *)
Lemma preserves_set_parameter (l : loc) (key : string) (v : V) (h : heap V) :
  (forall o, h !! l = Some o -> class_of o = Dirac) ->
  preserves not_Dirac (set_parameter l key v) h.
Proof.
  intros Hd l' o' Po Hl'. unfold set_parameter, bind, load, store.
  destruct (h !! l) as [o|] eqn:Hl; cbn [snd]; [ | exact Hl' ].
  destruct (decide (l' = l)) as [->|Hne].
  - rewrite Hl in Hl'. injection Hl' as <-.
    exfalso. apply Po. by apply Hd.
  - unfold heap, loc in *. by rewrite list_lookup_insert_ne.
Qed.

Lemma preserves_Dirac_unary (op : V -> result V) (l : loc) (h : heap V) :
  (forall o, h !! l = Some o -> class_of o = Dirac) ->
  preserves not_Dirac (Dirac_unary op l) h.
Proof.
  intros Hd. unfold Dirac_unary.
  apply preserves_bind;
    [ apply preserves_allocates; unfold parameter;
      apply allocates_bind; [ apply allocates_load | intros; apply allocates_lift ]
    | intros support h1 E1 ].
  assert (h1 = h) as ->.
  { revert E1. unfold parameter, bind, load, lift.
    destruct (h !! l); [ | discriminate ].
    destruct (getitem _ _); [ | discriminate ]. by intros [= _ <-]. }
  apply preserves_bind;
    [ apply preserves_allocates, allocates_lift | intros v h1 E2 ].
  assert (h1 = h) as -> by (revert E2; unfold lift; by intros [= _ <-]).
  apply preserves_bind;
    [ by apply preserves_set_parameter
    | intros; apply preserves_allocates, allocates_ret ].
Qed.

Lemma preserves_Dirac_update (op : V -> V -> result V) (self otherdist : loc)
    (h : heap V) :
  (forall o, h !! self = Some o -> class_of o = Dirac) ->
  preserves not_Dirac (Dirac_update op self otherdist) h.
Proof.
  intros Hd. unfold Dirac_update.
  assert (R : forall l key a (h0 h1 : heap V),
            parameter l key h0 = (Return a, h1) -> h1 = h0).
  { intros l key a h0 h1. unfold parameter, bind, load, lift.
    destruct (h0 !! l); [ | discriminate ].
    destruct (getitem _ _); [ | discriminate ]. by intros [= _ <-]. }
  assert (F : forall l key, allocates V (parameter l key)).
  { intros l key. unfold parameter.
    apply allocates_bind; [ apply allocates_load | intros; apply allocates_lift ]. }
  apply preserves_bind; [ apply preserves_allocates, F | intros a h1 E1 ].
  apply R in E1 as ->.
  apply preserves_bind; [ apply preserves_allocates, F | intros b h1 E2 ].
  apply R in E2 as ->.
  apply preserves_bind;
    [ apply preserves_allocates, allocates_lift | intros v h1 E3 ].
  assert (h1 = h) as -> by (revert E3; unfold lift; by intros [= _ <-]).
  apply preserves_bind;
    [ by apply preserves_set_parameter
    | intros; apply preserves_allocates, allocates_ret ].
Qed.

(** [self - other] and [self / other] on a generic distribution and on a
    Normal: the only instance they change is the Dirac they negate or
    invert. *)
Lemma preserves_negating_methods (self : loc) (other : operand V) (h : heap V) :
  preserves not_Dirac (Distribution___sub__ self other) h
  /\ preserves not_Dirac (Distribution___truediv__ fuel self other) h
  /\ preserves not_Dirac (Normal___sub__ self other) h
  /\ preserves not_Dirac (Normal___truediv__ self other) h.
Proof.
  assert (Tail : forall {A : Type} (op : V -> result V) (k : loc -> M V A)
                   (failure : M V A) (h0 : heap V),
            (forall l, allocates V (k l)) -> allocates V failure ->
            preserves not_Dirac
              (let* otherdist := asdistribution other in
               let* is_dirac := isinstance otherdist Dirac in
               if is_dirac
               then let* changed := Dirac_unary op otherdist in k changed
               else failure) h0).
  { intros A op k failure h0 Hk Hf.
    apply preserves_bind;
      [ apply preserves_allocates, allocates_asdistribution
      | intros otherdist h1 _ ].
    apply preserves_bind;
      [ apply preserves_allocates; unfold isinstance;
        apply allocates_bind; [ apply allocates_load | intros; apply allocates_ret ]
      | intros is_dirac h2 E ].
    apply isinstance_Dirac_inv in E as (-> & o & Ho & Hc).
    destruct is_dirac; [ | by apply preserves_allocates ].
    apply preserves_bind;
      [ | intros; by apply preserves_allocates ].
    apply preserves_Dirac_unary. intros o' Ho'.
    rewrite Ho in Ho'. injection Ho' as <-. by destruct (class_of o). }
  assert (Failure : forall what a,
            allocates V
              (let* x := name_of a in
               let* y := operand_name other in
               @unsupported V loc what x y)).
  { intros what a. unfold name_of.
    repeat first
      [ apply allocates_ret | apply allocates_load | apply allocates_operand_name
      | apply allocates_unsupported | apply allocates_bind; [ | intros ? ] ]. }
  assert (Guard : forall (m : M V loc) (h0 : heap V),
            (forall h1, preserves not_Dirac m h1) ->
            preserves not_Dirac
              (let* zero := operand_eq_0 other in
               if zero
               then raise (ZeroDivisionError "Division by zero not supported.")
               else m) h0).
  { intros m h0 Hm.
    apply preserves_bind;
      [ apply preserves_allocates; unfold operand_eq_0; destruct other;
        [ apply allocates_lift | apply allocates_ret ]
      | intros zero h1 _ ].
    destruct zero; [ apply preserves_allocates, allocates_raise | apply Hm ]. }
  split; [ | split; [ | split ] ].
  - unfold Distribution___sub__, Dirac___neg__.
    apply Tail; [ intros; apply allocates_Distribution___add__ | apply Failure ].
  - unfold Distribution___truediv__, Dirac___invert__.
    apply Guard. intros h1.
    apply Tail; [ intros; apply allocates_Distribution___mul__ | apply Failure ].
  - unfold Normal___sub__, Dirac___neg__.
    apply Tail; [ intros; apply allocates_Normal___add__ | apply Failure ].
  - unfold Normal___truediv__, Dirac___invert__.
    apply Guard. intros h1.
    apply Tail; [ intros; apply allocates_Normal___mul__ | apply Failure ].
Qed.

(** No operator changes an instance that is not a point mass.  Whatever
    the store and the operands, an instance of the store that is not a
    Dirac is still there, with all its attributes, after a binary operator
    ([+ - * @ / **], as Python applies them to two instances) and after a
    unary one ([-], [+], [abs]), whether the operator returns or raises.
    So a Normal or a generic distribution never changes once it is built,
    and the lambdas of a result that refer to it keep their meaning; the
    instances an operator does change are point masses. *)
Theorem operators_change_only_point_masses
    (h : heap V) (l : loc) (o : object V) :
  h !! l = Some o -> class_of o <> Dirac ->
  (forall op a b, snd (apply fuel op a b h) !! l = Some o)
  /\ (forall op a, snd (apply_unary op a h) !! l = Some o).
Proof.
  assert (C : forall a, allocates V (class_at a)).
  { intros a. unfold class_at.
    apply allocates_bind; [ apply allocates_load | intros; apply allocates_ret ]. }
  intros Hl Hc.
  cut ((forall op a b, preserves not_Dirac (apply fuel op a b) h)
       /\ (forall op a, preserves not_Dirac (apply_unary op a) h)).
  { intros [Hbin Hun]. split; intros; [ by apply Hbin | by apply Hun ]. }
  clear l o Hl Hc.
  split.
  - intros op a b. unfold apply.
    apply preserves_bind; [ apply preserves_allocates, C | intros c h1 E ].
    apply class_at_inv in E as (-> & oa & Ha & Hc).
    destruct (preserves_negating_methods a (Instance b) h)
      as (Dsub & Ddiv & Nsub & Ndiv).
    destruct c, op; try assumption;
      try (apply preserves_allocates;
           first [ apply allocates_Distribution___add__
                 | apply allocates_Distribution___mul__
                 | apply allocates_Distribution___matmul__
                 | apply allocates_Distribution___pow__
                 | apply allocates_Normal___add__
                 | apply allocates_Normal___mul__
                 | apply allocates_Normal___matmul__
                 | apply allocates_Normal___pow__ ]).
    all: [> unfold Dirac___add__ | unfold Dirac___sub__ | unfold Dirac___mul__
          | unfold Dirac___matmul__ | unfold Dirac___truediv__
          | unfold Dirac___pow__ ].
    all: apply preserves_bind;
      [ apply preserves_allocates, allocates_asdistribution
      | intros otherdist h1 E ];
      injection E as <- <-;
      (apply preserves_bind; [ apply preserves_allocates, C | intros c h1 E ]);
      apply class_at_inv in E as (-> & ob & Hb & Hcb);
      destruct c;
      try (apply preserves_Dirac_update; intros o' Ho';
           rewrite Ha in Ho'; by injection Ho' as <-);
      apply preserves_allocates;
      first [ apply allocates_Distribution___add__
            | apply allocates_Distribution___rsub__
            | apply allocates_Distribution___mul__
            | apply allocates_Distribution___rmatmul__
            | apply allocates_Distribution___rtruediv__
            | apply allocates_Normal___add__
            | apply allocates_Normal___rsub__
            | apply allocates_Normal___mul__
            | apply allocates_Normal___rmatmul__
            | apply allocates_Normal___rtruediv__
            | apply allocates_raise ].
  - intros op a. unfold apply_unary.
    apply preserves_bind; [ apply preserves_allocates, C | intros c h1 E ].
    apply class_at_inv in E as (-> & oa & Ha & Hc).
    destruct c, op;
      try (apply preserves_allocates;
           first [ apply allocates_Distribution___neg__
                 | apply allocates_Distribution___pos__
                 | apply allocates_Distribution___abs__
                 | apply allocates_Normal___neg__
                 | apply allocates_Normal___pos__
                 | apply allocates_Normal___abs__ ]).
    all: apply preserves_Dirac_unary; intros o' Ho';
      rewrite Ha in Ho'; by injection Ho' as <-.
Qed.

End Immutability.

(** [Normal(0, 1)] after [Normal(0, 1) - Dirac(1)]. *)
Lemma operators_change_only_point_masses_witness :
  snd (apply 0 sub 0%nat 1%nat
         [Normal_object false (PInt 0) (PInt 1) None;
          Dirac___init__ (PInt 1) None]) !! 0%nat
  = Some (Normal_object false (PInt 0) (PInt 1) None).
Proof.
  apply (proj1 (operators_change_only_point_masses 0
                  [Normal_object false (PInt 0) (PInt 1) None;
                   Dirac___init__ (PInt 1) None]
                  0%nat (Normal_object false (PInt 0) (PInt 1) None)
                  eq_refl ltac:(discriminate))).
Defined.

(** * A Dirac on the left *)

Section DiracOnTheLeft.
Context {V : Type} `{AL : ArrayLayer V}.
Variable fuel : nat.

(** A Dirac on the left of a generic distribution or a Normal hands the
    operation over to the other class and is itself left as it was:
    [d + n] is [n + d] and [d * n] is [n * d], the same computation with
    the same result and store, and after either of them [d] is in the
    store as before; indeed the store has only grown.  [d ** n] raises
    [TypeError] and changes nothing: the method calls [n.__rtruediv__] with
    a keyword [modulo] that it does not take. *)
Theorem Dirac_defers_to_the_other_class
    (h : heap V) (d n : loc) (od on : object V) :
  h !! d = Some od -> class_of od = Dirac ->
  h !! n = Some on -> class_of on <> Dirac ->
  apply fuel add d n h = apply fuel add n d h
  /\ apply fuel mul d n h = apply fuel mul n d h
  /\ apply fuel pow d n h
     = (Raise (TypeError
          "__rtruediv__() got an unexpected keyword argument 'modulo'"), h)
  /\ snd (apply fuel add d n h) !! d = Some od
  /\ snd (apply fuel mul d n h) !! d = Some od
  /\ (exists t, snd (apply fuel add d n h) = h ++ t)
  /\ (exists t, snd (apply fuel mul d n h) = h ++ t).
Proof.
  intros Hd Cd Hn Cn.
  assert (A : apply fuel add d n h = apply fuel add n d h).
  { unfold apply. step. rewrite Cd. unfold Dirac___add__. step. step.
    symmetry. step. by destruct (class_of on). }
  assert (M : apply fuel mul d n h = apply fuel mul n d h).
  { unfold apply. step. rewrite Cd. unfold Dirac___mul__. step. step.
    symmetry. step. by destruct (class_of on). }
  assert (Ta : exists t, snd (apply fuel add d n h) = h ++ t).
  { rewrite A. unfold apply. step.
    destruct (class_of on); [ | congruence | ].
    - apply allocates_Distribution___add__.
    - apply allocates_Normal___add__. }
  assert (Tm : exists t, snd (apply fuel mul d n h) = h ++ t).
  { rewrite M. unfold apply. step.
    destruct (class_of on); [ | congruence | ].
    - apply allocates_Distribution___mul__.
    - apply allocates_Normal___mul__. }
  split; [ exact A | ]. split; [ exact M | ].
  split.
  { unfold apply. step. rewrite Cd. unfold Dirac___pow__. step. step.
    by destruct (class_of on). }
  split; [ destruct Ta as [t ->]; by apply lookup_kept | ].
  split; [ destruct Tm as [t ->]; by apply lookup_kept | ].
  split; assumption.
Qed.

End DiracOnTheLeft.

(** [Dirac(2) ** Normal(0, 1)] raises; after [Dirac(2) * Normal(0, 1)] the
    point mass is as before. *)
Lemma Dirac_defers_to_the_other_class_witness :
  apply 0 pow 0%nat 1%nat
    [Dirac___init__ (PInt 2) None; Normal_object false (PInt 0) (PInt 1) None]
  = (Raise (TypeError
       "__rtruediv__() got an unexpected keyword argument 'modulo'"),
     [Dirac___init__ (PInt 2) None; Normal_object false (PInt 0) (PInt 1) None])
  /\ snd (apply 0 mul 0%nat 1%nat
            [Dirac___init__ (PInt 2) None;
             Normal_object false (PInt 0) (PInt 1) None]) !! 0%nat
     = Some (Dirac___init__ (PInt 2) None).
Proof.
  destruct (Dirac_defers_to_the_other_class 0
              [Dirac___init__ (PInt 2) None;
               Normal_object false (PInt 0) (PInt 1) None]
              0%nat 1%nat (Dirac___init__ (PInt 2) None)
              (Normal_object false (PInt 0) (PInt 1) None)
              eq_refl eq_refl eq_refl ltac:(discriminate))
    as (_ & _ & Hpow & _ & Hmul & _).
  split; [ exact Hpow | exact Hmul ].
Defined.

(** * Random variables on a point mass share it *)

Section SharedPointMass.
Context {V : Type} `{AL : ArrayLayer V}.

Lemma mean_of_updated_Dirac (fuel : nat) (h : heap V) (d : loc)
    (o : object V) (r : V) :
  h !! d = Some o -> class_of o = Dirac ->
  moment_of (S fuel) (<[d := with_parameter o "support" r]> h) moment_mean d
  = Return r.
Proof.
  intros H C. cbn [moment_of].
  assert (E : @lookup loc (object V) (heap V) _ d
                (<[d := with_parameter o "support" r]> h)
              = Some (with_parameter o "support" r))
    by (by eapply lookup_updated).
  rewrite E. cbn [class_of with_parameter]. rewrite C.
  unfold Dirac_mean, getitem, with_parameter. cbn [_parameters].
  by rewrite lookup_insert_eq.
Qed.

(** A random variable [rv] on a point mass with support [s], combined with
    a constant [c].  [rv op c] changes the point mass of [rv] itself: the
    result holds the very distribution of [rv], whose support is now
    [s op c], so that the mean of [rv] has changed with it.  The reflected
    [c op rv] leaves [rv] alone: the result holds a new point mass at
    [c op s].  (Both for a scalar result; the constructor rejects others.) *)
Theorem RandomVariable_arithmetic_shares_the_point_mass
    (fuel : nat) (op : operator) (h : heap V) (rv : RandomVariable)
    (o : object V) (s c r : V) :
  h !! _distribution rv = Some o -> class_of o = Dirac ->
  _parameters o !! "support" = Some s ->
  np_isscalar r = true ->
  (primitive op s c = Return r ->
   let h' := <[_distribution rv := with_parameter o "support" r]>
               (h ++ [Dirac___init__ c None]) in
   RandomVariable__rv_from_op (S fuel) rv (Const c) op h
   = (Return {| _shape := []; _dtype := Some (dtype_of r);
                _distribution := _distribution rv |}, h')
   /\ RandomVariable_mean (S fuel) rv h' = (Return r, h'))
  /\ (primitive op c s = Return r ->
      let h' := h ++ [Dirac___init__ r None] in
      RandomVariable_reflected (S fuel) op rv (Const c) h
      = (Return {| _shape := []; _dtype := Some (dtype_of r);
                   _distribution := List.length h |}, h')
      /\ RandomVariable_mean (S fuel) rv h' = (Return s, h')).
Proof.
  intros H C Sup Hr.
  assert (Hc : @lookup loc (object V) (heap V) _ (List.length h)
                 (h ++ [Dirac___init__ c None])
               = Some (Dirac___init__ c None)) by apply lookup_allocated.
  assert (Hd : @lookup loc (object V) (heap V) _ (_distribution rv)
                 (h ++ [Dirac___init__ c None]) = Some o)
    by (by apply lookup_kept).
  pose proof (support_of_Dirac c None) as Sc.
  split; intros P h'.
  - assert (Hmean : moment_of (S fuel) h' moment_mean (_distribution rv)
                    = Return r) by (by apply mean_of_updated_Dirac).
    split.
    + unfold RandomVariable__rv_from_op.
      rewrite (bind_Return _ _ _ _ _ (asrandomvariable_Const fuel h c)).
      cbn [_distribution].
      erewrite (bind_Return (apply _ _ _ _)); cycle 1.
      { erewrite apply_on_Dirac by eassumption.
        erewrite Dirac_binary_on_Dirac by (eassumption || reflexivity).
        rewrite P. reflexivity. }
      fold h'. rewrite (RandomVariable___init___with_mean _ _ _ _ _ _ Hmean).
      rewrite Hr. cbv zeta. by rewrite bool_decide_eq_true_2.
    + unfold RandomVariable_mean. by rewrite Hmean.
  - assert (Hnew : @lookup loc (object V) (heap V) _ (List.length h) h'
                   = Some (Dirac___init__ r None)) by apply lookup_allocated.
    assert (Hmean : moment_of (S fuel) h' moment_mean (List.length h)
                    = Return r) by apply mean_of_new_Dirac.
    assert (Hrv : moment_of (S fuel) h' moment_mean (_distribution rv)
                  = Return s).
    { assert (Hd' : @lookup loc (object V) (heap V) _ (_distribution rv) h'
                    = Some o) by (by apply lookup_kept).
      cbn [moment_of]. rewrite Hd', C. unfold Dirac_mean, getitem.
      by rewrite Sup. }
    split.
    + unfold RandomVariable_reflected.
      rewrite (bind_Return _ _ _ _ _ (asrandomvariable_Const fuel h c)).
      unfold RandomVariable__rv_from_op.
      erewrite (bind_Return (asrandomvariable _ _)) by reflexivity.
      cbn [_distribution].
      erewrite (bind_Return (apply _ _ _ _)); cycle 1.
      { erewrite apply_on_Dirac by (eassumption || reflexivity).
        erewrite Dirac_binary_on_Dirac by (eassumption || reflexivity).
        rewrite P, Dirac_with_support.
        unfold heap, loc. rewrite insert_app_r_alt by reflexivity.
        rewrite Nat.sub_diag. reflexivity. }
      change (h ++ <[0%nat := Dirac___init__ r None]> [Dirac___init__ c None])
        with h'.
      rewrite (RandomVariable___init___with_mean _ _ _ _ _ _ Hmean).
      rewrite Hr. cbv zeta. by rewrite bool_decide_eq_true_2.
    + unfold RandomVariable_mean. by rewrite Hrv.
Qed.

(** [-rv], [+rv] and [abs(rv)] on a random variable [rv] on a point mass
    with support [s] change the point mass of [rv] itself, in place, to the
    result on [s]; then the constructor compares the shape of the new
    support with the shape of [rv].  The random variable returned holds the
    distribution of [rv]; when the shapes differ the constructor raises, and
    the point mass has been changed all the same. *)
Theorem RandomVariable_unary_on_point_mass
    (fuel : nat) (op : unary_operator) (h : heap V) (rv : RandomVariable)
    (o : object V) (s r : V) :
  h !! _distribution rv = Some o -> class_of o = Dirac ->
  _parameters o !! "support" = Some s ->
  unary_primitive op s = Return r ->
  let h' := <[_distribution rv := with_parameter o "support" r]> h in
  RandomVariable_unary (S fuel) op rv h
  = if bool_decide ((if np_isscalar r then [] else shape_of r) = _shape rv)
    then (Return {| _shape := _shape rv; _dtype := Some (dtype_of r);
                    _distribution := _distribution rv |}, h')
    else (Raise (ValueError
            "Shape of distribution mean and given shape do not match."), h').
Proof.
  intros H C Sup P h'.
  assert (Hmean : moment_of (S fuel) h' moment_mean (_distribution rv)
                  = Return r) by (by apply mean_of_updated_Dirac).
  unfold RandomVariable_unary.
  erewrite (bind_Return (apply_unary _ _)); cycle 1.
  { unfold apply_unary. step. rewrite C.
    destruct op; cbn [unary_primitive] in P;
      [ unfold Dirac___neg__ | unfold Dirac___pos__ | unfold Dirac___abs__ ];
      unfold Dirac_unary; do 3 step; reflexivity. }
  fold h'. rewrite (RandomVariable___init___with_mean _ _ _ _ _ _ Hmean).
  cbv zeta.
  destruct (bool_decide_reflect
              ((if np_isscalar r then [] else shape_of r) = _shape rv))
    as [E|E]; [ | reflexivity ].
  by rewrite E.
Qed.

End SharedPointMass.

(** [rv = asrandomvariable(1.); rv + 2.] and [2. + rv] *)
Lemma RandomVariable_arithmetic_shares_the_point_mass_witness :
  RandomVariable_mean 1
    {| _shape := []; _dtype := Some "float64"; _distribution := 0%nat |}
    [Dirac___init__ (PFloat 3) None; Dirac___init__ (PFloat 2) None]
  = (Return (PFloat 3),
     [Dirac___init__ (PFloat 3) None; Dirac___init__ (PFloat 2) None])
  /\ RandomVariable_reflected 1 add
       {| _shape := []; _dtype := Some "float64"; _distribution := 0%nat |}
       (Const (PFloat 2)) [Dirac___init__ (PFloat 1) None]
     = (Return {| _shape := []; _dtype := Some "float64";
                  _distribution := 1%nat |},
        [Dirac___init__ (PFloat 1) None; Dirac___init__ (PFloat 3) None]).
Proof.
  pose proof (RandomVariable_arithmetic_shares_the_point_mass 0 add
                [Dirac___init__ (PFloat 1) None]
                {| _shape := []; _dtype := Some "float64";
                   _distribution := 0%nat |}
                (Dirac___init__ (PFloat 1) None)
                (PFloat 1) (PFloat 2) (PFloat 3)
                eq_refl eq_refl eq_refl eq_refl) as [Hop Hrefl].
  split.
  - exact (proj2 (Hop eq_refl)).
  - exact (proj1 (Hrefl eq_refl)).
Defined.

(** [-asrandomvariable(1.)] *)
Lemma RandomVariable_unary_on_point_mass_witness :
  RandomVariable_unary 1 neg
    {| _shape := []; _dtype := Some "float64"; _distribution := 0%nat |}
    [Dirac___init__ (PFloat 1) None]
  = (Return {| _shape := []; _dtype := Some "float64";
               _distribution := 0%nat |},
     [Dirac___init__ (PFloat (-1)) None]).
Proof.
  exact (RandomVariable_unary_on_point_mass 0 neg
           [Dirac___init__ (PFloat 1) None]
           {| _shape := []; _dtype := Some "float64"; _distribution := 0%nat |}
           (Dirac___init__ (PFloat 1) None) (PFloat 1) (PFloat (-1))
           eq_refl eq_refl eq_refl eq_refl).
Defined.
